(** * ARISTA scraper: crawl-and-dedup engine, download pipeline, metadata store

    A shallow embedding of [updated_scrape.py] and of the parts of CPython's
    [urllib.parse] (3.11) that it calls, followed by the properties of the
    crawler that the specification states.

    Conventions of the embedding.
    - A Python [str] is a [string]; its characters are the code points below
      256.  On those, [str.lower] maps character by character, and
      [urllib.parse._checknetloc] never raises (no Latin-1 character
      NFKC-normalises to one of [/ ? # @ :]), so that check is omitted.
    - A Python [int] index is a [Z]; [find] answers [-1] when there is no
      occurrence and slices clamp the way Python's do.
    - A call that can raise returns [res A]: [Ok a] or [Raise e].
    - A Python [set] of strings is a [gset string], a [dict] keyed by strings
      a [gmap string _]. *)

From Stdlib Require Import ZArith Lia Bool Ascii String List.
From stdpp Require Import gmap strings list fin_maps pretty.

Local Open Scope Z_scope.

(** ** Exceptions *)

Inductive exn : Type :=
| ValueError (msg : string)
| TimeoutException
| WebDriverException
| RequestException
| OSError.

Inductive res (A : Type) : Type :=
| Ok (a : A)
| Raise (e : exn).
Arguments Ok {A} a.
Arguments Raise {A} e.

Definition bind {A B : Type} (r : res A) (k : A -> res B) : res B :=
  match r with
  | Ok a => k a
  | Raise e => Raise e
  end.

Notation "x <- r ;; k" := (bind r (fun x => k))
  (at level 100, r at next level, right associativity).

(** ** Python string primitives *)

Module Py.

Fixpoint len (s : string) : nat :=
  match s with
  | EmptyString => O
  | String _ s' => S (len s')
  end.

Fixpoint take (n : nat) (s : string) : string :=
  match n, s with
  | S n', String c s' => String c (take n' s')
  | _, _ => EmptyString
  end.

Fixpoint drop (n : nat) (s : string) : string :=
  match n, s with
  | S n', String _ s' => drop n' s'
  | _, _ => s
  end.

(** The offset a slice bound [i] denotes in a string of length [n]:
    negative bounds count from the end, and every bound is clamped. *)
Definition bound (n : nat) (i : Z) : nat :=
  if i <? 0 then Z.to_nat (Z.max 0 (Z.of_nat n + i))
  else Z.to_nat (Z.min i (Z.of_nat n)).

(** [s[:i]] and [s[i:]]. *)
Definition upto (s : string) (i : Z) : string := take (bound (len s) i) s.
Definition from (s : string) (i : Z) : string := drop (bound (len s) i) s.

(** [s[i:j]]. *)
Definition slice (s : string) (i j : Z) : string :=
  let a := bound (len s) i in
  let b := bound (len s) j in
  take (b - a)%nat (drop a s).

(** [c in s] for a one-character [c]. *)
Fixpoint contains (c : ascii) (s : string) : bool :=
  match s with
  | EmptyString => false
  | String d s' => Ascii.eqb d c || contains c s'
  end.

(** Offset of the first [c] in [s], counted from [k]. *)
Fixpoint find_at (c : ascii) (s : string) (k : nat) : Z :=
  match s with
  | EmptyString => -1
  | String d s' => if Ascii.eqb d c then Z.of_nat k else find_at c s' (S k)
  end.

(** [s.find(c)] and [s.find(c, start)] for [0 <= start]. *)
Definition find (c : ascii) (s : string) : Z := find_at c s O.
Definition find_from (c : ascii) (s : string) (start : Z) : Z :=
  let k := bound (len s) start in find_at c (drop k s) k.

(** Offset of the last [c] in [s], counted from [k]. *)
Fixpoint rfind_at (c : ascii) (s : string) (k : nat) : Z :=
  match s with
  | EmptyString => -1
  | String d s' =>
      let r := rfind_at c s' (S k) in
      if 0 <=? r then r else if Ascii.eqb d c then Z.of_nat k else -1
  end.

Definition rfind (c : ascii) (s : string) : Z := rfind_at c s O.

Fixpoint startswith (s p : string) : bool :=
  match p, s with
  | EmptyString, _ => true
  | String a p', String b s' => Ascii.eqb b a && startswith s' p'
  | String _ _, EmptyString => false
  end.

(** [s.endswith(x)]: some suffix of [s] is [x]. *)
Fixpoint endswith (s x : string) : bool :=
  String.eqb s x ||
  match s with
  | EmptyString => false
  | String _ s' => endswith s' x
  end.

Definition lower_char (c : ascii) : ascii :=
  let n := N_of_ascii c in
  if ((65 <=? n) && (n <=? 90) ||
      (192 <=? n) && (n <=? 222) && negb (n =? 215))%N
  then ascii_of_N (n + 32) else c.

Fixpoint lower (s : string) : string :=
  match s with
  | EmptyString => EmptyString
  | String c s' => String (lower_char c) (lower s')
  end.

Definition isascii (c : ascii) : bool := (N_of_ascii c <? 128)%N.

Definition isalpha_ascii (c : ascii) : bool :=
  let n := N_of_ascii c in
  ((65 <=? n) && (n <=? 90) || (97 <=? n) && (n <=? 122))%N.

Definition isdigit_ascii (c : ascii) : bool :=
  let n := N_of_ascii c in ((48 <=? n) && (n <=? 57))%N.

Fixpoint all (p : ascii -> bool) (s : string) : bool :=
  match s with
  | EmptyString => true
  | String c s' => p c && all p s'
  end.

(** [s.lstrip(chars)], [s.rstrip(chars)], [s.strip(chars)] with the set of
    characters given as a predicate. *)
Fixpoint lstrip (p : ascii -> bool) (s : string) : string :=
  match s with
  | EmptyString => EmptyString
  | String c s' => if p c then lstrip p s' else s
  end.

Fixpoint rstrip (p : ascii -> bool) (s : string) : string :=
  match s with
  | EmptyString => EmptyString
  | String c s' =>
      match rstrip p s' with
      | EmptyString => if p c then EmptyString else String c EmptyString
      | r => String c r
      end
  end.

Definition strip (p : ascii -> bool) (s : string) : string :=
  rstrip p (lstrip p s).

(** [s.replace(c, "")]. *)
Fixpoint remove (c : ascii) (s : string) : string :=
  match s with
  | EmptyString => EmptyString
  | String d s' => if Ascii.eqb d c then remove c s' else String d (remove c s')
  end.

(** [s.partition(c)]: head, whether the separator was found, tail. *)
Fixpoint partition (c : ascii) (s : string) : string * bool * string :=
  match s with
  | EmptyString => (EmptyString, false, EmptyString)
  | String d s' =>
      if Ascii.eqb d c then (EmptyString, true, s')
      else let '(h, f, t) := partition c s' in (String d h, f, t)
  end.

(** [s.rpartition(c)]: when [c] does not occur the whole string is the tail. *)
Fixpoint rpartition (c : ascii) (s : string) : string * bool * string :=
  match s with
  | EmptyString => (EmptyString, false, EmptyString)
  | String d s' =>
      let '(h, f, t) := rpartition c s' in
      if f then (String d h, true, t)
      else if Ascii.eqb d c then (EmptyString, true, s')
      else (EmptyString, false, String d t)
  end.

(** [s.split(c)]: always at least one piece. *)
Fixpoint split (c : ascii) (s : string) : list string :=
  match s with
  | EmptyString => [EmptyString]
  | String d s' =>
      if Ascii.eqb d c then EmptyString :: split c s'
      else match split c s' with
           | p :: ps => String d p :: ps
           | [] => [String d EmptyString]
           end
  end.

(** [sep.join(parts)]. *)
Fixpoint join (sep : string) (parts : list string) : string :=
  match parts with
  | [] => EmptyString
  | [p] => p
  | p :: ps => p +:+ sep +:+ join sep ps
  end.

(** [x in xs] for a list of strings. *)
Definition mem (x : string) (xs : list string) : bool :=
  existsb (String.eqb x) xs.

(** [os.path.basename] on a POSIX path: what follows the last [/]. *)
Definition basename (p : string) : string := from p (rfind "/" p + 1).

(** [os.path.join(a, b)] on POSIX paths. *)
Definition path_join (a b : string) : string :=
  if startswith b "/" then b
  else if (len a =? 0)%nat || endswith a "/" then a +:+ b
  else a +:+ "/" +:+ b.

End Py.

(** ** [urllib.parse] (CPython 3.11)

    The validation of a bracketed host ([ipaddress.ip_address] and the
    IPvFuture pattern, in [_check_bracketed_host]) is a parameter of the
    development: everything below holds whatever hosts it accepts. *)

Section Scraper.

Variable _check_bracketed_host : string -> bool.

Record SplitResult : Type := mkSplit {
  s_scheme : string;
  s_netloc : string;
  s_path : string;
  s_query : string;
  s_fragment : string
}.

Record ParseResult : Type := mkParse {
  scheme : string;
  netloc : string;
  path : string;
  params : string;
  query : string;
  fragment : string
}.

Definition uses_relative : list string :=
  [""; "ftp"; "http"; "gopher"; "nntp"; "imap"; "wais"; "file"; "https";
   "shttp"; "mms"; "prospero"; "rtsp"; "rtspu"; "sftp"; "svn"; "svn+ssh";
   "ws"; "wss"].

Definition uses_netloc : list string :=
  [""; "ftp"; "http"; "gopher"; "nntp"; "telnet"; "imap"; "wais"; "file";
   "mms"; "https"; "shttp"; "snews"; "prospero"; "rtsp"; "rtspu"; "rsync";
   "svn"; "svn+ssh"; "sftp"; "nfs"; "git"; "git+ssh"; "ws"; "wss"].

Definition uses_params : list string :=
  [""; "ftp"; "hdl"; "prospero"; "http"; "imap"; "https"; "shttp"; "rtsp";
   "rtspu"; "sip"; "sips"; "mms"; "sftp"; "tel"].

Definition scheme_chars (c : ascii) : bool :=
  Py.isalpha_ascii c || Py.isdigit_ascii c || Py.contains c "+-.".

(** [_WHATWG_C0_CONTROL_OR_SPACE]: the code points 0 to 32. *)
Definition _WHATWG_C0_CONTROL_OR_SPACE (c : ascii) : bool :=
  (N_of_ascii c <=? 32)%N.

(** [_UNSAFE_URL_BYTES_TO_REMOVE]: tab, carriage return, line feed. *)
Definition remove_unsafe_bytes (s : string) : string :=
  Py.remove "010" (Py.remove "013" (Py.remove "009" s)).

Definition _splitparams (url : string) : string * string :=
  if Py.contains "/" url then
    let i := Py.find_from ";" url (Py.rfind "/" url) in
    if i <? 0 then (url, "")
    else (Py.upto url i, Py.from url (i + 1))
  else
    let i := Py.find ";" url in
    (Py.upto url i, Py.from url (i + 1)).

Definition _splitnetloc (url : string) (start : Z) : string * string :=
  let delim :=
    fold_left
      (fun delim c =>
         let wdelim := Py.find_from c url start in
         if 0 <=? wdelim then Z.min delim wdelim else delim)
      ["/"; "?"; "#"]%char (Z.of_nat (Py.len url)) in
  (Py.slice url start delim, Py.from url delim).

Definition _check_bracketed_netloc (netloc : string) : res unit :=
  let hostname_and_port := snd (Py.rpartition "@" netloc) in
  let '(before_bracket, have_open_br, bracketed) :=
    Py.partition "[" hostname_and_port in
  if have_open_br then
    if negb (Py.len before_bracket =? 0)%nat then
      Raise (ValueError "Invalid IPv6 URL")
    else
      let '(hostname, _, port) := Py.partition "]" bracketed in
      if negb (Py.len port =? 0)%nat && negb (Py.startswith port ":") then
        Raise (ValueError "Invalid IPv6 URL")
      else if _check_bracketed_host hostname then Ok tt
      else Raise (ValueError "invalid bracketed host")
  else
    let '(hostname, _, _) := Py.partition ":" hostname_and_port in
    if _check_bracketed_host hostname then Ok tt
    else Raise (ValueError "invalid bracketed host").

Definition first_is_ascii_alpha (url : string) : bool :=
  match url with
  | String c _ => Py.isascii c && Py.isalpha_ascii c
  | EmptyString => false
  end.

(** Lines 503 to 509 of [urlsplit]: what precedes the first colon is the
    scheme when it starts with an ASCII letter and holds scheme characters
    only. *)
Definition split_scheme (url scheme : string) : string * string :=
  let i := Py.find ":" url in
  if (0 <? i) && first_is_ascii_alpha url
              && Py.all scheme_chars (Py.upto url i)
  then (Py.lower (Py.upto url i), Py.from url (i + 1))
  else (scheme, url).

(** Lines 512 to 516: the brackets of the network location. *)
Definition check_brackets (netloc : string) : res unit :=
  if Py.contains "[" netloc && negb (Py.contains "]" netloc)
     || Py.contains "]" netloc && negb (Py.contains "[" netloc)
  then Raise (ValueError "Invalid IPv6 URL")
  else if Py.contains "[" netloc && Py.contains "]" netloc
  then _check_bracketed_netloc netloc
  else Ok tt.

(** Lines 517 to 520: the fragment, then the query. *)
Definition split_tail (url : string) : string * string * string :=
  let '(url, fragment) :=
    if Py.contains "#" url
    then let '(h, _, t) := Py.partition "#" url in (h, t)
    else (url, EmptyString) in
  let '(url, query) :=
    if Py.contains "?" url
    then let '(h, _, t) := Py.partition "?" url in (h, t)
    else (url, EmptyString) in
  (url, query, fragment).

Definition urlsplit (url scheme : string) : res SplitResult :=
  let url := Py.lstrip _WHATWG_C0_CONTROL_OR_SPACE url in
  let scheme := Py.strip _WHATWG_C0_CONTROL_OR_SPACE scheme in
  let url := remove_unsafe_bytes url in
  let scheme := remove_unsafe_bytes scheme in
  let '(scheme, url) := split_scheme url scheme in
  located <-
    (if String.eqb (Py.upto url 2) "//" then
       let '(netloc, url) := _splitnetloc url 2 in
       _ <- check_brackets netloc ;; Ok (netloc, url)
     else Ok (EmptyString, url)) ;;
  let '(netloc, url) := located in
  let '(url, query, fragment) := split_tail url in
  Ok (mkSplit scheme netloc url query fragment).

Definition urlparse (url scheme : string) : res ParseResult :=
  splitresult <- urlsplit url scheme ;;
  let '(mkSplit scheme netloc url query fragment) := splitresult in
  let '(url, params) :=
    if Py.mem scheme uses_params && Py.contains ";" url
    then _splitparams url
    else (url, EmptyString) in
  Ok (mkParse scheme netloc url params query fragment).

(** The truth value of a string: it is not empty. *)
Definition nonempty (s : string) : bool := negb (Py.len s =? 0)%nat.

Definition urlunsplit (components : SplitResult) : string :=
  let '(mkSplit scheme netloc url query fragment) := components in
  let url :=
    if nonempty netloc
       || nonempty scheme && Py.mem scheme uses_netloc
          && negb (String.eqb (Py.upto url 2) "//")
    then
      let url :=
        if nonempty url && negb (String.eqb (Py.upto url 1) "/")
        then "/" +:+ url else url in
      "//" +:+ netloc +:+ url
    else url in
  let url := if nonempty scheme then scheme +:+ ":" +:+ url else url in
  let url := if nonempty query then url +:+ "?" +:+ query else url in
  let url := if nonempty fragment then url +:+ "#" +:+ fragment else url in
  url.

Definition urlunparse (components : ParseResult) : string :=
  let '(mkParse scheme netloc url params query fragment) := components in
  let url := if nonempty params then url +:+ ";" +:+ params else url in
  urlunsplit (mkSplit scheme netloc url query fragment).

(** [segments[1:-1] = filter(None, segments[1:-1])]. *)
Definition filter_inner (segments : list string) : list string :=
  match segments with
  | first :: (_ :: _) as rest =>
      first :: List.filter nonempty (removelast rest) ++ [List.last rest EmptyString]
  | _ => segments
  end.

Definition resolve_segments (segments : list string) : list string :=
  fold_left
    (fun resolved_path seg =>
       if String.eqb seg ".." then removelast resolved_path
       else if String.eqb seg "." then resolved_path
       else resolved_path ++ [seg])
    segments [].

Definition urljoin (base url : string) : res string :=
  if negb (nonempty base) then Ok url
  else if negb (nonempty url) then Ok base
  else
    b <- urlparse base EmptyString ;;
    u <- urlparse url (scheme b) ;;
    if negb (String.eqb (scheme u) (scheme b))
       || negb (Py.mem (scheme u) uses_relative)
    then Ok url
    else if Py.mem (scheme u) uses_netloc && nonempty (netloc u)
    then Ok (urlunparse u)
    else
      let netloc' :=
        if Py.mem (scheme u) uses_netloc then netloc b else netloc u in
      if negb (nonempty (path u)) && negb (nonempty (params u)) then
        let query' := if nonempty (query u) then query u else query b in
        Ok (urlunparse
              (mkParse (scheme u) netloc' (path b) (params b) query' (fragment u)))
      else
        let base_parts := Py.split "/" (path b) in
        let base_parts :=
          if negb (String.eqb (List.last base_parts EmptyString) EmptyString)
          then removelast base_parts else base_parts in
        let segments :=
          if String.eqb (Py.upto (path u) 1) "/"
          then Py.split "/" (path u)
          else filter_inner (base_parts ++ Py.split "/" (path u)) in
        let resolved_path := resolve_segments segments in
        let resolved_path :=
          if Py.mem (List.last segments EmptyString) ["."; ".."]
          then resolved_path ++ [EmptyString] else resolved_path in
        let joined := Py.join "/" resolved_path in
        Ok (urlunparse
              (mkParse (scheme u) netloc'
                       (if nonempty joined then joined else "/")
                       (params u) (query u) (fragment u))).

(** ** Utilities of [updated_scrape.py] *)

Definition is_valid_file_extension (url : string) (extensions_tuple : list string) : bool :=
  existsb (fun ext => Py.endswith (Py.lower url) ext) extensions_tuple.

Definition is_same_domain (base_url url : string) : res bool :=
  b <- urlparse base_url EmptyString ;;
  let base_domain := netloc b in
  u <- urlparse url EmptyString ;;
  let url_domain := netloc u in
  Ok (String.eqb base_domain url_domain
      || Py.endswith url_domain ("." +:+ base_domain)
      || Py.endswith base_domain ("." +:+ url_domain)).

Definition _replace_fragment (p : ParseResult) (fragment : string) : ParseResult :=
  mkParse (scheme p) (netloc p) (path p) (params p) (query p) fragment.

Definition _replace_path (p : ParseResult) (path : string) : ParseResult :=
  mkParse (scheme p) (netloc p) path (params p) (query p) (fragment p).

(** What [clean_url] does to the parsed components. *)
Definition clean_parts (parsed : ParseResult) : ParseResult :=
  let cleaned := _replace_fragment parsed EmptyString in
  let path := path cleaned in
  if Py.endswith path "/" && (1 <? Py.len path)%nat
  then _replace_path cleaned (Py.upto path (-1))
  else cleaned.

Definition clean_url (url : string) : res string :=
  parsed <- urlparse url EmptyString ;;
  Ok (urlunparse (clean_parts parsed)).

Definition excluded_extensions : list string :=
  [".png"; ".gif"; ".jpg"; ".jpeg"; ".bmp"; ".webp"; ".svg"; ".ico"; ".tiff";
   ".zip"; ".tar"; ".gz"; ".rar"; ".7z"; ".exe"; ".dmg"; ".pkg"; ".deb"; ".rpm";
   ".py"; ".java"; ".js"; ".c"; ".cpp"; ".h"; ".cs"; ".php"; ".rb"; ".go"; ".rs";
   ".md"; ".db"; ".sqlite"; ".so"; ".dll"].

Definition is_excluded_file (url : string) : bool :=
  existsb (fun ext => Py.endswith (Py.lower url) ext) excluded_extensions.

Definition common_extensions : list string :=
  [".pdf"; ".docx"; ".xlsx"; ".csv"; ".txt"; ".pptx"].

Definition get_extension_from_url (url : string) : string :=
  match List.find (fun ext => Py.endswith (Py.lower url) ext) common_extensions with
  | Some ext => ext
  | None => ".html"
  end.

(** The allow-list [scrape_and_download] passes to the crawl. *)
Definition default_extensions : list string :=
  [".pdf"; ".docx"; ".doc"; ".txt"; ".xlsx"; ".xls"; ".csv"; ".ppt"; ".pptx"].

(** ** The page renderer

    One anchor of a rendered page is what [link.get_attribute("href")]
    answers for it: an exception, [None], or a string.  The driver answers a
    [get] with the page's anchors or with an exception (a timeout or any
    other failure of [get], of the wait for [body], or of [find_elements]);
    its answer may depend on the URLs it was asked for before. *)

Definition Anchor : Type := res (option string).
Definition Driver : Type := list string -> string -> res (list Anchor).

(** ** Scraping *)

(** What lines 117 to 128 decide for a canonical URL. *)
Inductive LinkClass : Type :=
| File
| Page
| Ignored.

Definition classify (base_url : string) (extensions : list string)
    (old_visited_pages old_file_links : gset string) (cleaned_url : string)
    : res LinkClass :=
  if is_excluded_file cleaned_url
     && negb (is_valid_file_extension cleaned_url extensions)
  then Ok Ignored
  else if bool_decide (cleaned_url ∈ old_visited_pages)
          || bool_decide (cleaned_url ∈ old_file_links)
  then Ok Ignored
  else
    same <- is_same_domain base_url cleaned_url ;;
    if negb same then Ok Ignored
    else if is_valid_file_extension cleaned_url extensions then Ok File
    else if Py.startswith cleaned_url base_url then Ok Page
    else Ok Ignored.

(** The body of the loop over the anchors; an exception anywhere in it is
    caught and the anchor is dropped. *)
Definition process_link (url base_url : string) (extensions : list string)
    (old_visited_pages old_file_links : gset string)
    (acc : gset string * gset string) (link : Anchor)
    : gset string * gset string :=
  let '(file_links, page_links) := acc in
  let attempt :=
    href <- link ;;
    match href with
    | None => Ok None
    | Some href =>
        if negb (nonempty href) then Ok None
        else
          absolute_url <- urljoin url href ;;
          cleaned_url <- clean_url absolute_url ;;
          c <- classify base_url extensions old_visited_pages old_file_links
                 cleaned_url ;;
          Ok (Some (cleaned_url, c))
    end in
  match attempt with
  | Ok (Some (cleaned_url, File)) => ({[cleaned_url]} ∪ file_links, page_links)
  | Ok (Some (cleaned_url, Page)) => (file_links, {[cleaned_url]} ∪ page_links)
  | Ok (Some (_, Ignored)) | Ok None | Raise _ => acc
  end.

(** [history] lists the URLs the driver was asked for before this call. *)
Definition scrape_page_for_links_and_files (url base_url : string)
    (extensions : list string) (old_visited_pages old_file_links : gset string)
    (driver : Driver) (history : list string) : gset string * gset string :=
  match driver history url with
  | Ok links =>
      fold_left
        (process_link url base_url extensions old_visited_pages old_file_links)
        links (∅, ∅)
  | Raise _ => (∅, ∅)
  end.

(** ** The breadth-first crawl *)

(** A quota: an [int], or [float('inf')]. *)
Inductive number : Type :=
| Int (n : Z)
| Inf.

Definition lt_number (n : Z) (q : number) : bool :=
  match q with
  | Int m => n <? m
  | Inf => true
  end.

(** The variables of [bfs_crawl], and the URLs the driver was asked for so
    far, oldest first.  A queue entry is the URL alone: the depth that the
    source pairs it with is always 0 and never read. *)
Record CrawlState : Type := mkCrawl {
  queue : list string;
  visited_pages : gset string;
  file_links : gset string;
  pages_scraped : Z;
  rendered : list string
}.

(** The loop over [new_page_links]. *)
Fixpoint enqueue_pages (page_links : list string) (queue : list string)
    (visited_pages : gset string) : res (list string * gset string) :=
  match page_links with
  | [] => Ok (queue, visited_pages)
  | page_link :: rest =>
      cleaned_link <- clean_url page_link ;;
      if negb (bool_decide (cleaned_link ∈ visited_pages))
         && negb (is_excluded_file cleaned_link)
      then enqueue_pages rest (queue ++ [cleaned_link])
             ({[cleaned_link]} ∪ visited_pages)
      else enqueue_pages rest queue visited_pages
  end.

Definition loop_guard (max_pages max_files : number) (st : CrawlState) : bool :=
  negb (Nat.eqb (length (queue st)) 0)
  && lt_number (pages_scraped st) max_pages
  && lt_number (Z.of_nat (size (file_links st))) max_files.

(** The [while] loop; [None] when [fuel] iterations were not enough. *)
Fixpoint bfs_loop (fuel : nat) (base_url : string) (extensions : list string)
    (max_pages max_files : number) (driver : Driver) (st : CrawlState)
    : option (res CrawlState) :=
  if loop_guard max_pages max_files st then
    match fuel with
    | O => None
    | S fuel' =>
        match queue st with
        | [] => Some (Ok st)
        | current_url :: queue' =>
            if is_excluded_file current_url then
              bfs_loop fuel' base_url extensions max_pages max_files driver
                (mkCrawl queue' (visited_pages st) (file_links st)
                         (pages_scraped st) (rendered st))
            else
              let '(new_file_links, new_page_links) :=
                scrape_page_for_links_and_files current_url base_url extensions
                  (visited_pages st) (file_links st) driver (rendered st) in
              let file_links' := file_links st ∪ new_file_links in
              let rendered' := rendered st ++ [current_url] in
              if negb (lt_number (Z.of_nat (size file_links')) max_files) then
                Some (Ok (mkCrawl queue' (visited_pages st) file_links'
                                  (pages_scraped st) rendered'))
              else
                match enqueue_pages (elements new_page_links) queue'
                        (visited_pages st) with
                | Raise e => Some (Raise e)
                | Ok (queue'', visited_pages') =>
                    bfs_loop fuel' base_url extensions max_pages max_files driver
                      (mkCrawl queue'' visited_pages' file_links'
                               (pages_scraped st + 1) rendered')
                end
        end
    end
  else Some (Ok st).

(** [bfs_crawl] up to its [return]: the final values of its variables. *)
Definition bfs_run (fuel : nat) (start_url : string) (extensions : list string)
    (max_pages max_files : number) (driver : Driver)
    : option (res CrawlState) :=
  match (p <- urlparse start_url EmptyString ;;
         p' <- urlparse start_url EmptyString ;;
         cleaned <- clean_url start_url ;;
         Ok (scheme p +:+ "://" +:+ netloc p', cleaned)) with
  | Raise e => Some (Raise e)
  | Ok (base_url, cleaned) =>
      bfs_loop fuel base_url extensions max_pages max_files driver
        (mkCrawl [start_url] {[cleaned]} ∅ 0 [])
  end.

Definition bfs_crawl (fuel : nat) (start_url : string) (extensions : list string)
    (max_pages max_files : number) (driver : Driver)
    : option (res (gset string * Z)) :=
  match bfs_run fuel start_url extensions max_pages max_files driver with
  | None => None
  | Some (Raise e) => Some (Raise e)
  | Some (Ok st) => Some (Ok (file_links st, pages_scraped st))
  end.

(** ** The metadata store

    [documents/documents_metadata.json] holds a mapping from file name to
    record ([doc_url] is its key [url]); [None] is the file not existing
    yet. *)

Record DocRecord : Type := mkDoc {
  doc_url : string;
  update_history : list string
}.

Definition MetadataFile : Type := option (gmap string DocRecord).

Definition load_metadata (file : MetadataFile) : gmap string DocRecord :=
  match file with
  | Some metadata => metadata
  | None => ∅
  end.

Definition save_metadata (metadata : gmap string DocRecord) : MetadataFile :=
  Some metadata.

(** Lines 49 to 55: the record of [file_key] is created, or its history
    extended. *)
Definition upsert (file_key url now : string) (metadata : gmap string DocRecord)
    : gmap string DocRecord :=
  match metadata !! file_key with
  | None => <[file_key := mkDoc url [now]]> metadata
  | Some r => <[file_key := mkDoc (doc_url r) (update_history r ++ [now])]> metadata
  end.

(** [response] is how the request and the writing of the body to [save_path]
    end (lines 38 to 43); [now] is what [datetime.now().isoformat()]
    answers.  The function answers its result and the metadata file it
    leaves. *)
Definition save_file_with_metadata (url save_path : string)
    (response : res unit) (now : string) (file : MetadataFile)
    : bool * MetadataFile :=
  match response with
  | Raise _ => (false, file)
  | Ok _ =>
      let metadata := load_metadata file in
      let file_key := Py.basename save_path in
      (true, save_metadata (upsert file_key url now metadata))
  end.

(** ** The download pipeline *)

(** One submitted task: [save_file_with_metadata(url, save_path)], with what
    the network and the clock will answer it. *)
Record Task : Type := mkTask {
  t_url : string;
  t_save_path : string;
  t_response : res unit;
  t_now : string
}.

(** Where the thread of a task stands: the task is still in the pool's
    queue; a thread took it and is at the request (line 38); the body is
    written (before line 46); the metadata is loaded (after line 46, the
    thread holding its own copy); the call has returned. *)
Inductive Worker : Type :=
| Queued
| Running
| Downloaded
| Loaded (metadata : gmap string DocRecord)
| Returned (result : bool).

Definition is_queued (w : Worker) : bool :=
  match w with Queued => true | _ => false end.

Definition in_flight (w : Worker) : bool :=
  match w with Running | Downloaded | Loaded _ => true | _ => false end.

Definition max_workers : nat := 10.

(** The pool hands out the tasks in the order of submission, and one only
    while fewer than [max_workers] are running. *)
Definition may_start (i : nat) (workers : list Worker) : bool :=
  forallb (fun w => negb (is_queued w)) (firstn i workers)
  && (length (List.filter in_flight workers) <? max_workers)%nat.

(** One step of the thread of task [i]. *)
Definition worker_step (i : nat) (tasks : list Task)
    (pool : list Worker * MetadataFile) : list Worker * MetadataFile :=
  let '(workers, file) := pool in
  match tasks !! i, workers !! i with
  | Some t, Some Queued =>
      if may_start i workers then (<[i := Running]> workers, file) else pool
  | Some t, Some Running =>
      match t_response t with
      | Raise _ => (<[i := Returned false]> workers, file)
      | Ok _ => (<[i := Downloaded]> workers, file)
      end
  | Some t, Some Downloaded =>
      (<[i := Loaded (load_metadata file)]> workers, file)
  | Some t, Some (Loaded metadata) =>
      (<[i := Returned true]> workers,
       save_metadata
         (upsert (Py.basename (t_save_path t)) (t_url t) (t_now t) metadata))
  | _, _ => pool
  end.

(** Leaving the [with] block waits for every task: whatever the schedule
    left unfinished runs to its end, oldest task first. *)
Definition finish_task (tasks : list Task)
    (pool : list Worker * MetadataFile) (i : nat) : list Worker * MetadataFile :=
  worker_step i tasks
    (worker_step i tasks (worker_step i tasks (worker_step i tasks pool))).

Definition finish_all (tasks : list Task)
    (pool : list Worker * MetadataFile) : list Worker * MetadataFile :=
  fold_left (finish_task tasks) (seq 0 (length tasks)) pool.

(** The pool under a schedule: the list of the threads' turns. *)
Definition run_pool (tasks : list Task) (schedule : list nat)
    (file : MetadataFile) : list Worker * MetadataFile :=
  finish_all tasks
    (fold_left (fun pool i => worker_step i tasks pool) schedule
       (replicate (length tasks) Queued, file)).

(** What the environment answers the download of [url]. *)
Definition Network : Type := string -> res unit * string.

(** What [download_files] prints. *)
Inductive Printed : Type :=
| NoFilesToDownload
| CreatedDocumentsDirectory
| DocumentsDirectoryExists
| SuccessfullyDownloaded (successful_downloads : Z) (total : nat)
| TotalTime.

(** A Python value a function of this file returns. *)
Inductive PyValue : Type :=
| PyNone
| PyInt (n : Z)
| PyBool (b : bool).

(** The loop that submits the tasks (lines 176 to 185), [count] tasks
    already submitted. *)
Fixpoint submit_all (urls : list string) (max_files : number)
    (successful_downloads : Z) (count : Z) (network : Network)
    : list Task * res unit :=
  match urls with
  | [] => ([], Ok tt)
  | url :: urls' =>
      if negb (lt_number count max_files) then ([], Ok tt)
      else
        match urlparse url EmptyString with
        | Raise e => ([], Raise e)
        | Ok parsed =>
            let filename := Py.basename (path parsed) in
            let filename :=
              if negb (nonempty filename) || negb (Py.contains "." filename)
              then "document_" +:+ pretty (successful_downloads + 1)
                   +:+ get_extension_from_url url
              else filename in
            let save_path := Py.path_join "documents" filename in
            let '(response, now) := network url in
            let '(tasks, r) :=
              submit_all urls' max_files successful_downloads (count + 1) network in
            (mkTask url save_path response now :: tasks, r)
        end
  end.

Record World : Type := mkWorld {
  documents_dir : bool;
  metadata_file : MetadataFile
}.

Record Download : Type := mkDownload {
  d_return : res PyValue;
  d_printed : list Printed;
  d_submitted : list Task;
  d_results : list Worker;
  d_world : World
}.

Definition create_documents_dir (w : World) : list Printed * World :=
  if documents_dir w then ([DocumentsDirectoryExists], w)
  else ([CreatedDocumentsDirectory], mkWorld true (metadata_file w)).

(** The number of futures whose result is true (lines 186 to 191). *)
Definition count_successes (results : list Worker) : Z :=
  Z.of_nat (length (List.filter (fun w => match w with Returned true => true | _ => false end) results)).

Definition download_files (file_links : gset string) (max_files : number)
    (network : Network) (schedule : list nat) (w : World) : Download :=
  if bool_decide (file_links = ∅) then
    mkDownload (Ok PyNone) [NoFilesToDownload] [] [] w
  else
    let '(printed, w) := create_documents_dir w in
    let successful_downloads := 0 in
    let '(tasks, submitted) :=
      submit_all (elements file_links) max_files successful_downloads 0 network in
    let '(workers, file) := run_pool tasks schedule (metadata_file w) in
    let w := mkWorld (documents_dir w) file in
    match submitted with
    | Raise e => mkDownload (Raise e) printed tasks workers w
    | Ok _ =>
        let successful_downloads := successful_downloads + count_successes workers in
        mkDownload (Ok PyNone)
          (printed ++ [SuccessfullyDownloaded successful_downloads (size file_links);
                       TotalTime])
          tasks workers w
    end.

(** ** The manual update *)




(** ** The pipeline *)

(** What [scrape_and_download] ends with: nothing more when the login
    failed; else the final statistics it prints, with the outcome of the
    download stage. *)
Inductive Pipeline : Type :=
| LoginFailed
| FinalStats (pages_scraped : Z) (files_found : nat) (download : Download).

(** [logged_in] is what [login_to_website] answers, [driver] the browser
    after it. *)
Definition scrape_and_download (fuel : nat) (start_url : string)
    (max_pages max_files : number) (logged_in : bool) (driver : Driver)
    (network : Network) (schedule : list nat) (w : World)
    : option (res Pipeline) :=
  let extensions := default_extensions in
  if negb logged_in then Some (Ok LoginFailed)
  else
    match bfs_crawl fuel start_url extensions max_pages max_files driver with
    | None => None
    | Some (Raise e) => Some (Raise e)
    | Some (Ok (file_links, pages_scraped)) =>
        let d := download_files file_links max_files network schedule w in
        match d_return d with
        | Raise e => Some (Raise e)
        | Ok _ => Some (Ok (FinalStats pages_scraped (size file_links) d))
        end
    end.

(** * Predicates and measures of the proofs *)

(** The download of the task ends without an exception. *)
Definition ok_response (t : Task) : bool :=
  match t_response t with Ok _ => true | Raise _ => false end.

(** What a worker's state says about its task. *)
Definition worker_ok (t : Task) (w : Worker) : Prop :=
  match w with
  | Queued | Running => True
  | Downloaded | Loaded _ => ok_response t = true
  | Returned b => b = ok_response t
  end.

(** The invariant of the pool: one worker per task, each in a state its
    task allows, and the tasks still queued are the last ones. *)
Definition pool_inv (tasks : list Task) (workers : list Worker) : Prop :=
  length workers = length tasks
  /\ (forall i t w, tasks !! i = Some t -> workers !! i = Some w -> worker_ok t w)
  /\ (forall i j w, (i < j)%nat -> workers !! i = Some Queued ->
        workers !! j = Some w -> w = Queued).

(** The state a step of its thread takes a started worker to. *)
Definition advance (t : Task) (file : MetadataFile) (w : Worker) : Worker :=
  match w with
  | Queued => Running
  | Running => if ok_response t then Downloaded else Returned false
  | Downloaded => Loaded (load_metadata file)
  | Loaded _ => Returned true
  | Returned b => Returned b
  end.

(** The call of the worker has returned. *)
Definition is_returned (w : Worker) : bool :=
  match w with Returned _ => true | _ => false end.

(** [urlparse] accepts the URL. *)
Definition parses (url : string) : Prop :=
  exists p, urlparse url EmptyString = Ok p.

(** The turns that leaving the [with] block adds to a schedule. *)
Definition completion (tasks : list Task) : list nat :=
  flat_map (fun i => [i; i; i; i]) (seq 0 (length tasks)).







(** The number of queue entries with an excluded extension. *)
Definition excluded_in (queue : list string) : nat :=
  length (List.filter is_excluded_file queue).

(** No tab, carriage return or line feed. *)
Definition no_unsafe (s : string) : bool :=
  negb (Py.contains "009" s) && negb (Py.contains "013" s)
  && negb (Py.contains "010" s).

(** The first character, if any, is not one that [lstrip] removes. *)
Definition starts_clean (s : string) : bool :=
  match s with
  | String c _ => negb (_WHATWG_C0_CONTROL_OR_SPACE c)
  | EmptyString => true
  end.

(** A scheme as [urlsplit] answers it: empty, or lower-case scheme
    characters behind an ASCII letter. *)
Definition scheme_wf (s : string) : bool :=
  negb (nonempty s)
  || first_is_ascii_alpha s && starts_clean s && Py.all scheme_chars s
     && String.eqb (Py.lower s) s && negb (Py.contains ":" s) && no_unsafe s.

(** One of the characters that end a network location. *)
Definition is_delim (c : ascii) : bool :=
  Ascii.eqb c "/" || Ascii.eqb c "?" || Ascii.eqb c "#".

(** The number of characters before the first of [/ ? #]. *)
Fixpoint first_delim (s : string) : nat :=
  match s with
  | EmptyString => O
  | String c s' => if is_delim c then O else S (first_delim s')
  end.

(** Neither [/] nor [?] nor [#]. *)
Definition no_delim (s : string) : bool :=
  negb (Py.contains "/" s) && negb (Py.contains "?" s) && negb (Py.contains "#" s).

(** Empty, or starting with one of [/ ? #]. *)
Definition starts_delim (s : string) : bool :=
  match s with
  | EmptyString => true
  | String c _ => is_delim c
  end.

(** The [delim] that the loop of [_splitnetloc] computes. *)
Definition netloc_end (s : string) (k : nat) (init : Z) : Z :=
  fold_left
    (fun delim c =>
       let wdelim := Py.find_at c s k in
       if 0 <=? wdelim then Z.min delim wdelim else delim)
    ["/"; "?"; "#"]%char init.

(** Empty, or starting with [/]. *)
Definition starts_slash (s : string) : bool :=
  match s with
  | EmptyString => true
  | String c _ => Ascii.eqb c "/"
  end.

(** The text that [urlunsplit] builds from a path and a query. *)
Definition tail_text (path query : string) : string :=
  if nonempty query then path +:+ "?" +:+ query else path.

(** The text of a URL with a network location. *)
Definition url_text (sch net url query : string) : string :=
  (if nonempty sch then sch +:+ ":" else EmptyString)
  +:+ "//" +:+ net +:+ tail_text url query.

Definition split_wf (r : SplitResult) : Prop :=
  scheme_wf (s_scheme r) = true
  /\ nonempty (s_netloc r) = true
  /\ no_delim (s_netloc r) = true
  /\ check_brackets (s_netloc r) = Ok tt
  /\ starts_slash (s_path r) = true
  /\ Py.contains "?" (s_path r) = false
  /\ Py.contains "#" (s_path r) = false
  /\ Py.contains "#" (s_query r) = false
  /\ no_unsafe (s_netloc r) = true
  /\ no_unsafe (s_path r) = true
  /\ no_unsafe (s_query r) = true.

(** The path that [clean_parts] leaves. *)
Definition trim (path : string) : string :=
  if Py.endswith path "/" && (1 <? Py.len path)%nat then Py.upto path (-1) else path.

(** The path and parameters as [urlunparse] joins them. *)
Definition path_text (pa pr : string) : string :=
  if nonempty pr then pa +:+ ";" +:+ pr else pa.

(** The anchor has an [href] to follow: a string that is not empty. *)
Definition usable (link : Anchor) : bool :=
  match link with
  | Ok (Some href) => nonempty href
  | _ => false
  end.

(** The file name [download_files] saves [url] under, [parsed] being the
    parsed URL: the last segment of the path or, without one that has a
    dot, the fallback name built from the count of successes so far. *)
Definition file_name (url : string) (parsed : ParseResult)
    (successful_downloads : Z) : string :=
  let filename := Py.basename (path parsed) in
  if negb (nonempty filename) || negb (Py.contains "." filename)
  then "document_" +:+ pretty (successful_downloads + 1)
       +:+ get_extension_from_url url
  else filename.



(** Where a pool of the single task [t] stands, started on [file0]. *)
Definition lone_task (t : Task) (file0 : MetadataFile)
    (pool : list Worker * MetadataFile) : Prop :=
  match fst pool with
  | [Queued] | [Running] => snd pool = file0
  | [Downloaded] => snd pool = file0 /\ ok_response t = true
  | [Loaded m] =>
      snd pool = file0 /\ m = load_metadata file0 /\ ok_response t = true
  | [Returned b] =>
      (b, snd pool)
      = save_file_with_metadata (t_url t) (t_save_path t) (t_response t)
          (t_now t) file0
  | _ => False
  end.


(** * Concrete inputs *)

(** The parser of CPython before 3.11.4, which accepts every bracketed
    host.  No URL of the runs below has a pair of brackets, so the validator
    is never asked. *)
Definition accept_host (_ : string) : bool := true.

(** A network on which every download succeeds. *)
Definition good_network : Network :=
  fun _ => (Ok tt, "2025-06-01T12:00:00"%string).

Definition new_world : World := mkWorld false None.

(** A driver whose every page times out. *)
Definition dead_driver : Driver := fun _ _ => Raise TimeoutException.

(** The site of the specification's scenario: the seed links to a page and
    a file, the page links back to the seed and to a second file. *)
Definition small_site : Driver :=
  fun _ url =>
    if String.eqb url "https://ex.com" then
      Ok [Ok (Some "https://ex.com/a"%string);
          Ok (Some "https://ex.com/doc.pdf"%string)]
    else if String.eqb url "https://ex.com/a" then
      Ok [Ok (Some "https://ex.com"%string);
          Ok (Some "https://ex.com/doc2.pdf"%string)]
    else Raise WebDriverException.


(** A clock that stamps each download with its URL. *)
Definition stamping_network : Network :=
  fun url => (Ok tt, "at:" +:+ url).


(** The same site with the driver timing out on the second page: the crawl
    goes on to its end with the file of the first page. *)
Definition small_site_timeout : Driver :=
  fun history url =>
    if String.eqb url "https://ex.com/a" then Raise TimeoutException
    else small_site history url.


(** A page with four anchors, of which the last alone has an [href] to
    follow, and the page with that anchor alone. *)
Definition noisy_page : Driver :=
  fun _ _ =>
    Ok [Ok None; Ok (Some EmptyString); Raise WebDriverException;
        Ok (Some "https://ex.com/doc.pdf"%string)].

Definition quiet_page : Driver :=
  fun _ _ => Ok [Ok (Some "https://ex.com/doc.pdf"%string)].



(** * Properties *)

(** ** The crawl under an exhausted file quota *)

Lemma clean_url_parsed (url : string) (p : ParseResult) :
  urlparse url EmptyString = Ok p ->
  clean_url url = Ok (urlunparse (clean_parts p)).
Proof. intros H. unfold clean_url. rewrite H. reflexivity. Qed.



(** ** The worker pool *)

Lemma pool_inv_init (tasks : list Task) :
  pool_inv tasks (replicate (length tasks) Queued).
Proof.
  split; [apply length_replicate|]. split.
  - intros i t w _ Hw. apply lookup_replicate in Hw as [-> _]. exact I.
  - intros i j w _ _ Hw. now apply lookup_replicate in Hw as [-> _].
Qed.

Lemma may_start_not_queued (i j : nat) (workers : list Worker) :
  may_start i workers = true -> (j < i)%nat -> workers !! j <> Some Queued.
Proof.
  unfold may_start. intros H Hj Hq.
  apply andb_prop in H as [H _].
  rewrite forallb_forall in H.
  assert (Hin : In Queued (firstn i workers)).
  { apply list_elem_of_In, list_elem_of_lookup. exists j.
    now rewrite lookup_take_lt. }
  now apply H in Hin.
Qed.

(** Replacing the state of a started worker by another started state. *)
Lemma pool_inv_insert (tasks : list Task) (workers : list Worker) (i : nat)
    (t : Task) (w w' : Worker) :
  pool_inv tasks workers ->
  tasks !! i = Some t -> workers !! i = Some w ->
  worker_ok t w' -> is_queued w' = false ->
  (is_queued w = true -> forall j, (j < i)%nat -> workers !! j <> Some Queued) ->
  pool_inv tasks (<[i := w']> workers).
Proof.
  intros (Hlen & Hok & Hpre) Ht Hw Hw' Hq Hstart.
  assert (Hi : (i < length workers)%nat) by (eapply lookup_lt_Some; eauto).
  split; [now rewrite length_insert|]. split.
  - intros k t0 w0 Ht0 Hw0. destruct (decide (i = k)) as [<-|Hne].
    + rewrite list_lookup_insert_eq in Hw0 by exact Hi. congruence.
    + rewrite list_lookup_insert_ne in Hw0 by exact Hne. eauto.
  - intros a b w0 Hab Ha Hb.
    destruct (decide (i = a)) as [<-|Hna].
    { rewrite list_lookup_insert_eq in Ha by exact Hi.
      inversion Ha; subst w'. discriminate. }
    rewrite list_lookup_insert_ne in Ha by exact Hna.
    destruct (decide (i = b)) as [<-|Hnb].
    + rewrite list_lookup_insert_eq in Hb by exact Hi. inversion Hb; subst w0.
      exfalso. pose proof (Hpre a i w Hab Ha Hw) as ->.
      eapply Hstart; eauto.
    + rewrite list_lookup_insert_ne in Hb by exact Hnb. eauto.
Qed.

Lemma worker_step_inv (i : nat) (tasks : list Task) (workers : list Worker)
    (file : MetadataFile) :
  pool_inv tasks workers ->
  pool_inv tasks (fst (worker_step i tasks (workers, file))).
Proof.
  intros Hinv. unfold worker_step.
  destruct (tasks !! i) as [t|] eqn:Ht; [|exact Hinv].
  destruct (workers !! i) as [w|] eqn:Hw; [|exact Hinv].
  pose proof Hinv as (_ & Hok & _). specialize (Hok i t w Ht Hw).
  destruct w as [| | |m|b]; cbn [fst].
  - destruct (may_start i workers) eqn:Hs; [|exact Hinv].
    cbn [fst]. apply (pool_inv_insert tasks workers i t Queued Running Hinv Ht Hw);
      [exact I | reflexivity | intros _ j Hj; now apply (may_start_not_queued i)].
  - unfold ok_response in *.
    destruct (t_response t) eqn:Hr; cbn [fst].
    + apply (pool_inv_insert tasks workers i t Running Downloaded Hinv Ht Hw);
        [cbn; unfold ok_response; now rewrite Hr | reflexivity | discriminate].
    + apply (pool_inv_insert tasks workers i t Running (Returned false) Hinv Ht Hw);
        [cbn; unfold ok_response; now rewrite Hr | reflexivity | discriminate].
  - apply (pool_inv_insert tasks workers i t Downloaded (Loaded (load_metadata file))
             Hinv Ht Hw); [exact Hok | reflexivity | discriminate].
  - apply (pool_inv_insert tasks workers i t (Loaded m) (Returned true) Hinv Ht Hw);
      [cbn; now rewrite Hok | reflexivity | discriminate].
  - exact Hinv.
Qed.

Lemma schedule_inv (tasks : list Task) (schedule : list nat)
    (workers : list Worker) (file : MetadataFile) :
  pool_inv tasks workers ->
  pool_inv tasks
    (fst (fold_left (fun pool i => worker_step i tasks pool) schedule (workers, file))).
Proof.
  revert workers file. induction schedule as [|i schedule IH]; intros workers file Hinv.
  - exact Hinv.
  - cbn [fold_left].
    destruct (worker_step i tasks (workers, file)) as [workers' file'] eqn:Hstep.
    apply IH. change workers' with (fst (workers', file')). rewrite <- Hstep.
    now apply worker_step_inv.
Qed.

Lemma worker_step_other (i k : nat) (tasks : list Task) (workers : list Worker)
    (file : MetadataFile) :
  i <> k -> fst (worker_step i tasks (workers, file)) !! k = workers !! k.
Proof.
  intros Hne. unfold worker_step.
  destruct (tasks !! i) as [t|]; [|reflexivity].
  destruct (workers !! i) as [[| | |m|b]|]; cbn [fst]; try reflexivity.
  - destruct (may_start i workers); cbn [fst]; [|reflexivity].
    now apply list_lookup_insert_ne.
  - destruct (t_response t); cbn [fst]; now apply list_lookup_insert_ne.
  - now apply list_lookup_insert_ne.
  - now apply list_lookup_insert_ne.
Qed.

Lemma worker_step_at (i : nat) (tasks : list Task) (workers : list Worker)
    (file : MetadataFile) (t : Task) (w : Worker) :
  tasks !! i = Some t -> workers !! i = Some w ->
  (is_queued w = true -> may_start i workers = true) ->
  fst (worker_step i tasks (workers, file)) !! i = Some (advance t file w).
Proof.
  intros Ht Hw Hs. unfold worker_step. rewrite Ht, Hw.
  assert (Hi : (i < length workers)%nat) by (eapply lookup_lt_Some; eauto).
  destruct w as [| | |m|b]; cbn [advance].
  - rewrite Hs by reflexivity. cbn [fst]. now apply list_lookup_insert_eq.
  - unfold ok_response. destruct (t_response t); cbn [fst];
      now apply list_lookup_insert_eq.
  - cbn [fst]. now apply list_lookup_insert_eq.
  - cbn [fst]. now apply list_lookup_insert_eq.
  - exact Hw.
Qed.

Lemma advance_not_queued (t : Task) (file : MetadataFile) (w : Worker) :
  is_queued (advance t file w) = false.
Proof. destruct w; cbn; try reflexivity. now destruct (ok_response t). Qed.

Lemma advance_four (t : Task) (f0 f1 f2 f3 : MetadataFile) (w : Worker) :
  is_returned (advance t f3 (advance t f2 (advance t f1 (advance t f0 w)))) = true.
Proof. destruct w; cbn; destruct (ok_response t); reflexivity. Qed.

Lemma filter_none {A : Type} (f : A -> bool) (l : list A) :
  (forall x, In x l -> f x = false) -> List.filter f l = [].
Proof.
  induction l as [|x l IH]; intros H; [reflexivity|]. cbn [List.filter].
  rewrite (H x) by now left. apply IH. intros y Hy. apply H. now right.
Qed.

(** When every older task has returned, the pool lets the next one start. *)
Lemma may_start_next (i : nat) (tasks : list Task) (workers : list Worker) :
  pool_inv tasks workers ->
  (forall k w, (k < i)%nat -> workers !! k = Some w -> is_returned w = true) ->
  workers !! i = Some Queued ->
  may_start i workers = true.
Proof.
  intros (_ & _ & Hpre) Hdone Hq. unfold may_start.
  apply andb_true_intro. split.
  - apply forallb_forall. intros w Hin.
    apply list_elem_of_In, list_elem_of_lookup in Hin as [k Hk].
    apply lookup_take_Some in Hk as [Hk Hlt].
    apply Hdone in Hk; [|exact Hlt]. now destruct w.
  - replace (List.filter in_flight workers) with (@nil Worker); [reflexivity|].
    symmetry. apply filter_none.
    intros w Hin. apply list_elem_of_In, list_elem_of_lookup in Hin as [k Hk].
    destruct (lt_eq_lt_dec k i) as [[Hlt | ->] | Hgt].
    + apply Hdone in Hk; [|exact Hlt]. now destruct w.
    + rewrite Hq in Hk. now inversion Hk.
    + now rewrite (Hpre i k w Hgt Hq Hk).
Qed.

Lemma worker_step_pack (i : nat) (tasks : list Task) (workers : list Worker)
    (file : MetadataFile) (t : Task) (w : Worker) :
  pool_inv tasks workers ->
  tasks !! i = Some t -> workers !! i = Some w ->
  (is_queued w = true -> may_start i workers = true) ->
  exists workers' file',
    worker_step i tasks (workers, file) = (workers', file')
    /\ pool_inv tasks workers'
    /\ workers' !! i = Some (advance t file w)
    /\ forall k, i <> k -> workers' !! k = workers !! k.
Proof.
  intros Hinv Ht Hw Hs.
  destruct (worker_step i tasks (workers, file)) as [workers' file'] eqn:Hstep.
  exists workers', file'. split; [reflexivity|].
  change workers' with (fst (workers', file')). rewrite <- Hstep.
  split; [now apply worker_step_inv|]. split.
  - now apply worker_step_at.
  - intros k Hk. now apply worker_step_other.
Qed.

Lemma finish_task_returns (i : nat) (tasks : list Task) (workers : list Worker)
    (file : MetadataFile) :
  pool_inv tasks workers ->
  (forall k w, (k < i)%nat -> workers !! k = Some w -> is_returned w = true) ->
  (i < length tasks)%nat ->
  pool_inv tasks (fst (finish_task tasks (workers, file) i))
  /\ forall k w, (k < S i)%nat ->
       fst (finish_task tasks (workers, file) i) !! k = Some w ->
       is_returned w = true.
Proof.
  intros Hinv Hdone Hi.
  destruct (lookup_lt_is_Some_2 tasks i Hi) as [t Ht].
  assert (Hiw : (i < length workers)%nat) by (destruct Hinv as [-> _]; exact Hi).
  destruct (lookup_lt_is_Some_2 workers i Hiw) as [w Hw].
  unfold finish_task.
  destruct (worker_step_pack i tasks workers file t w Hinv Ht Hw)
    as (w1 & f1 & -> & Hinv1 & Hw1 & Ho1).
  { intros Hq. destruct w; try discriminate.
    now apply (may_start_next i tasks). }
  destruct (worker_step_pack i tasks w1 f1 t _ Hinv1 Ht Hw1)
    as (w2 & f2 & -> & Hinv2 & Hw2 & Ho2).
  { now rewrite advance_not_queued. }
  destruct (worker_step_pack i tasks w2 f2 t _ Hinv2 Ht Hw2)
    as (w3 & f3 & -> & Hinv3 & Hw3 & Ho3).
  { now rewrite advance_not_queued. }
  destruct (worker_step_pack i tasks w3 f3 t _ Hinv3 Ht Hw3)
    as (w4 & f4 & -> & Hinv4 & Hw4 & Ho4).
  { now rewrite advance_not_queued. }
  cbn [fst]. split; [exact Hinv4|].
  intros k w' Hk Hk'. destruct (decide (i = k)) as [<-|Hne].
  - rewrite Hw4 in Hk'. inversion Hk'. apply advance_four.
  - rewrite Ho4, Ho3, Ho2, Ho1 in Hk' by exact Hne.
    apply (Hdone k); [lia | exact Hk'].
Qed.

Lemma finish_from_returns (tasks : list Task) (n a : nat) (workers : list Worker)
    (file : MetadataFile) :
  pool_inv tasks workers ->
  (forall k w, (k < a)%nat -> workers !! k = Some w -> is_returned w = true) ->
  (a + n <= length tasks)%nat ->
  pool_inv tasks (fst (fold_left (finish_task tasks) (seq a n) (workers, file)))
  /\ forall k w, (k < a + n)%nat ->
       fst (fold_left (finish_task tasks) (seq a n) (workers, file)) !! k = Some w ->
       is_returned w = true.
Proof.
  revert a workers file. induction n as [|n IH]; intros a workers file Hinv Hdone Hlen.
  - cbn. split; [exact Hinv|]. intros k w Hk. apply Hdone. lia.
  - cbn [seq fold_left].
    destruct (finish_task_returns a tasks workers file Hinv Hdone) as [Hinv' Hdone'];
      [lia|].
    destruct (finish_task tasks (workers, file) a) as [workers' file'].
    cbn [fst] in *.
    destruct (IH (S a) workers' file' Hinv' Hdone') as [Hinv'' Hdone'']; [lia|].
    split; [exact Hinv''|]. intros k w Hk. apply Hdone''. lia.
Qed.

(** Whatever the schedule, the pool ends with every task returned, and
    returned true exactly when its response was good. *)
Lemma run_pool_results (tasks : list Task) (schedule : list nat)
    (file : MetadataFile) :
  fst (run_pool tasks schedule file)
  = List.map (fun t => Returned (ok_response t)) tasks.
Proof.
  unfold run_pool, finish_all.
  destruct (fold_left (fun pool i => worker_step i tasks pool) schedule
              (replicate (length tasks) Queued, file)) as [workers file'] eqn:Hs.
  assert (Hinv : pool_inv tasks workers).
  { change workers with (fst (workers, file')). rewrite <- Hs.
    apply schedule_inv, pool_inv_init. }
  destruct (finish_from_returns tasks (length tasks) 0 workers file' Hinv)
    as [(Hlen & Hok & _) Hdone]; [intros k w Hk; lia | lia |].
  set (final := fst (fold_left (finish_task tasks) (seq 0 (length tasks)) (workers, file'))) in *.
  apply list_eq. intros k. rewrite list_lookup_fmap.
  destruct (tasks !! k) as [t|] eqn:Ht; cbn.
  - assert (Hk : (k < length final)%nat)
      by (rewrite Hlen; eapply lookup_lt_Some; eauto).
    destruct (lookup_lt_is_Some_2 final k Hk) as [w Hw]. rewrite Hw.
    pose proof (Hok k t w Ht Hw) as Hwok.
    assert (Hret : is_returned w = true).
    { apply (Hdone k w); [rewrite <- Hlen; cbn; lia | exact Hw]. }
    destruct w; try discriminate. cbn in Hwok. now subst.
  - apply lookup_ge_None. rewrite Hlen. now apply lookup_ge_None.
Qed.

(** ** The download stage *)

Lemma submit_all_zero_quota (urls : list string) (successful_downloads : Z)
    (network : Network) :
  submit_all urls (Int 0) successful_downloads 0 network = ([], Ok tt).
Proof. destruct urls; reflexivity. Qed.

Lemma schedule_no_tasks (schedule : list nat) (pool : list Worker * MetadataFile) :
  fold_left (fun pool i => worker_step i [] pool) schedule pool = pool.
Proof.
  induction schedule as [|i schedule IH]; [reflexivity|]. cbn [fold_left].
  replace (worker_step i [] pool) with pool; [exact IH|].
  unfold worker_step. destruct pool as [workers file]. now rewrite lookup_nil.
Qed.

Lemma run_pool_no_tasks (schedule : list nat) (file : MetadataFile) :
  run_pool [] schedule file = ([], file).
Proof. unfold run_pool. now rewrite schedule_no_tasks. Qed.


Lemma submit_all_raises (urls : list string) (max_files : number)
    (successful_downloads count : Z) (network : Network) (e : exn) :
  snd (submit_all urls max_files successful_downloads count network) = Raise e ->
  exists url, In url urls /\ urlparse url EmptyString = Raise e.
Proof.
  revert count. induction urls as [|url urls IH]; intros count H; [discriminate|].
  cbn [submit_all] in H.
  destruct (negb (lt_number count max_files)); [discriminate|].
  destruct (urlparse url EmptyString) as [parsed|e'] eqn:Hp.
  - destruct (network url) as [response now].
    destruct (submit_all urls max_files successful_downloads (count + 1) network)
      as [tasks r] eqn:Hs.
    cbn [snd] in H. destruct (IH (count + 1)) as (u & Hu & Hpu).
    { now rewrite Hs. }
    exists u. split; [now right | exact Hpu].
  - cbn [snd] in H. inversion H; subst e'. exists url. split; [now left | exact Hp].
Qed.

(** C9: with [max_files = 0] the download stage submits no task for any set
    of file links: no worker runs, the metadata file is left as it was, no
    success is counted, and the summary it prints (when the set is not
    empty) reports 0 successes. *)
Theorem download_files_zero_quota (file_links : gset string) (network : Network)
    (schedule : list nat) (w : World) :
  let d := download_files file_links (Int 0) network schedule w in
  d_submitted d = []
  /\ d_results d = []
  /\ count_successes (d_results d) = 0
  /\ metadata_file (d_world d) = metadata_file w
  /\ d_return d = Ok PyNone
  /\ d_printed d =
       if bool_decide (file_links = ∅) then [NoFilesToDownload]
       else fst (create_documents_dir w)
              ++ [SuccessfullyDownloaded 0 (size file_links); TotalTime].
Proof.
  cbv zeta. unfold download_files.
  destruct (bool_decide (file_links = ∅)); [now cbn|].
  rewrite submit_all_zero_quota.
  unfold create_documents_dir.
  destruct (documents_dir w); rewrite run_pool_no_tasks; now cbn.
Qed.

Lemma download_files_nonempty (file_links : gset string) (max_files : number)
    (network : Network) (schedule : list nat) (w : World) :
  file_links <> ∅ ->
  let submitted := submit_all (elements file_links) max_files 0 0 network in
  let w' := snd (create_documents_dir w) in
  let pool := run_pool (fst submitted) schedule (metadata_file w') in
  download_files file_links max_files network schedule w
  = match snd submitted with
    | Raise e =>
        mkDownload (Raise e) (fst (create_documents_dir w)) (fst submitted)
          (fst pool) (mkWorld (documents_dir w') (snd pool))
    | Ok _ =>
        mkDownload (Ok PyNone)
          (fst (create_documents_dir w)
             ++ [SuccessfullyDownloaded (0 + count_successes (fst pool))
                   (size file_links); TotalTime])
          (fst submitted) (fst pool) (mkWorld (documents_dir w') (snd pool))
    end.
Proof.
  intros Hne. cbv zeta. unfold download_files.
  rewrite bool_decide_eq_false_2 by exact Hne.
  destruct (create_documents_dir w) as [printed w'].
  destruct (submit_all (elements file_links) max_files 0 0 network) as [tasks r].
  cbn [fst snd].
  destruct (run_pool tasks schedule (metadata_file w')) as [workers file].
  reflexivity.
Qed.


(** ** The metadata record of a file name *)





(** ** Strings *)

Lemma append_cons (c : ascii) (s t : string) :
  String c s +:+ t = String c (s +:+ t).
Proof. reflexivity. Qed.

Lemma append_nil_l (t : string) : EmptyString +:+ t = t.
Proof. reflexivity. Qed.

Lemma lower_app (s t : string) : Py.lower (s +:+ t) = Py.lower s +:+ Py.lower t.
Proof.
  induction s as [|c s IH]; [reflexivity|].
  rewrite append_cons. cbn [Py.lower]. now rewrite IH.
Qed.

Lemma endswith_app (s x : string) : Py.endswith (s +:+ x) x = true.
Proof.
  induction s as [|c s IH].
  - rewrite append_nil_l. destruct x; cbn [Py.endswith]; now rewrite String.eqb_refl.
  - rewrite append_cons. cbn [Py.endswith]. rewrite IH. apply orb_true_r.
Qed.

Lemma endswith_lower_app (stem ext : string) :
  Py.lower ext = ext -> Py.endswith (Py.lower (stem +:+ ext)) ext = true.
Proof. intros H. rewrite lower_app, H. apply endswith_app. Qed.

Lemma excluded_extensions_lower :
  Forall (fun ext => Py.lower ext = ext) excluded_extensions.
Proof. repeat constructor. Qed.

(** ** The classifier *)

Lemma is_valid_file_extension_suffix (stem ext : string) (extensions : list string) :
  In ext extensions -> Py.lower ext = ext ->
  is_valid_file_extension (stem +:+ ext) extensions = true.
Proof.
  intros Hin Hl. unfold is_valid_file_extension. apply existsb_exists.
  exists ext. split; [exact Hin | now apply endswith_lower_app].
Qed.

Lemma is_excluded_file_suffix (stem ext : string) :
  In ext excluded_extensions -> is_excluded_file (stem +:+ ext) = true.
Proof.
  intros Hin. unfold is_excluded_file. apply existsb_exists.
  exists ext. split; [exact Hin|]. apply endswith_lower_app.
  pose proof excluded_extensions_lower as H.
  rewrite List.Forall_forall in H. now apply H.
Qed.

(** C5 (amended): a canonical URL that ends in an allow-listed extension is
    a File whether or not the base URL is a prefix of it, provided it is in
    the scope of the base URL and was not visited or collected before; a URL
    that ends in an excluded extension and in no allow-listed one is
    Ignored, also when the base URL is a prefix of it, so it never is a
    Page. *)
Theorem classify_precedence (base_url : string) (extensions : list string)
    (old_visited_pages old_file_links : gset string) (stem ext : string) :
  let cleaned_url := stem +:+ ext in
  (In ext extensions -> Py.lower ext = ext ->
   cleaned_url ∉ old_visited_pages -> cleaned_url ∉ old_file_links ->
   is_same_domain base_url cleaned_url = Ok true ->
   classify base_url extensions old_visited_pages old_file_links cleaned_url
   = Ok File)
  /\ (In ext excluded_extensions ->
      is_valid_file_extension cleaned_url extensions = false ->
      classify base_url extensions old_visited_pages old_file_links cleaned_url
      = Ok Ignored).
Proof.
  cbv zeta. split.
  - intros Hin Hl Hv Hf Hs. unfold classify.
    rewrite (is_valid_file_extension_suffix _ _ _ Hin Hl), andb_false_r.
    rewrite !bool_decide_eq_false_2 by assumption.
    rewrite Hs. reflexivity.
  - intros Hin Hv. unfold classify.
    now rewrite (is_excluded_file_suffix _ _ Hin), Hv.
Qed.

(** ** The scope filter *)

Lemma endswith_nil (x : string) : Py.endswith EmptyString x = negb (nonempty x).
Proof. destruct x; reflexivity. Qed.

(** C6 (amended): [is_same_domain] has no handling of malformed input of
    its own.  A candidate URL that the parser rejects makes it raise the
    parser's [ValueError]; a candidate that parses with an empty network
    location is out of scope when the base URL has a non-empty network
    location that does not end in a dot. *)
Theorem is_same_domain_malformed (base_url url : string) (b : ParseResult) :
  urlparse base_url EmptyString = Ok b ->
  match urlparse url EmptyString with
  | Raise e => is_same_domain base_url url = Raise e
  | Ok u =>
      netloc u = EmptyString ->
      nonempty (netloc b) = true ->
      Py.endswith (netloc b) "." = false ->
      is_same_domain base_url url = Ok false
  end.
Proof.
  intros Hb. unfold is_same_domain. rewrite Hb. cbn [bind].
  destruct (urlparse url EmptyString) as [u|e]; cbn [bind]; [|reflexivity].
  intros Hu Hne Hdot. rewrite Hu.
  rewrite endswith_nil. change ("." +:+ EmptyString) with "."%string.
  rewrite Hdot.
  replace (String.eqb (netloc b) EmptyString) with false
    by (destruct (netloc b); [discriminate | reflexivity]).
  reflexivity.
Qed.

(** ** Render failures *)

Lemma is_same_domain_parses (base_url url : string) (same : bool) :
  is_same_domain base_url url = Ok same ->
  exists p, urlparse url EmptyString = Ok p.
Proof.
  unfold is_same_domain.
  destruct (urlparse base_url EmptyString); cbn [bind]; [|discriminate].
  destruct (urlparse url EmptyString) as [p|]; cbn [bind]; [|discriminate].
  intros _. now exists p.
Qed.

Lemma classify_page_parses (base_url : string) (extensions : list string)
    (old_visited_pages old_file_links : gset string) (cleaned_url : string) :
  classify base_url extensions old_visited_pages old_file_links cleaned_url = Ok Page ->
  exists p, urlparse cleaned_url EmptyString = Ok p.
Proof.
  unfold classify.
  destruct (_ && _); [discriminate|].
  destruct (_ || _); [discriminate|].
  destruct (is_same_domain base_url cleaned_url) as [same|] eqn:Hs; cbn [bind];
    [|discriminate].
  intros _. eapply is_same_domain_parses; eauto.
Qed.

(** What [process_link] adds to the page links is a URL classified Page. *)
Lemma process_link_pages (url base_url : string) (extensions : list string)
    (old_visited_pages old_file_links : gset string)
    (acc : gset string * gset string) (link : Anchor) (x : string) :
  x ∈ snd (process_link url base_url extensions old_visited_pages old_file_links
             acc link) ->
  x ∈ snd acc
  \/ classify base_url extensions old_visited_pages old_file_links x = Ok Page.
Proof.
  unfold process_link. destruct acc as [file_links page_links].
  destruct link as [[href|]|e]; cbn [bind snd]; try (now left).
  destruct (negb (nonempty href)); [now left|].
  destruct (urljoin url href) as [absolute_url|]; cbn [bind]; [|now left].
  destruct (clean_url absolute_url) as [cleaned_url|]; cbn [bind]; [|now left].
  destruct (classify base_url extensions old_visited_pages old_file_links cleaned_url)
    as [[| |]|] eqn:Hc; cbn [bind snd]; try (now left).
  intros Hx. apply elem_of_union in Hx as [Hx|Hx]; [|now left].
  apply elem_of_singleton in Hx. subst x. now right.
Qed.

Lemma fold_process_link_pages (url base_url : string) (extensions : list string)
    (old_visited_pages old_file_links : gset string) (links : list Anchor)
    (acc : gset string * gset string) (x : string) :
  x ∈ snd (fold_left
             (process_link url base_url extensions old_visited_pages old_file_links)
             links acc) ->
  x ∈ snd acc
  \/ classify base_url extensions old_visited_pages old_file_links x = Ok Page.
Proof.
  revert acc. induction links as [|link links IH]; intros acc Hx; [now left|].
  cbn [fold_left] in Hx. apply IH in Hx as [Hx|Hx]; [|now right].
  eapply process_link_pages; eauto.
Qed.

(** Every page link that a scrape answers was classified Page. *)
Lemma scrape_pages_classified (url base_url : string) (extensions : list string)
    (old_visited_pages old_file_links : gset string) (driver : Driver)
    (history : list string) (x : string) :
  x ∈ snd (scrape_page_for_links_and_files url base_url extensions
             old_visited_pages old_file_links driver history) ->
  classify base_url extensions old_visited_pages old_file_links x = Ok Page.
Proof.
  unfold scrape_page_for_links_and_files.
  destruct (driver history url) as [links|e]; cbn [snd].
  - intros Hx. apply fold_process_link_pages in Hx as [Hx|Hx]; [|exact Hx].
    cbn [snd] in Hx. now apply not_elem_of_empty in Hx.
  - intros Hx. now apply not_elem_of_empty in Hx.
Qed.

Lemma enqueue_pages_ok (page_links queue : list string) (visited_pages : gset string) :
  Forall parses page_links ->
  exists queue' visited_pages',
    enqueue_pages page_links queue visited_pages = Ok (queue', visited_pages').
Proof.
  revert queue visited_pages.
  induction page_links as [|page_link rest IH]; intros queue visited_pages H.
  - now exists queue, visited_pages.
  - inversion H as [|? ? [p Hp] Hrest]; subst. cbn [enqueue_pages].
    rewrite (clean_url_parsed _ _ Hp). cbn [bind].
    destruct (_ && _); now apply IH.
Qed.

Lemma scrape_pages_parse (url base_url : string) (extensions : list string)
    (old_visited_pages old_file_links : gset string) (driver : Driver)
    (history : list string) :
  Forall parses
    (elements (snd (scrape_page_for_links_and_files url base_url extensions
                      old_visited_pages old_file_links driver history))).
Proof.
  apply List.Forall_forall. intros x Hx.
  apply list_elem_of_In, elem_of_elements, scrape_pages_classified in Hx.
  eapply classify_page_parses; eauto.
Qed.

(** No exception leaves the loop of the crawl. *)
Lemma bfs_loop_never_raises (fuel : nat) (base_url : string)
    (extensions : list string) (max_pages max_files : number) (driver : Driver)
    (st : CrawlState) (e : exn) :
  bfs_loop fuel base_url extensions max_pages max_files driver st <> Some (Raise e).
Proof.
  revert st. induction fuel as [|fuel IH]; intros st; cbn [bfs_loop];
    destruct (loop_guard max_pages max_files st); try discriminate.
  destruct (queue st) as [|current_url queue']; [discriminate|].
  destruct (is_excluded_file current_url); [apply IH|].
  pose proof (scrape_pages_parse current_url base_url extensions
                (visited_pages st) (file_links st) driver (rendered st)) as Hp.
  destruct (scrape_page_for_links_and_files current_url base_url extensions
              (visited_pages st) (file_links st) driver (rendered st))
    as [new_file_links new_page_links].
  cbn [snd] in Hp.
  destruct (negb _); [discriminate|].
  destruct (enqueue_pages_ok _ queue' (visited_pages st) Hp) as (q & v & ->).
  apply IH.
Qed.



(** ** Concurrent upserts *)

Lemma finish_all_steps (tasks : list Task) (pool : list Worker * MetadataFile) :
  finish_all tasks pool
  = fold_left (fun pool i => worker_step i tasks pool) (completion tasks) pool.
Proof.
  unfold finish_all, completion. generalize (seq 0 (length tasks)) as l.
  intros l. revert pool. induction l as [|i l IH]; intros pool; [reflexivity|].
  cbn [fold_left flat_map app]. apply IH.
Qed.

Lemma run_pool_steps (tasks : list Task) (schedule : list nat) (file : MetadataFile) :
  run_pool tasks schedule file
  = fold_left (fun pool i => worker_step i tasks pool)
      (schedule ++ completion tasks) (replicate (length tasks) Queued, file).
Proof. unfold run_pool. now rewrite finish_all_steps, fold_left_app. Qed.








(** ** The visited-once invariant *)

(** What the loop over the new page links appends to the queue: distinct
    URLs that were not visited before, which it marks visited. *)
Lemma enqueue_pages_spec (page_links queue queue' : list string)
    (visited_pages visited_pages' : gset string) :
  enqueue_pages page_links queue visited_pages = Ok (queue', visited_pages') ->
  exists new : list string,
    queue' = queue ++ new
    /\ NoDup new
    /\ (forall x, x ∈ new -> x ∉ visited_pages)
    /\ (forall x, x ∈ visited_pages' <-> x ∈ visited_pages \/ x ∈ new).
Proof.
  revert queue visited_pages.
  induction page_links as [|page_link rest IH]; intros queue visited_pages H.
  - cbn in H. inversion H; subst. exists []. rewrite app_nil_r.
    split; [reflexivity|]. split; [constructor|]. split.
    + intros x Hx. now apply elem_of_nil in Hx.
    + intros x. split; [now left | intros [Hx|Hx]; [exact Hx | now apply elem_of_nil in Hx]].
  - cbn [enqueue_pages] in H.
    destruct (clean_url page_link) as [cleaned_link|]; cbn [bind] in H; [|discriminate].
    destruct (negb (bool_decide (cleaned_link ∈ visited_pages))
              && negb (is_excluded_file cleaned_link)) eqn:Hnew.
    + apply andb_prop in Hnew as [Hfresh _].
      apply negb_true_iff, bool_decide_eq_false in Hfresh.
      apply IH in H as (new & -> & Hnd & Hnv & Hv).
      exists (cleaned_link :: new). rewrite <- app_assoc.
      split; [reflexivity|]. split.
      { constructor; [|exact Hnd]. intros Hin. apply Hnv in Hin.
        apply Hin, elem_of_union_l. now apply elem_of_singleton. }
      split.
      { intros x Hx. apply elem_of_cons in Hx as [->|Hx]; [exact Hfresh|].
        apply Hnv in Hx. intros Hv0. apply Hx. now apply elem_of_union_r. }
      intros x. rewrite Hv, elem_of_union, elem_of_singleton, elem_of_cons. tauto.
    + now apply IH in H.
Qed.

Lemma loop_guard_pages (max_pages max_files : number) (st : CrawlState) :
  loop_guard max_pages max_files st = true ->
  lt_number (pages_scraped st) max_pages = true.
Proof.
  unfold loop_guard. intros H.
  apply andb_prop in H as [H _]. now apply andb_prop in H as [_ H].
Qed.



(** ** Termination of the crawl under a page quota *)

Lemma excluded_in_app (q q' : list string) :
  excluded_in (q ++ q') = (excluded_in q + excluded_in q')%nat.
Proof. unfold excluded_in. now rewrite List.filter_app, length_app. Qed.

Lemma enqueue_pages_excluded (page_links queue queue' : list string)
    (visited_pages visited_pages' : gset string) :
  enqueue_pages page_links queue visited_pages = Ok (queue', visited_pages') ->
  excluded_in queue' = excluded_in queue.
Proof.
  revert queue visited_pages.
  induction page_links as [|page_link rest IH]; intros queue visited_pages H.
  - cbn in H. now inversion H.
  - cbn [enqueue_pages] in H.
    destruct (clean_url page_link) as [cleaned_link|]; cbn [bind] in H; [|discriminate].
    destruct (negb (bool_decide (cleaned_link ∈ visited_pages))
              && negb (is_excluded_file cleaned_link)) eqn:Hnew.
    + apply andb_prop in Hnew as [_ Hx]. apply negb_true_iff in Hx.
      apply IH in H. rewrite H, excluded_in_app. unfold excluded_in at 2.
      cbn [List.filter]. rewrite Hx. cbn [length]. lia.
    + now apply IH in H.
Qed.

(** With a page quota of [n] the loop ends within [n] iterations that count
    a page, and one more for each excluded URL in the queue. *)
Lemma bfs_loop_terminates (fuel : nat) (base_url : string)
    (extensions : list string) (n : Z) (max_files : number) (driver : Driver)
    (st : CrawlState) :
  (Z.to_nat (n - pages_scraped st) + excluded_in (queue st) <= fuel)%nat ->
  bfs_loop fuel base_url extensions (Int n) max_files driver st <> None.
Proof.
  revert st. induction fuel as [|fuel IH]; intros st Hfuel; cbn [bfs_loop];
    destruct (loop_guard (Int n) max_files st) eqn:Hg; try discriminate.
  - apply loop_guard_pages in Hg. cbn [lt_number] in Hg.
    apply Z.ltb_lt in Hg. lia.
  - pose proof (loop_guard_pages _ _ _ Hg) as Hp. cbn [lt_number] in Hp.
    apply Z.ltb_lt in Hp.
    destruct (queue st) as [|current_url queue'] eqn:Hq; [discriminate|].
    unfold excluded_in in Hfuel. cbn [List.filter] in Hfuel.
    destruct (is_excluded_file current_url).
    { apply IH. cbn [pages_scraped queue length] in *. unfold excluded_in. lia. }
    destruct (scrape_page_for_links_and_files current_url base_url extensions
                (visited_pages st) (file_links st) driver (rendered st))
      as [new_file_links new_page_links].
    destruct (negb _); [discriminate|].
    destruct (enqueue_pages (elements new_page_links) queue' (visited_pages st))
      as [[queue'' v']|] eqn:He; [|discriminate].
    apply enqueue_pages_excluded in He.
    apply IH. cbn [pages_scraped queue]. rewrite He. unfold excluded_in. lia.
Qed.

(** A crawl with a page quota of [n] returns, or raises on a seed that does
    not parse, within [n + 1] iterations. *)
Lemma bfs_run_terminates (fuel : nat) (start_url : string)
    (extensions : list string) (n : Z) (max_files : number) (driver : Driver) :
  (Z.to_nat n + 1 <= fuel)%nat ->
  bfs_run fuel start_url extensions (Int n) max_files driver <> None.
Proof.
  intros Hfuel. unfold bfs_run.
  destruct (_ <- urlparse start_url EmptyString ;; _) as [[base_url cleaned]|];
    [|discriminate].
  apply bfs_loop_terminates. cbn [pages_scraped queue].
  unfold excluded_in. cbn [List.filter].
  rewrite Z.sub_0_r. destruct (is_excluded_file start_url); cbn [length]; lia.
Qed.

(** ** More on strings *)

Lemma append_nil_r (s : string) : s +:+ EmptyString = s.
Proof. induction s as [|c s IH]; [reflexivity|]. now rewrite append_cons, IH. Qed.

Lemma append_assoc (s t u : string) : (s +:+ t) +:+ u = s +:+ (t +:+ u).
Proof. induction s as [|c s IH]; [reflexivity|]. now rewrite !append_cons, IH. Qed.

Lemma len_app (s t : string) : Py.len (s +:+ t) = (Py.len s + Py.len t)%nat.
Proof.
  induction s as [|c s IH]; [reflexivity|]. rewrite append_cons.
  cbn [Py.len Nat.add]. now rewrite IH.
Qed.

Lemma take_app (s t : string) : Py.take (Py.len s) (s +:+ t) = s.
Proof.
  induction s as [|c s IH]; [now destruct t|]. rewrite append_cons.
  cbn [Py.len Py.take]. now rewrite IH.
Qed.

Lemma drop_app (s t : string) : Py.drop (Py.len s) (s +:+ t) = t.
Proof.
  induction s as [|c s IH]; [reflexivity|]. rewrite append_cons.
  cbn [Py.len Py.drop]. exact IH.
Qed.

Lemma bound_within (n : nat) (i : Z) :
  0 <= i <= Z.of_nat n -> Py.bound n i = Z.to_nat i.
Proof.
  intros H. unfold Py.bound.
  destruct (i <? 0) eqn:Hi; [apply Z.ltb_lt in Hi; lia|].
  now rewrite Z.min_l by lia.
Qed.

Lemma upto_app (s t : string) : Py.upto (s +:+ t) (Z.of_nat (Py.len s)) = s.
Proof.
  unfold Py.upto. rewrite bound_within by (rewrite len_app; lia).
  rewrite Nat2Z.id. apply take_app.
Qed.

Lemma from_app (s t : string) : Py.from (s +:+ t) (Z.of_nat (Py.len s)) = t.
Proof.
  unfold Py.from. rewrite bound_within by (rewrite len_app; lia).
  rewrite Nat2Z.id. apply drop_app.
Qed.

Lemma from_app_cons (s t : string) (c : ascii) :
  Py.from (s +:+ String c t) (Z.of_nat (Py.len s) + 1) = t.
Proof.
  replace (s +:+ String c t) with ((s +:+ String c EmptyString) +:+ t)
    by now rewrite append_assoc.
  replace (Z.of_nat (Py.len s) + 1)
    with (Z.of_nat (Py.len (s +:+ String c EmptyString)))
    by (rewrite len_app; cbn [Py.len]; lia).
  apply from_app.
Qed.

Lemma contains_app (c : ascii) (s t : string) :
  Py.contains c (s +:+ t) = Py.contains c s || Py.contains c t.
Proof.
  induction s as [|d s IH]; [reflexivity|]. rewrite append_cons.
  cbn [Py.contains]. now rewrite IH, orb_assoc.
Qed.

(** A string that holds [c] splits at its first [c]. *)
Lemma contains_split (c : ascii) (s : string) :
  Py.contains c s = true ->
  exists a b, s = a +:+ String c b /\ Py.contains c a = false.
Proof.
  induction s as [|d s IH]; [discriminate|]. cbn [Py.contains].
  destruct (Ascii.eqb d c) eqn:Hd.
  - intros _. apply Ascii.eqb_eq in Hd. subst d. now exists EmptyString, s.
  - intros H. destruct (IH H) as (a & b & -> & Ha).
    exists (String d a), b. split; [reflexivity|]. cbn [Py.contains].
    now rewrite Hd.
Qed.

Lemma find_at_app (c : ascii) (s t : string) (k : nat) :
  Py.contains c s = false ->
  Py.find_at c (s +:+ String c t) k = Z.of_nat (k + Py.len s).
Proof.
  revert k. induction s as [|d s IH]; intros k H.
  - rewrite append_nil_l. cbn [Py.find_at Py.len]. rewrite Ascii.eqb_refl. f_equal. lia.
  - cbn [Py.contains] in H. apply orb_false_elim in H as [Hd Hs].
    rewrite append_cons. cbn [Py.find_at Py.len]. rewrite Hd, IH by exact Hs.
    f_equal. lia.
Qed.

Lemma find_at_none (c : ascii) (s : string) (k : nat) :
  Py.contains c s = false -> Py.find_at c s k = -1.
Proof.
  revert k. induction s as [|d s IH]; intros k H; [reflexivity|].
  cbn [Py.contains] in H. apply orb_false_elim in H as [Hd Hs].
  cbn [Py.find_at]. now rewrite Hd, IH.
Qed.

Lemma find_app (c : ascii) (s t : string) :
  Py.contains c s = false ->
  Py.find c (s +:+ String c t) = Z.of_nat (Py.len s).
Proof. intros H. unfold Py.find. now rewrite find_at_app. Qed.

Lemma partition_app (c : ascii) (s t : string) :
  Py.contains c s = false ->
  Py.partition c (s +:+ String c t) = (s, true, t).
Proof.
  induction s as [|d s IH]; intros H.
  - rewrite append_nil_l. cbn [Py.partition]. now rewrite Ascii.eqb_refl.
  - cbn [Py.contains] in H. apply orb_false_elim in H as [Hd Hs].
    rewrite append_cons. cbn [Py.partition]. now rewrite Hd, IH.
Qed.

Lemma remove_id (c : ascii) (s : string) :
  Py.contains c s = false -> Py.remove c s = s.
Proof.
  induction s as [|d s IH]; intros H; [reflexivity|].
  cbn [Py.contains] in H. apply orb_false_elim in H as [Hd Hs].
  cbn [Py.remove]. now rewrite Hd, IH.
Qed.

Lemma contains_remove_same (c : ascii) (s : string) :
  Py.contains c (Py.remove c s) = false.
Proof.
  induction s as [|e s IH]; [reflexivity|]. cbn [Py.remove].
  destruct (Ascii.eqb e c) eqn:He; [exact IH|].
  cbn [Py.contains]. now rewrite He, IH.
Qed.

Lemma contains_remove_other (c d : ascii) (s : string) :
  Py.contains c s = false -> Py.contains c (Py.remove d s) = false.
Proof.
  induction s as [|e s IH]; intros H; [reflexivity|].
  cbn [Py.contains] in H. apply orb_false_elim in H as [He Hs].
  cbn [Py.remove]. destruct (Ascii.eqb e d); [now apply IH|].
  cbn [Py.contains]. now rewrite He, IH.
Qed.

(** ** The parts of a split URL *)

Lemma no_unsafe_app (s t : string) :
  no_unsafe (s +:+ t) = no_unsafe s && no_unsafe t.
Proof.
  unfold no_unsafe. rewrite !contains_app.
  destruct (Py.contains "009" s), (Py.contains "013" s), (Py.contains "010" s),
    (Py.contains "009" t), (Py.contains "013" t), (Py.contains "010" t);
    reflexivity.
Qed.

Lemma remove_unsafe_bytes_free (s : string) :
  no_unsafe (remove_unsafe_bytes s) = true.
Proof.
  unfold no_unsafe, remove_unsafe_bytes.
  rewrite contains_remove_same.
  rewrite (contains_remove_other "013" "010") by apply contains_remove_same.
  rewrite (contains_remove_other "009" "010")
    by (apply contains_remove_other, contains_remove_same).
  reflexivity.
Qed.

Lemma remove_unsafe_bytes_id (s : string) :
  no_unsafe s = true -> remove_unsafe_bytes s = s.
Proof.
  unfold no_unsafe, remove_unsafe_bytes. intros H.
  apply andb_prop in H as [H Hn]. apply andb_prop in H as [Ht Hr].
  apply negb_true_iff in Hn, Ht, Hr.
  now rewrite (remove_id "009" s Ht), (remove_id "013" s Hr), (remove_id "010" s Hn).
Qed.

Lemma lstrip_id (s : string) :
  starts_clean s = true -> Py.lstrip _WHATWG_C0_CONTROL_OR_SPACE s = s.
Proof.
  destruct s as [|c s]; [reflexivity|]. cbn [starts_clean Py.lstrip].
  intros H. apply negb_true_iff in H. now rewrite H.
Qed.

(** What [lower] does to a scheme character: it stays a scheme character,
    lowering it again changes nothing, and it is neither a colon nor an
    unsafe byte. *)
Lemma scheme_char_lower (c : ascii) :
  scheme_chars c = true ->
  scheme_chars (Py.lower_char c) = true
  /\ Py.lower_char (Py.lower_char c) = Py.lower_char c
  /\ Ascii.eqb (Py.lower_char c) ":" = false
  /\ Ascii.eqb c ":" = false
  /\ Ascii.eqb (Py.lower_char c) "009" = false
  /\ Ascii.eqb (Py.lower_char c) "013" = false
  /\ Ascii.eqb (Py.lower_char c) "010" = false.
Proof.
  destruct c as [[] [] [] [] [] [] [] []]; intros H;
    try (vm_compute in H; discriminate H); vm_compute; repeat split; reflexivity.
Qed.

(** An ASCII letter lowers to an ASCII letter, which [lstrip] keeps. *)
Lemma alpha_lower (c : ascii) :
  Py.isascii c && Py.isalpha_ascii c = true ->
  Py.isascii (Py.lower_char c) && Py.isalpha_ascii (Py.lower_char c) = true
  /\ _WHATWG_C0_CONTROL_OR_SPACE (Py.lower_char c) = false.
Proof.
  destruct c as [[] [] [] [] [] [] [] []]; intros H;
    try (vm_compute in H; discriminate H); vm_compute; split; reflexivity.
Qed.

Lemma all_scheme_chars_lower (s : string) :
  Py.all scheme_chars s = true ->
  Py.all scheme_chars (Py.lower s) = true
  /\ Py.lower (Py.lower s) = Py.lower s
  /\ Py.contains ":" (Py.lower s) = false
  /\ Py.contains ":" s = false
  /\ no_unsafe (Py.lower s) = true.
Proof.
  induction s as [|c s IH]; [now repeat split|].
  cbn [Py.all]. intros H. apply andb_prop in H as [Hc Hs].
  destruct (IH Hs) as (H1 & H2 & H3 & H4 & H5).
  destruct (scheme_char_lower c Hc) as (F1 & F2 & F3 & F4 & F5 & F6 & F7).
  cbn [Py.lower Py.all Py.contains]. repeat split.
  - now rewrite F1, H1.
  - now rewrite F2, H2.
  - now rewrite F3, H3.
  - now rewrite F4, H4.
  - unfold no_unsafe in *. cbn [Py.contains].
    apply andb_prop in H5 as [H5 H5n]. apply andb_prop in H5 as [H5t H5r].
    apply negb_true_iff in H5n, H5t, H5r.
    now rewrite H5n, H5t, H5r, F5, F6, F7.
Qed.

Lemma first_is_ascii_alpha_app (s t : string) :
  nonempty s = true -> first_is_ascii_alpha (s +:+ t) = first_is_ascii_alpha s.
Proof. destruct s; [discriminate | reflexivity]. Qed.

Lemma first_is_ascii_alpha_lower (s : string) :
  first_is_ascii_alpha s = true ->
  first_is_ascii_alpha (Py.lower s) = true /\ starts_clean (Py.lower s) = true.
Proof.
  destruct s as [|c s]; [discriminate|].
  cbn [first_is_ascii_alpha Py.lower starts_clean].
  intros Ha. destruct (alpha_lower c Ha) as [H1 H2]. now rewrite H1, H2.
Qed.

(** The scheme that [split_scheme] finds, with empty default, is well
    formed, and the URL is that scheme's text, a colon and the rest. *)
Lemma split_scheme_spec (url : string) :
  no_unsafe url = true ->
  let '(sch, rest) := split_scheme url EmptyString in
  scheme_wf sch = true
  /\ no_unsafe rest = true
  /\ (nonempty sch = false -> rest = url).
Proof.
  intros Hu. unfold split_scheme.
  destruct ((0 <? Py.find ":" url) && first_is_ascii_alpha url
            && Py.all scheme_chars (Py.upto url (Py.find ":" url))) eqn:Hc;
    [|now repeat split].
  apply andb_prop in Hc as [Hc Hall]. apply andb_prop in Hc as [Hpos Halpha].
  apply Z.ltb_lt in Hpos.
  destruct (Py.contains ":" url) eqn:Hcolon;
    [|unfold Py.find in Hpos; rewrite find_at_none in Hpos by exact Hcolon; lia].
  apply contains_split in Hcolon as (pre & rest & -> & Hpre).
  rewrite find_app in * by exact Hpre.
  rewrite upto_app in *. rewrite from_app_cons.
  assert (Hne : nonempty pre = true) by (destruct pre; [cbn in Hpos; lia | reflexivity]).
  rewrite first_is_ascii_alpha_app in Halpha by exact Hne.
  destruct (all_scheme_chars_lower pre Hall) as (H1 & H2 & H3 & _ & H5).
  destruct (first_is_ascii_alpha_lower pre Halpha) as [Ha Hcl].
  rewrite no_unsafe_app in Hu. apply andb_prop in Hu as [_ Hu].
  change (String ":" rest) with (String ":" EmptyString +:+ rest) in Hu.
  rewrite no_unsafe_app in Hu. apply andb_prop in Hu as [_ Hu].
  repeat split.
  - unfold scheme_wf. rewrite Ha, Hcl, H1, H2, H3, H5, String.eqb_refl.
    apply orb_true_r.
  - exact Hu.
  - intros Hn. destruct pre; [discriminate|]. discriminate.
Qed.

(** *** The network location *)

Lemma take_drop (n : nat) (s : string) : Py.take n s +:+ Py.drop n s = s.
Proof.
  revert s. induction n as [|n IH]; intros s; [now destruct s|].
  destruct s as [|c s]; [reflexivity|]. cbn [Py.take Py.drop].
  rewrite append_cons. now rewrite IH.
Qed.

Lemma take_first_delim (s : string) : no_delim (Py.take (first_delim s) s) = true.
Proof.
  induction s as [|c s IH]; [reflexivity|]. cbn [first_delim].
  destruct (is_delim c) eqn:Hc; [reflexivity|]. cbn [Py.take].
  unfold no_delim in *. cbn [Py.contains]. unfold is_delim in Hc.
  apply orb_false_elim in Hc as [Hc Hh]. apply orb_false_elim in Hc as [Hs Hq].
  rewrite Hs, Hq, Hh. exact IH.
Qed.

Lemma drop_first_delim (s : string) : starts_delim (Py.drop (first_delim s) s) = true.
Proof.
  induction s as [|c s IH]; [reflexivity|]. cbn [first_delim].
  destruct (is_delim c) eqn:Hc; [exact Hc | exact IH].
Qed.

Lemma find_at_bounds (c : ascii) (s : string) (k : nat) :
  Py.find_at c s k = -1 \/ Z.of_nat k <= Py.find_at c s k.
Proof.
  revert k. induction s as [|d s IH]; intros k; [now left|].
  cbn [Py.find_at]. destruct (Ascii.eqb d c); [right; lia|].
  destruct (IH (S k)) as [H|H]; [now left | right; lia].
Qed.

Lemma netloc_end_first_delim (s : string) (k : nat) (init : Z) :
  init = Z.of_nat (k + Py.len s) ->
  netloc_end s k init = Z.of_nat (k + first_delim s).
Proof.
  revert k. induction s as [|d s IH]; intros k Hinit.
  { cbn in *. lia. }
  pose proof (find_at_bounds "/" s (S k)) as B1.
  pose proof (find_at_bounds "?" s (S k)) as B2.
  pose proof (find_at_bounds "#" s (S k)) as B3.
  cbn [Py.len] in Hinit.
  unfold netloc_end. cbn [fold_left Py.find_at first_delim]. unfold is_delim.
  destruct (Ascii.eqb d "/") eqn:H1; [|destruct (Ascii.eqb d "?") eqn:H2;
    [|destruct (Ascii.eqb d "#") eqn:H3]]; cbn [orb].
  - apply Ascii.eqb_eq in H1. subst d.
    change (Ascii.eqb "/" "?") with false. change (Ascii.eqb "/" "#") with false.
    cbv iota.
    repeat match goal with
           | |- context [0 <=? ?x] => destruct (Z.leb_spec 0 x)
           end; lia.
  - apply Ascii.eqb_eq in H2. subst d.
    change (Ascii.eqb "?" "#") with false. cbv iota.
    repeat match goal with
           | |- context [0 <=? ?x] => destruct (Z.leb_spec 0 x)
           end; lia.
  - repeat match goal with
           | |- context [0 <=? ?x] => destruct (Z.leb_spec 0 x)
           end; lia.
  - change (netloc_end s (S k) init = Z.of_nat (k + S (first_delim s))).
    rewrite (IH (S k)) by lia. f_equal. lia.
Qed.

Lemma splitnetloc_spec (s : string) :
  _splitnetloc ("//" +:+ s) 2
  = (Py.take (first_delim s) s, Py.drop (first_delim s) s).
Proof.
  unfold _splitnetloc.
  assert (Hlen : Py.len ("//" +:+ s) = (2 + Py.len s)%nat) by (now rewrite len_app).
  assert (Hfind : forall c, Py.find_from c ("//" +:+ s) 2 = Py.find_at c s 2).
  { intros c. unfold Py.find_from. rewrite Hlen, bound_within by lia. reflexivity. }
  assert (Hfd : (first_delim s <= Py.len s)%nat).
  { clear. induction s as [|c s IH]; cbn [first_delim Py.len]; [lia|].
    destruct (is_delim c); lia. }
  replace (fold_left _ _ _) with (netloc_end s 2 (Z.of_nat (2 + Py.len s))).
  2:{ unfold netloc_end. cbn [fold_left]. now rewrite !Hfind, Hlen. }
  rewrite netloc_end_first_delim by reflexivity. unfold Py.slice, Py.from.
  rewrite Hlen, !bound_within by lia. f_equal.
  - replace (Z.to_nat (Z.of_nat (2 + first_delim s)) - Z.to_nat 2)%nat
      with (first_delim s) by lia.
    reflexivity.
  - now replace (Z.to_nat (Z.of_nat (2 + first_delim s)))
      with (S (S (first_delim s))) by lia.
Qed.

Lemma upto_two (url : string) :
  String.eqb (Py.upto url 2) "//" = true -> exists s, url = "//" +:+ s.
Proof.
  destruct url as [|a [|b s]]; [discriminate| |].
  - change (Py.upto (String a EmptyString) 2) with (String a EmptyString).
    intros H. apply String.eqb_eq in H. discriminate H.
  - unfold Py.upto. cbn [Py.len]. rewrite bound_within by lia.
    change (Z.to_nat 2) with 2%nat. cbn [Py.take].
    intros H. apply String.eqb_eq in H. inversion H. now exists s.
Qed.

Lemma upto_two_slashes (s : string) : Py.upto ("//" +:+ s) 2 = "//"%string.
Proof.
  change 2 with (Z.of_nat (Py.len "//")). apply upto_app.
Qed.

Lemma first_delim_app (net t : string) :
  no_delim net = true -> starts_delim t = true ->
  first_delim (net +:+ t) = Py.len net.
Proof.
  intros Hn Ht. induction net as [|c net IH].
  - rewrite append_nil_l. destruct t as [|d t]; [reflexivity|].
    cbn [starts_delim] in Ht. cbn [first_delim]. now rewrite Ht.
  - unfold no_delim in Hn. cbn [Py.contains] in Hn.
    rewrite !negb_orb in Hn.
    apply andb_prop in Hn as [Hn Hh]. apply andb_prop in Hn as [Hs Hq].
    apply andb_prop in Hs as [Hs Hs']. apply andb_prop in Hq as [Hq Hq'].
    apply andb_prop in Hh as [Hh Hh'].
    rewrite append_cons. cbn [first_delim Py.len]. unfold is_delim.
    apply negb_true_iff in Hs, Hq, Hh. rewrite Hs, Hq, Hh. cbn [orb].
    f_equal. apply IH. unfold no_delim. now rewrite Hs', Hq', Hh'.
Qed.

(** *** The path, the query and the fragment *)

Lemma contains_app_false (c : ascii) (s t : string) :
  Py.contains c (s +:+ t) = false ->
  Py.contains c s = false /\ Py.contains c t = false.
Proof. rewrite contains_app. apply orb_false_elim. Qed.

Lemma no_unsafe_app_true (s t : string) :
  no_unsafe (s +:+ t) = true -> no_unsafe s = true /\ no_unsafe t = true.
Proof. rewrite no_unsafe_app. apply andb_prop. Qed.

Lemma no_unsafe_cons (c : ascii) (s : string) :
  no_unsafe (String c s) = true -> no_unsafe s = true.
Proof.
  change (String c s) with (String c EmptyString +:+ s). intros H.
  now apply no_unsafe_app_true in H as [_ H].
Qed.

(** What [split_tail] answers: a path without [?] and [#], a query without
    [#]; both are pieces of the text. *)
Lemma split_tail_spec (t : string) :
  exists path query fragment,
    split_tail t = (path, query, fragment)
    /\ Py.contains "?" path = false
    /\ Py.contains "#" path = false
    /\ Py.contains "#" query = false
    /\ (no_unsafe t = true -> no_unsafe path = true /\ no_unsafe query = true)
    /\ (starts_delim t = true -> starts_slash path = true).
Proof.
  unfold split_tail.
  assert (Hq : forall url, Py.contains "#" url = false ->
            (no_unsafe t = true -> no_unsafe url = true) ->
            (starts_delim t = true -> starts_slash url = true \/ exists r, url = String "?" r) ->
            exists path query,
              (if Py.contains "?" url
               then let '(h, _, t) := Py.partition "?" url in (h, t)
               else (url, EmptyString)) = (path, query)
              /\ Py.contains "?" path = false
              /\ Py.contains "#" path = false
              /\ Py.contains "#" query = false
              /\ (no_unsafe t = true -> no_unsafe path = true /\ no_unsafe query = true)
              /\ (starts_delim t = true -> starts_slash path = true)).
  { intros url Hh Hu Hs. destruct (Py.contains "?" url) eqn:Hc.
    - apply contains_split in Hc as (a & b & -> & Ha).
      rewrite partition_app by exact Ha. exists a, b.
      apply contains_app_false in Hh as [Hha Hhb]. cbn [Py.contains] in Hhb.
      refine (conj eq_refl (conj Ha (conj Hha (conj Hhb (conj _ _))))).
      + intros Hsafe. apply Hu, no_unsafe_app_true in Hsafe as [Hsa Hsb].
        split; [exact Hsa | now apply no_unsafe_cons in Hsb].
      + intros Hd. destruct (Hs Hd) as [H'|[r H']].
        * destruct a; [reflexivity | exact H'].
        * destruct a as [|c a]; [reflexivity|]. rewrite append_cons in H'.
          inversion H'; subst. cbn [Py.contains] in Ha. discriminate.
    - exists url, EmptyString.
      refine (conj eq_refl (conj Hc (conj Hh (conj eq_refl (conj _ _))))).
      + intros Hsafe. split; [now apply Hu | reflexivity].
      + intros Hd. destruct (Hs Hd) as [H'|[r ->]]; [exact H'|].
        cbn [Py.contains] in Hc. discriminate. }
  destruct (Py.contains "#" t) eqn:Hc.
  - apply contains_split in Hc as (a & b & -> & Ha).
    rewrite partition_app by exact Ha.
    destruct (Hq a Ha) as (path & query & -> & H);
      [intros H; now apply no_unsafe_app_true in H | | now exists path, query, b].
    intros H. destruct a as [|c a]; [now left|].
    rewrite append_cons in H. cbn [starts_delim] in H. unfold is_delim in H.
    cbn [Py.contains] in Ha. apply orb_false_elim in Ha as [Hc _].
    rewrite Hc, orb_false_r in H. apply orb_prop in H as [H|H].
    + left. exact H.
    + right. apply Ascii.eqb_eq in H. subst. now exists a.
  - destruct (Hq t Hc) as (path & query & -> & H);
      [tauto | | now exists path, query, EmptyString].
    intros H. destruct t as [|c t]; [now left|].
    cbn [starts_delim] in H. unfold is_delim in H.
    cbn [Py.contains] in Hc. apply orb_false_elim in Hc as [Hc _].
    rewrite Hc, orb_false_r in H. apply orb_prop in H as [H|H].
    + left. exact H.
    + right. apply Ascii.eqb_eq in H. subst. now exists t.
Qed.

Lemma split_tail_build (path query : string) :
  Py.contains "?" path = false -> Py.contains "#" path = false ->
  Py.contains "#" query = false ->
  split_tail (tail_text path query) = (path, query, EmptyString).
Proof.
  intros Hq Hh Hhq. unfold split_tail, tail_text.
  destruct (nonempty query) eqn:Hn.
  - change (path +:+ "?" +:+ query) with (path +:+ String "?" query).
    assert (H1 : Py.contains "#" (path +:+ String "?" query) = false).
    { rewrite contains_app, Hh. cbn [Py.contains orb]. now rewrite Hhq. }
    assert (H2 : Py.contains "?" (path +:+ String "?" query) = true).
    { rewrite contains_app. cbn [Py.contains]. rewrite Ascii.eqb_refl.
      apply orb_true_r. }
    rewrite H1, H2. now rewrite partition_app.
  - rewrite Hh, Hq. destruct query; [reflexivity | discriminate].
Qed.

Lemma starts_delim_tail_text (path query : string) :
  starts_slash path = true -> starts_delim (tail_text path query) = true.
Proof.
  unfold tail_text. intros H. destruct path as [|c path].
  - destruct (nonempty query); reflexivity.
  - assert (Hd : is_delim c = true)
      by (cbn [starts_slash] in H; unfold is_delim; now rewrite H).
    destruct (nonempty query); [rewrite append_cons|]; exact Hd.
Qed.

(** *** Splitting what [urlunsplit] builds *)

Lemma starts_slash_upto (url : string) :
  starts_slash url = true ->
  nonempty url && negb (String.eqb (Py.upto url 1) "/") = false.
Proof.
  destruct url as [|c url]; [reflexivity|]. cbn [starts_slash].
  intros H. apply Ascii.eqb_eq in H. subst c.
  change (String "/" url) with ("/" +:+ url).
  change 1 with (Z.of_nat (Py.len "/")). rewrite upto_app. reflexivity.
Qed.

Lemma urlunsplit_netloc (sch net url query : string) :
  nonempty net = true -> starts_slash url = true ->
  urlunsplit (mkSplit sch net url query EmptyString) = url_text sch net url query.
Proof.
  intros Hn Hs. unfold urlunsplit, url_text, tail_text.
  rewrite Hn, (starts_slash_upto url Hs). cbn [orb nonempty Py.len Nat.eqb negb].
  destruct (nonempty sch), (nonempty query); rewrite ?append_nil_l, ?append_assoc;
    reflexivity.
Qed.

Lemma no_unsafe_tail_text (path query : string) :
  no_unsafe path = true -> no_unsafe query = true ->
  no_unsafe (tail_text path query) = true.
Proof.
  intros Hp Hq. unfold tail_text. destruct (nonempty query); [|exact Hp].
  now rewrite !no_unsafe_app, Hp, Hq.
Qed.

Lemma scheme_wf_nonempty (sch : string) :
  scheme_wf sch = true -> nonempty sch = true ->
  first_is_ascii_alpha sch = true /\ starts_clean sch = true
  /\ Py.all scheme_chars sch = true /\ Py.lower sch = sch
  /\ Py.contains ":" sch = false /\ no_unsafe sch = true.
Proof.
  unfold scheme_wf. intros H Hn. rewrite Hn in H. cbn [negb orb] in H.
  apply andb_prop in H as [H H6]. apply andb_prop in H as [H H5].
  apply andb_prop in H as [H H4]. apply andb_prop in H as [H H3].
  apply andb_prop in H as [H1 H2].
  apply negb_true_iff in H5. apply String.eqb_eq in H4. now repeat split.
Qed.

(** [urlsplit] finds again the parts that [urlunsplit] was given. *)
Lemma urlsplit_build (sch net url query : string) :
  split_wf (mkSplit sch net url query EmptyString) ->
  urlsplit (url_text sch net url query) EmptyString
  = Ok (mkSplit sch net url query EmptyString).
Proof.
  intros (Hsch & Hne & Hnd & Hbr & Hsl & Hq & Hh & Hhq & Hun & Hup & Huq).
  cbn [s_scheme s_netloc s_path s_query] in *.
  set (rest := "//" +:+ net +:+ tail_text url query).
  assert (Hrest : no_unsafe rest = true).
  { unfold rest. now rewrite !no_unsafe_app, Hun, no_unsafe_tail_text. }
  assert (Hsplit : split_scheme (url_text sch net url query) EmptyString = (sch, rest)
                   /\ starts_clean (url_text sch net url query) = true
                   /\ no_unsafe (url_text sch net url query) = true).
  { unfold url_text. fold rest. destruct (nonempty sch) eqn:Hs.
    - destruct (scheme_wf_nonempty sch Hsch Hs) as (H1 & H2 & H3 & H4 & H5 & H6).
      rewrite append_assoc. change (":" +:+ rest) with (String ":" rest).
      split; [|split].
      + unfold split_scheme. rewrite find_app by exact H5.
        rewrite upto_app, from_app_cons, first_is_ascii_alpha_app by exact Hs.
        rewrite H1, H3, H4.
        replace (0 <? Z.of_nat (Py.len sch)) with true; [reflexivity|].
        symmetry. apply Z.ltb_lt. destruct sch; [discriminate | cbn [Py.len]; lia].
      + destruct sch; [discriminate | exact H2].
      + rewrite no_unsafe_app, H6.
        change (String ":" rest) with (":" +:+ rest). now rewrite no_unsafe_app, Hrest.
    - destruct sch; [|discriminate Hs].
      rewrite append_nil_l. split; [|split; [reflexivity | exact Hrest]].
      unfold split_scheme. unfold rest at 2.
      change (first_is_ascii_alpha ("//" +:+ net +:+ tail_text url query)) with false.
      now rewrite andb_false_r. }
  destruct Hsplit as (Hss & Hclean & Hsafe).
  unfold urlsplit. rewrite (lstrip_id _ Hclean), (remove_unsafe_bytes_id _ Hsafe).
  change (remove_unsafe_bytes (Py.strip _WHATWG_C0_CONTROL_OR_SPACE EmptyString))
    with EmptyString.
  rewrite Hss. unfold rest. rewrite upto_two_slashes, String.eqb_refl.
  rewrite splitnetloc_spec.
  rewrite first_delim_app by (try assumption; now apply starts_delim_tail_text).
  rewrite take_app, drop_app, Hbr. cbn [bind].
  now rewrite split_tail_build.
Qed.

(** What [urlsplit] answers, when it finds a network location, is well
    formed. *)
Lemma urlsplit_wf (u : string) (r : SplitResult) :
  urlsplit u EmptyString = Ok r -> nonempty (s_netloc r) = true -> split_wf r.
Proof.
  unfold urlsplit.
  change (remove_unsafe_bytes (Py.strip _WHATWG_C0_CONTROL_OR_SPACE EmptyString))
    with EmptyString.
  set (u1 := remove_unsafe_bytes (Py.lstrip _WHATWG_C0_CONTROL_OR_SPACE u)).
  pose proof (split_scheme_spec u1 (remove_unsafe_bytes_free _)) as Hs.
  destruct (split_scheme u1 EmptyString) as [sch rest].
  destruct Hs as (Hsch & Hrest & _).
  destruct (String.eqb (Py.upto rest 2) "//") eqn:H2.
  - apply upto_two in H2 as [s ->]. rewrite splitnetloc_spec.
    destruct (check_brackets (Py.take (first_delim s) s)) as [[]|e] eqn:Hbr;
      cbn [bind]; [|discriminate].
    pose proof (take_first_delim s) as Hnd.
    pose proof (drop_first_delim s) as Hsd.
    assert (Hsafe : no_unsafe (Py.take (first_delim s) s) = true
                    /\ no_unsafe (Py.drop (first_delim s) s) = true).
    { apply no_unsafe_app_true. rewrite take_drop.
      now apply no_unsafe_app_true in Hrest as [_ Hrest]. }
    destruct Hsafe as [Hsn Hst].
    destruct (split_tail_spec (Py.drop (first_delim s) s))
      as (path & query & fragment & -> & Hq & Hh & Hhq & Hu & Hsl).
    intros H Hne. inversion H; subst r. cbn [s_netloc] in Hne.
    destruct (Hu Hst) as [Hup Huq].
    repeat split; cbn [s_scheme s_netloc s_path s_query]; auto.
  - cbn [bind]. destruct (split_tail rest) as [[path query] fragment].
    intros H Hne. inversion H; subst r. discriminate Hne.
Qed.

(** *** The parameters *)

Lemma rfind_at_none (c : ascii) (s : string) (k : nat) :
  Py.contains c s = false -> Py.rfind_at c s k = -1.
Proof.
  revert k. induction s as [|d s IH]; intros k H; [reflexivity|].
  cbn [Py.contains] in H. apply orb_false_elim in H as [Hd Hs].
  cbn [Py.rfind_at]. now rewrite IH, Hd.
Qed.

Lemma rfind_at_app (c : ascii) (a b : string) (k : nat) :
  Py.contains c b = false ->
  Py.rfind_at c (a +:+ String c b) k = Z.of_nat (k + Py.len a).
Proof.
  intros Hb. revert k. induction a as [|d a IH]; intros k.
  - rewrite append_nil_l. cbn [Py.rfind_at Py.len].
    rewrite rfind_at_none by exact Hb. cbn. rewrite Ascii.eqb_refl. f_equal. lia.
  - rewrite append_cons. cbn [Py.rfind_at Py.len]. rewrite IH.
    replace (0 <=? Z.of_nat (S k + Py.len a)) with true
      by (symmetry; apply Z.leb_le; lia).
    f_equal. lia.
Qed.

(** A string that holds [c] splits at its last [c]. *)
Lemma contains_split_last (c : ascii) (s : string) :
  Py.contains c s = true ->
  exists a b, s = a +:+ String c b /\ Py.contains c b = false.
Proof.
  induction s as [|d s IH]; [discriminate|]. cbn [Py.contains].
  destruct (Py.contains c s) eqn:Hs.
  - intros _. destruct (IH eq_refl) as (a & b & -> & Hb).
    now exists (String d a), b.
  - rewrite orb_false_r. intros Hd. apply Ascii.eqb_eq in Hd. subst d.
    now exists EmptyString, s.
Qed.

Lemma find_from_app (c : ascii) (a b t : string) :
  Py.contains c b = false ->
  Py.find_from c (a +:+ b +:+ String c t) (Z.of_nat (Py.len a))
  = Z.of_nat (Py.len a + Py.len b).
Proof.
  intros Hb. unfold Py.find_from.
  rewrite bound_within by (rewrite len_app; lia).
  rewrite Nat2Z.id, drop_app. now apply find_at_app.
Qed.

(** [_splitparams] on a path that holds [;]: when what it answers as the
    path holds no [;], the text is that path, [;] and the parameters, and
    the parameters hold no [/]. *)
Lemma splitparams_spec (url : string) :
  Py.contains ";" url = true ->
  Py.contains ";" (fst (_splitparams url)) = false ->
  url = fst (_splitparams url) +:+ String ";" (snd (_splitparams url))
  /\ Py.contains "/" (snd (_splitparams url)) = false.
Proof.
  intros Hsemi. unfold _splitparams. destruct (Py.contains "/" url) eqn:Hslash.
  - apply contains_split_last in Hslash as (x & y & -> & Hy).
    unfold Py.rfind. rewrite rfind_at_app by exact Hy. cbn [Nat.add].
    destruct (Py.contains ";" y) eqn:Hsy.
    + apply contains_split in Hsy as (a & b & -> & Ha).
      change (x +:+ String "/" (a +:+ String ";" b))
        with (x +:+ (String "/" a) +:+ String ";" b).
      rewrite find_from_app by (cbn [Py.contains]; now rewrite Ha).
      replace (Z.of_nat (Py.len x + Py.len (String "/" a)) <? 0) with false
        by (symmetry; apply Z.ltb_ge; lia).
      cbn [fst snd]. rewrite <- append_assoc, <- len_app.
      rewrite upto_app. rewrite from_app_cons. intros _. split; [reflexivity|].
      apply contains_app_false in Hy as [_ Hy]. cbn [Py.contains] in Hy.
      now apply orb_false_elim in Hy as [_ Hy].
    + unfold Py.find_from. rewrite bound_within by (rewrite len_app; lia).
      rewrite Nat2Z.id, drop_app.
      rewrite find_at_none by (cbn [Py.contains]; now rewrite Hsy).
      cbn [Z.ltb Z.compare fst]. intros H. rewrite Hsemi in H. discriminate.
  - apply contains_split in Hsemi as (a & b & -> & Ha).
    rewrite find_app by exact Ha. cbn [fst snd].
    rewrite upto_app, from_app_cons. intros _. split; [reflexivity|].
    apply contains_app_false in Hslash as [_ Hb]. cbn [Py.contains] in Hb.
    now apply orb_false_elim in Hb as [_ Hb].
Qed.

(** [_splitparams] finds again a path without [;] and parameters without
    [/]. *)
Lemma splitparams_build (path params : string) :
  Py.contains ";" path = false -> Py.contains "/" params = false ->
  _splitparams (path +:+ String ";" params) = (path, params).
Proof.
  intros Hp Hq. unfold _splitparams.
  destruct (Py.contains "/" (path +:+ String ";" params)) eqn:Hslash.
  - rewrite contains_app in Hslash. cbn [Py.contains] in Hslash.
    rewrite Hq in Hslash. change (Ascii.eqb ";" "/") with false in Hslash.
    cbn [orb] in Hslash. rewrite ?orb_false_r in Hslash.
    apply contains_split_last in Hslash as (x & y & -> & Hy).
    apply contains_app_false in Hp as [Hpx Hpy]. cbn [Py.contains] in Hpy.
    rewrite append_assoc. rewrite append_cons.
    unfold Py.rfind. rewrite rfind_at_app.
    2:{ rewrite contains_app, Hy. cbn [Py.contains orb]. exact Hq. }
    cbn [Nat.add].
    change (x +:+ String "/" (y +:+ String ";" params))
      with (x +:+ (String "/" y) +:+ String ";" params).
    rewrite find_from_app by exact Hpy.
    replace (Z.of_nat (Py.len x + Py.len (String "/" y)) <? 0) with false
      by (symmetry; apply Z.ltb_ge; lia).
    rewrite <- append_assoc, <- len_app. now rewrite upto_app, from_app_cons.
  - rewrite find_app by exact Hp. now rewrite upto_app, from_app_cons.
Qed.

(** *** The trailing slash *)

Lemma endswith_split (s x : string) :
  Py.endswith s x = true -> exists a, s = a +:+ x.
Proof.
  induction s as [|c s IH]; cbn [Py.endswith].
  - rewrite orb_false_r. intros H. apply String.eqb_eq in H. subst. now exists EmptyString.
  - intros H. apply orb_prop in H as [H|H].
    + apply String.eqb_eq in H. rewrite H. now exists EmptyString.
    + destruct (IH H) as [a ->]. now exists (String c a).
Qed.

Lemma upto_minus_one (a : string) (c : ascii) :
  Py.upto (a +:+ String c EmptyString) (-1) = a.
Proof.
  unfold Py.upto, Py.bound. rewrite len_app. cbn [Py.len].
  change (-1 <? 0) with true. cbv iota.
  replace (Z.to_nat (Z.max 0 (Z.of_nat (Py.len a + 1) + -1))) with (Py.len a) by lia.
  apply take_app.
Qed.

Lemma clean_parts_trim (p : ParseResult) :
  clean_parts p
  = mkParse (scheme p) (netloc p) (trim (path p)) (params p) (query p) EmptyString.
Proof.
  unfold clean_parts, trim, _replace_path, _replace_fragment. cbn [path].
  now destruct (_ && _).
Qed.

Lemma trim_cases (path : string) :
  (trim path = path /\ Py.endswith path "/" && (1 <? Py.len path)%nat = false)
  \/ exists a, path = a +:+ "/" /\ nonempty a = true /\ trim path = a.
Proof.
  unfold trim.
  destruct (Py.endswith path "/" && (1 <? Py.len path)%nat) eqn:Ht; [right|now left].
  apply andb_prop in Ht as [He Hl]. apply Nat.ltb_lt in Hl.
  apply endswith_split in He as [a ->]. exists a.
  rewrite upto_minus_one. rewrite len_app in Hl. cbn [Py.len] in Hl.
  repeat split. destruct a; [cbn [Py.len] in Hl; lia | reflexivity].
Qed.

(** What [trim] leaves holds no character that the path did not hold,
    starts as the path did, and, unless the path ended in two slashes, is
    left as it is by a second [trim]. *)
Lemma trim_contains (c : ascii) (path : string) :
  Py.contains c path = false -> Py.contains c (trim path) = false.
Proof.
  intros H. destruct (trim_cases path) as [[-> _]|(a & -> & _ & ->)]; [exact H|].
  now apply contains_app_false in H.
Qed.

Lemma trim_no_unsafe (path : string) :
  no_unsafe path = true -> no_unsafe (trim path) = true.
Proof.
  intros H. destruct (trim_cases path) as [[-> _]|(a & -> & _ & ->)]; [exact H|].
  now apply no_unsafe_app_true in H.
Qed.

Lemma trim_starts_slash (path : string) :
  starts_slash path = true -> starts_slash (trim path) = true.
Proof.
  intros H. destruct (trim_cases path) as [[-> _]|(a & -> & Ha & ->)]; [exact H|].
  destruct a; [discriminate | now rewrite append_cons in H].
Qed.

Lemma trim_trim (path : string) :
  Py.endswith path "//" = false ->
  Py.endswith (trim path) "/" && (1 <? Py.len (trim path))%nat = false.
Proof.
  intros H. destruct (trim_cases path) as [[-> Ht]|(a & -> & Ha & ->)]; [exact Ht|].
  destruct (Py.endswith a "/") eqn:He; [|reflexivity].
  apply endswith_split in He as [b ->].
  rewrite append_assoc in H. change ("/" +:+ "/") with "//"%string in H.
  now rewrite endswith_app in H.
Qed.

(** *** Cleaning a clean URL *)

Lemma urlparse_inv (u : string) (p : ParseResult) :
  urlparse u EmptyString = Ok p ->
  exists url,
    urlsplit u EmptyString
    = Ok (mkSplit (scheme p) (netloc p) url (query p) (fragment p))
    /\ (path p, params p)
       = if Py.mem (scheme p) uses_params && Py.contains ";" url
         then _splitparams url else (url, EmptyString).
Proof.
  unfold urlparse. destruct (urlsplit u EmptyString) as [[sch net url q f]|];
    cbn [bind]; [|discriminate].
  destruct (if Py.mem sch uses_params && Py.contains ";" url
            then _splitparams url else (url, EmptyString)) as [pa pr] eqn:Hp.
  intros H. inversion H; subst p. cbn [scheme netloc path params query fragment].
  exists url. now rewrite Hp.
Qed.

(** The path and the parameters that [urlparse] answers, when the path
    holds no [;]: their text is the path that [urlsplit] answered, and
    parameters are found only under a scheme that uses them, and hold no
    [/]. *)
Lemma params_spec (sch url pa pr : string) :
  (pa, pr) = (if Py.mem sch uses_params && Py.contains ";" url
              then _splitparams url else (url, EmptyString)) ->
  Py.contains ";" pa = false ->
  (pr = EmptyString /\ url = pa \/
   Py.mem sch uses_params = true /\ url = pa +:+ String ";" pr)
  /\ Py.contains "/" pr = false.
Proof.
  destruct (Py.mem sch uses_params && Py.contains ";" url) eqn:Hc.
  - apply andb_prop in Hc as [Hm Hs]. intros H Hpa.
    assert (Hf : pa = fst (_splitparams url)) by now rewrite <- H.
    assert (Hg : pr = snd (_splitparams url)) by now rewrite <- H.
    rewrite Hf in Hpa. destruct (splitparams_spec url Hs Hpa) as [Hu Hn].
    rewrite <- Hf, <- Hg in Hu. rewrite <- Hg in Hn.
    split; [right; now split | exact Hn].
  - intros H _. inversion H; subst. split; [now left | reflexivity].
Qed.

Lemma urlunparse_text (sch net pa pr q f : string) :
  urlunparse (mkParse sch net pa pr q f)
  = urlunsplit (mkSplit sch net (path_text pa pr) q f).
Proof. reflexivity. Qed.

Lemma starts_slash_app (s t : string) :
  nonempty s = true -> starts_slash (s +:+ t) = starts_slash s.
Proof. destruct s; [discriminate | reflexivity]. Qed.

(** [urlparse] finds again the components that [clean_url] assembled, when
    there is a network location and the path holds no [;]. *)
Lemma urlparse_clean (u : string) (p : ParseResult) :
  urlparse u EmptyString = Ok p ->
  nonempty (netloc p) = true ->
  Py.contains ";" (path p) = false ->
  urlparse (urlunparse (clean_parts p)) EmptyString = Ok (clean_parts p).
Proof.
  intros Hp Hnet Hsemi.
  destruct (urlparse_inv u p Hp) as (url & Hsplit & Hpp).
  apply urlsplit_wf in Hsplit; [|exact Hnet].
  destruct Hsplit as (Hsch & _ & Hnd & Hbr & Hsl & Hq & Hh & Hhq & Hun & Hup & Huq).
  cbn [s_scheme s_netloc s_path s_query] in *.
  destruct (params_spec _ _ _ _ Hpp Hsemi) as [Hshape Hslash].
  rewrite clean_parts_trim.
  set (pa := trim (path p)).
  assert (Hpa : Py.contains ";" pa = false) by now apply trim_contains.
  assert (Hfacts : starts_slash (path_text pa (params p)) = true
                   /\ Py.contains "?" (path_text pa (params p)) = false
                   /\ Py.contains "#" (path_text pa (params p)) = false
                   /\ no_unsafe (path_text pa (params p)) = true
                   /\ (if Py.mem (scheme p) uses_params
                          && Py.contains ";" (path_text pa (params p))
                       then _splitparams (path_text pa (params p))
                       else (path_text pa (params p), EmptyString))
                      = (pa, params p)).
  { unfold path_text. destruct Hshape as [[Hpr Hu]|[Hm Hu]].
    - rewrite Hpr. cbn [nonempty Py.len Nat.eqb negb]. subst url. unfold pa.
      rewrite trim_starts_slash, !trim_contains, trim_no_unsafe by assumption.
      rewrite andb_false_r. now repeat split.
    - subst url.
      apply contains_app_false in Hq as [Hq1 Hq2].
      apply contains_app_false in Hh as [Hh1 Hh2].
      apply no_unsafe_app_true in Hup as [Hup1 Hup2].
      cbn [Py.contains] in Hq2, Hh2.
      apply orb_false_elim in Hq2 as [_ Hq2]. apply orb_false_elim in Hh2 as [_ Hh2].
      apply no_unsafe_cons in Hup2.
      assert (Hne : nonempty (path p) = true).
      { destruct (path p); [discriminate Hsl | reflexivity]. }
      rewrite starts_slash_app in Hsl by exact Hne.
      assert (Hne' : nonempty pa = true).
      { unfold pa. destruct (trim_cases (path p)) as [[-> _]|(a & _ & Ha & ->)];
          assumption. }
      destruct (nonempty (params p)) eqn:Hpr.
      + change (pa +:+ ";" +:+ params p) with (pa +:+ String ";" (params p)).
        rewrite starts_slash_app by exact Hne'.
        rewrite !contains_app, no_unsafe_app. cbn [Py.contains].
        unfold pa at 1 2 3 4.
        rewrite trim_starts_slash, !trim_contains, trim_no_unsafe by assumption.
        rewrite Hq2, Hh2, Hm, Ascii.eqb_refl. cbn [orb andb].
        split; [reflexivity|]. split; [reflexivity|]. split; [reflexivity|].
        split.
        * change (String ";" (params p)) with (";" +:+ params p).
          now rewrite no_unsafe_app, Hup2.
        * rewrite orb_true_r. now apply splitparams_build.
      + unfold pa at 1 2 3 4.
        rewrite trim_starts_slash, !trim_contains, trim_no_unsafe by assumption.
        fold pa. rewrite Hpa, andb_false_r.
        destruct (params p); [now repeat split | discriminate]. }
  destruct Hfacts as (F1 & F2 & F3 & F4 & F5).
  rewrite urlunparse_text, urlunsplit_netloc by assumption.
  unfold urlparse. rewrite urlsplit_build.
  - cbn [bind]. now rewrite F5.
  - repeat split; cbn [s_scheme s_netloc s_path s_query]; assumption.
Qed.

Lemma clean_parts_idem (p : ParseResult) :
  Py.endswith (path p) "//" = false -> clean_parts (clean_parts p) = clean_parts p.
Proof.
  intros H. rewrite (clean_parts_trim p).
  rewrite (clean_parts_trim (mkParse _ _ _ _ _ _)).
  cbn [scheme netloc path params query]. f_equal.
  unfold trim at 1. now rewrite trim_trim.
Qed.

(** C2 (amended): [clean_url] removes the fragment and one trailing slash
    from a path longer than [/].  It is idempotent on every URL that parses
    with a network location and a path that holds no [;] and does not end in
    two slashes: cleaning its clean form answers the clean form again.  Two
    URLs whose components differ only by the fragment have the same clean
    form, and so have two whose paths differ only by one trailing slash
    after a path that is not empty and does not end in a slash. *)
Theorem clean_url_idempotent (u : string) (p : ParseResult) :
  urlparse u EmptyString = Ok p ->
  nonempty (netloc p) = true ->
  Py.contains ";" (path p) = false ->
  Py.endswith (path p) "//" = false ->
  clean_url u = Ok (urlunparse (clean_parts p))
  /\ clean_url (urlunparse (clean_parts p)) = Ok (urlunparse (clean_parts p))
  /\ fragment (clean_parts p) = EmptyString
  /\ path (clean_parts p) = trim (path p)
  /\ (forall u' p', urlparse u' EmptyString = Ok p' ->
        _replace_fragment p' (fragment p) = p -> clean_url u' = clean_url u)
  /\ (forall u' p', urlparse u' EmptyString = Ok p' ->
        _replace_path p' (path p) = p ->
        path p' = path p +:+ "/" ->
        nonempty (path p) = true -> Py.endswith (path p) "/" = false ->
        clean_url u' = clean_url u).
Proof.
  intros Hp Hnet Hsemi Hss.
  split; [now apply clean_url_parsed|]. split; [|split; [|split; [|split]]].
  - rewrite (clean_url_parsed _ _ (urlparse_clean u p Hp Hnet Hsemi)).
    now rewrite clean_parts_idem.
  - now rewrite clean_parts_trim.
  - now rewrite clean_parts_trim.
  - intros u' p' Hp' Hf. rewrite (clean_url_parsed _ _ Hp'), (clean_url_parsed _ _ Hp).
    rewrite <- Hf. now rewrite !clean_parts_trim.
  - intros u' p' Hp' Hpath Hext Hne Hend.
    rewrite (clean_url_parsed _ _ Hp'), (clean_url_parsed _ _ Hp).
    rewrite !clean_parts_trim.
    destruct p as [sch net pa pr q f], p' as [sch' net' pa' pr' q' f'].
    cbn [scheme netloc path params query fragment _replace_path] in *.
    inversion Hpath; subst. do 2 f_equal. unfold trim.
    rewrite endswith_app, Hend, len_app. cbn [Py.len andb].
    replace (1 <? Py.len pa + 1)%nat with true.
    + change (pa +:+ "/") with (pa +:+ String "/" EmptyString).
      now rewrite upto_minus_one.
    + symmetry. apply Nat.ltb_lt. destruct pa; [discriminate|cbn [Py.len]; lia].
Qed.

(** Whatever hosts the validator accepts, a path that ends in two slashes
    loses one slash at each cleaning. *)
Lemma clean_url_two_slashes :
  clean_url "http://a.com/x//" = Ok "http://a.com/x/"%string
  /\ clean_url "http://a.com/x/" = Ok "http://a.com/x"%string.
Proof. split; vm_compute; reflexivity. Qed.

(** Whatever hosts the validator accepts, an unmatched bracket makes the
    scope filter raise. *)
Lemma is_same_domain_unmatched_bracket :
  is_same_domain "https://example.com" "http://["
  = Raise (ValueError "Invalid IPv6 URL").
Proof. vm_compute. reflexivity. Qed.

(** ** More on the scope filter *)

(** X1: the scope filter is symmetric: for two URLs that parse, the first is
    in the scope of the second exactly when the second is in the scope of
    the first. *)
Theorem is_same_domain_symmetric (base_url url : string) (b u : ParseResult) :
  urlparse base_url EmptyString = Ok b ->
  urlparse url EmptyString = Ok u ->
  is_same_domain base_url url = is_same_domain url base_url.
Proof.
  intros Hb Hu. unfold is_same_domain. rewrite Hb, Hu. cbn [bind]. f_equal.
  rewrite (String.eqb_sym (netloc b) (netloc u)).
  destruct (String.eqb (netloc u) (netloc b)); [reflexivity|]. cbn [orb].
  apply orb_comm.
Qed.

(** X2: what the scope filter accepts: for two URLs that parse, the answer
    is true exactly when the two network locations are equal, or one of them
    is the other behind some text and a dot. *)
Theorem is_same_domain_accepts (base_url url : string) (b u : ParseResult) :
  urlparse base_url EmptyString = Ok b ->
  urlparse url EmptyString = Ok u ->
  is_same_domain base_url url = Ok true
  <-> (netloc b = netloc u
       \/ (exists sub, netloc u = sub +:+ "." +:+ netloc b)
       \/ (exists sub, netloc b = sub +:+ "." +:+ netloc u)).
Proof.
  intros Hb Hu. unfold is_same_domain. rewrite Hb, Hu. cbn [bind]. split.
  - intros H. injection H as H'.
    apply orb_prop in H' as [H'|H']; [apply orb_prop in H' as [H'|H']|].
    + left. now apply String.eqb_eq.
    + right; left. now apply endswith_split.
    + right; right. now apply endswith_split.
  - intros [H|[[sub H]|[sub H]]]; f_equal.
    + apply String.eqb_eq in H. now rewrite H.
    + rewrite H at 2. rewrite endswith_app. now rewrite orb_true_r.
    + rewrite H at 3. rewrite endswith_app. now rewrite orb_true_r.
Qed.

(** ** Extensions *)

Lemma lower_char_idem (c : ascii) :
  Py.lower_char (Py.lower_char c) = Py.lower_char c.
Proof. destruct c as [[] [] [] [] [] [] [] []]; vm_compute; reflexivity. Qed.

Lemma lower_idem (s : string) : Py.lower (Py.lower s) = Py.lower s.
Proof.
  induction s as [|c s IH]; [reflexivity|]. cbn [Py.lower].
  now rewrite lower_char_idem, IH.
Qed.

(** X3: the tests on the extension of a URL ignore its case: the allow-list
    test, the exclusion test and the inferred extension are the same for a
    URL and for its lower-case form. *)
Theorem extension_tests_ignore_case (url : string) (extensions_tuple : list string) :
  is_valid_file_extension (Py.lower url) extensions_tuple
  = is_valid_file_extension url extensions_tuple
  /\ is_excluded_file (Py.lower url) = is_excluded_file url
  /\ get_extension_from_url (Py.lower url) = get_extension_from_url url.
Proof.
  unfold is_valid_file_extension, is_excluded_file, get_extension_from_url.
  now rewrite lower_idem.
Qed.

Lemma common_extensions_plain :
  Forall (fun ext => Py.contains "/" ext = false /\ Py.contains "." ext = true)
    (".html"%string :: common_extensions).
Proof. repeat constructor. Qed.

Lemma endswith_both (s x y : string) :
  Py.endswith s x = true -> Py.endswith s y = true ->
  Py.endswith x y = true \/ Py.endswith y x = true.
Proof.
  induction s as [|c s IH]; cbn [Py.endswith]; intros Hx Hy.
  - rewrite orb_false_r in Hx, Hy. apply String.eqb_eq in Hx, Hy. subst.
    now left.
  - apply orb_prop in Hx as [Hx|Hx]; apply orb_prop in Hy as [Hy|Hy].
    + apply String.eqb_eq in Hx, Hy. subst. left.
      cbn [Py.endswith]. now rewrite String.eqb_refl.
    + apply String.eqb_eq in Hx. subst. left. cbn [Py.endswith].
      rewrite Hy. apply orb_true_r.
    + apply String.eqb_eq in Hy. subst. right. cbn [Py.endswith].
      rewrite Hx. apply orb_true_r.
    + now apply IH.
Qed.

(** No common extension ends in another one. *)
Lemma common_extensions_apart (x y : string) :
  In x common_extensions -> In y common_extensions ->
  Py.endswith x y = true -> x = y.
Proof.
  unfold common_extensions. cbn [In]. intros Hx Hy.
  repeat (destruct Hx as [<-|Hx]; [|]); try contradiction;
    repeat (destruct Hy as [<-|Hy]; [|]); try contradiction;
    vm_compute; intros H; first [reflexivity | discriminate H].
Qed.

(** X4: the extension inferred from a URL is the one common extension that
    the lower-case URL ends in, if there is one (there is at most one), and
    [.html] otherwise. *)
Theorem get_extension_from_url_spec (url : string) :
  (forall ext, In ext common_extensions ->
     Py.endswith (Py.lower url) ext = true -> get_extension_from_url url = ext)
  /\ ((forall ext, In ext common_extensions ->
         Py.endswith (Py.lower url) ext = false) ->
      get_extension_from_url url = ".html"%string)
  /\ (In (get_extension_from_url url) common_extensions
      \/ get_extension_from_url url = ".html"%string).
Proof.
  unfold get_extension_from_url.
  destruct (List.find (fun ext => Py.endswith (Py.lower url) ext) common_extensions)
    as [e|] eqn:Hf.
  - apply List.find_some in Hf as [Hin He]. split; [|split].
    + intros ext Hext Hends.
      destruct (endswith_both _ _ _ He Hends) as [H|H].
      * now apply common_extensions_apart.
      * symmetry. now apply common_extensions_apart.
    + intros Hnone. rewrite (Hnone e Hin) in He. discriminate.
    + now left.
  - split; [|split; [reflexivity | now right]].
    intros ext Hext Hends. now rewrite (List.find_none _ _ Hf ext Hext) in Hends.
Qed.

(** ** The clean form of a URL *)

Lemma contains_take (c : ascii) (n : nat) (s : string) :
  Py.contains c s = false -> Py.contains c (Py.take n s) = false.
Proof.
  intros H. rewrite <- (take_drop n s) in H. now apply contains_app_false in H.
Qed.

Lemma contains_drop (c : ascii) (n : nat) (s : string) :
  Py.contains c s = false -> Py.contains c (Py.drop n s) = false.
Proof.
  intros H. rewrite <- (take_drop n s) in H. now apply contains_app_false in H.
Qed.

Lemma splitparams_contains (c : ascii) (url : string) :
  Py.contains c url = false ->
  Py.contains c (fst (_splitparams url)) = false
  /\ Py.contains c (snd (_splitparams url)) = false.
Proof.
  intros H. unfold _splitparams, Py.upto, Py.from.
  destruct (Py.contains "/" url); [destruct (_ <? 0)|]; cbn [fst snd];
    split; auto using contains_take, contains_drop.
Qed.

Lemma scheme_chars_no_hash (s : string) :
  Py.all scheme_chars s = true -> Py.contains "#" s = false.
Proof.
  induction s as [|c s IH]; [reflexivity|]. cbn [Py.all Py.contains].
  intros H. apply andb_prop in H as [Hc Hs]. rewrite (IH Hs), orb_false_r.
  clear -Hc. destruct c as [[] [] [] [] [] [] [] []];
    first [reflexivity | vm_compute in Hc; discriminate Hc].
Qed.

Lemma scheme_wf_no_hash (sch : string) :
  scheme_wf sch = true -> Py.contains "#" sch = false.
Proof.
  intros H. destruct (nonempty sch) eqn:Hn.
  - apply scheme_chars_no_hash. now apply scheme_wf_nonempty.
  - now destruct sch.
Qed.

(** No part that [urlsplit] answers, the fragment apart, holds a [#]. *)
Lemma urlsplit_no_hash (u : string) (r : SplitResult) :
  urlsplit u EmptyString = Ok r ->
  Py.contains "#" (s_scheme r) = false
  /\ Py.contains "#" (s_netloc r) = false
  /\ Py.contains "#" (s_path r) = false
  /\ Py.contains "#" (s_query r) = false.
Proof.
  unfold urlsplit.
  change (remove_unsafe_bytes (Py.strip _WHATWG_C0_CONTROL_OR_SPACE EmptyString))
    with EmptyString.
  set (u1 := remove_unsafe_bytes (Py.lstrip _WHATWG_C0_CONTROL_OR_SPACE u)).
  pose proof (split_scheme_spec u1 (remove_unsafe_bytes_free _)) as Hs.
  destruct (split_scheme u1 EmptyString) as [sch rest].
  destruct Hs as (Hsch & _ & _). apply scheme_wf_no_hash in Hsch.
  destruct (String.eqb (Py.upto rest 2) "//") eqn:H2.
  - apply upto_two in H2 as [s ->]. rewrite splitnetloc_spec.
    destruct (check_brackets (Py.take (first_delim s) s)) as [[]|e];
      cbn [bind]; [|discriminate].
    pose proof (take_first_delim s) as Hnd.
    destruct (split_tail_spec (Py.drop (first_delim s) s))
      as (path & query & fragment & -> & _ & Hh & Hhq & _).
    intros H. inversion H; subst r. cbn [s_scheme s_netloc s_path s_query].
    repeat split; try assumption.
    unfold no_delim in Hnd. apply andb_prop in Hnd as [_ Hnd].
    now apply negb_true_iff in Hnd.
  - cbn [bind].
    destruct (split_tail_spec rest)
      as (path & query & fragment & -> & _ & Hh & Hhq & _).
    intros H. inversion H; subst r. now repeat split.
Qed.

Lemma urlunsplit_no_hash (sch net url q : string) :
  Py.contains "#" sch = false -> Py.contains "#" net = false ->
  Py.contains "#" url = false -> Py.contains "#" q = false ->
  Py.contains "#" (urlunsplit (mkSplit sch net url q EmptyString)) = false.
Proof.
  intros Hs Hn Hu Hq. unfold urlunsplit.
  change (nonempty EmptyString) with false. cbv iota.
  repeat match goal with
         | |- context [if ?b then _ else _] => destruct b
         end;
    rewrite ?contains_app, ?Hs, ?Hn, ?Hu, ?Hq; reflexivity.
Qed.

(** X5: the clean form of a URL holds no [#]: whatever the URL, if
    [clean_url] answers, the fragment and its separator are gone, and no
    other [#] is left. *)
Theorem clean_url_no_fragment (url cleaned : string) :
  clean_url url = Ok cleaned -> Py.contains "#" cleaned = false.
Proof.
  unfold clean_url, urlparse.
  destruct (urlsplit url EmptyString) as [r|] eqn:Hr; cbn [bind]; [|discriminate].
  destruct (urlsplit_no_hash url r Hr) as (Hs & Hn & Hp & Hq).
  destruct r as [sch net pa q f]. cbn [s_scheme s_netloc s_path s_query] in *.
  destruct (splitparams_contains "#" pa Hp) as [Hp1 Hp2].
  assert (Hparts : forall pa' pr',
            Py.contains "#" pa' = false -> Py.contains "#" pr' = false ->
            Py.contains "#" (urlunparse (clean_parts (mkParse sch net pa' pr' q f)))
            = false).
  { intros pa' pr' H1 H2. rewrite clean_parts_trim.
    cbn [scheme netloc path params query]. rewrite urlunparse_text.
    apply urlunsplit_no_hash; try assumption.
    unfold path_text. destruct (nonempty pr'); [|now apply trim_contains].
    now rewrite !contains_app, trim_contains, H2. }
  destruct (Py.mem sch uses_params && Py.contains ";" pa).
  - destruct (_splitparams pa) as [pa' pr']. cbn [fst snd] in *.
    intros H. inversion H; subst. now apply Hparts.
  - intros H. inversion H; subst. now apply Hparts.
Qed.

(** X6: cleaning keeps the scope: a URL that parses with a network location
    and a path without [;] is in the scope of a base URL exactly when its
    clean form is, and in both directions. *)
Theorem clean_url_keeps_scope (base_url url : string) (p : ParseResult) :
  urlparse url EmptyString = Ok p ->
  nonempty (netloc p) = true ->
  Py.contains ";" (path p) = false ->
  clean_url url = Ok (urlunparse (clean_parts p))
  /\ is_same_domain base_url (urlunparse (clean_parts p))
     = is_same_domain base_url url
  /\ is_same_domain (urlunparse (clean_parts p)) base_url
     = is_same_domain url base_url.
Proof.
  intros Hp Hn Hs. split; [now apply clean_url_parsed|].
  pose proof (urlparse_clean url p Hp Hn Hs) as Hc.
  unfold is_same_domain. rewrite Hc, Hp. cbn [bind].
  rewrite clean_parts_trim. cbn [netloc]. split; reflexivity.
Qed.

(** ** What a scrape answers *)

Lemma classify_file_inv (base_url : string) (extensions : list string)
    (old_visited_pages old_file_links : gset string) (cleaned_url : string) :
  classify base_url extensions old_visited_pages old_file_links cleaned_url = Ok File ->
  is_valid_file_extension cleaned_url extensions = true
  /\ is_same_domain base_url cleaned_url = Ok true
  /\ (cleaned_url ∉ old_visited_pages)
  /\ (cleaned_url ∉ old_file_links).
Proof.
  unfold classify.
  destruct (is_excluded_file cleaned_url
            && negb (is_valid_file_extension cleaned_url extensions));
    [discriminate|].
  destruct (bool_decide (cleaned_url ∈ old_visited_pages)) eqn:Hv; [discriminate|].
  destruct (bool_decide (cleaned_url ∈ old_file_links)) eqn:Hf; [discriminate|].
  apply bool_decide_eq_false in Hv, Hf. cbn [orb].
  destruct (is_same_domain base_url cleaned_url) as [[]|]; cbn [bind negb];
    try discriminate.
  destruct (is_valid_file_extension cleaned_url extensions); [now repeat split|].
  destruct (Py.startswith cleaned_url base_url); discriminate.
Qed.

Lemma classify_page_inv (base_url : string) (extensions : list string)
    (old_visited_pages old_file_links : gset string) (cleaned_url : string) :
  classify base_url extensions old_visited_pages old_file_links cleaned_url = Ok Page ->
  Py.startswith cleaned_url base_url = true
  /\ is_valid_file_extension cleaned_url extensions = false
  /\ is_excluded_file cleaned_url = false
  /\ is_same_domain base_url cleaned_url = Ok true
  /\ (cleaned_url ∉ old_visited_pages)
  /\ (cleaned_url ∉ old_file_links).
Proof.
  unfold classify.
  destruct (is_excluded_file cleaned_url) eqn:Hx;
    destruct (is_valid_file_extension cleaned_url extensions) eqn:Hvalid;
    cbn [andb negb]; try discriminate;
    destruct (bool_decide (cleaned_url ∈ old_visited_pages)) eqn:Hv;
    try discriminate;
    destruct (bool_decide (cleaned_url ∈ old_file_links)) eqn:Hf;
    try discriminate;
    apply bool_decide_eq_false in Hv, Hf; cbn [orb];
    destruct (is_same_domain base_url cleaned_url) as [[]|]; cbn [bind negb];
    try discriminate.
  destruct (Py.startswith cleaned_url base_url); [now repeat split | discriminate].
Qed.

(** What [process_link] adds to the file links is a URL classified File. *)
Lemma process_link_files (url base_url : string) (extensions : list string)
    (old_visited_pages old_file_links : gset string)
    (acc : gset string * gset string) (link : Anchor) (x : string) :
  x ∈ fst (process_link url base_url extensions old_visited_pages old_file_links
             acc link) ->
  x ∈ fst acc
  \/ classify base_url extensions old_visited_pages old_file_links x = Ok File.
Proof.
  unfold process_link. destruct acc as [file_links page_links].
  destruct link as [[href|]|e]; cbn [bind fst]; try (now left).
  destruct (negb (nonempty href)); [now left|].
  destruct (urljoin url href) as [absolute_url|]; cbn [bind]; [|now left].
  destruct (clean_url absolute_url) as [cleaned_url|]; cbn [bind]; [|now left].
  destruct (classify base_url extensions old_visited_pages old_file_links cleaned_url)
    as [[| |]|] eqn:Hc; cbn [bind fst]; try (now left).
  intros Hx. apply elem_of_union in Hx as [Hx|Hx]; [|now left].
  apply elem_of_singleton in Hx. subst x. now right.
Qed.

Lemma scrape_files_classified (url base_url : string) (extensions : list string)
    (old_visited_pages old_file_links : gset string) (driver : Driver)
    (history : list string) (x : string) :
  x ∈ fst (scrape_page_for_links_and_files url base_url extensions
             old_visited_pages old_file_links driver history) ->
  classify base_url extensions old_visited_pages old_file_links x = Ok File.
Proof.
  unfold scrape_page_for_links_and_files.
  destruct (driver history url) as [links|e]; cbn [fst];
    [|intros Hx; now apply not_elem_of_empty in Hx].
  assert (H : forall acc,
            x ∈ fst (fold_left
                       (process_link url base_url extensions old_visited_pages
                          old_file_links) links acc) ->
            x ∈ fst acc
            \/ classify base_url extensions old_visited_pages old_file_links x
               = Ok File).
  { induction links as [|link links IH]; intros acc Hx; [now left|].
    cbn [fold_left] in Hx. apply IH in Hx as [Hx|Hx]; [|now right].
    eapply process_link_files; eauto. }
  intros Hx. apply H in Hx as [Hx|Hx]; [|exact Hx].
  cbn [fst] in Hx. now apply not_elem_of_empty in Hx.
Qed.

(** X7: what a scrape answers.  Every file link has an allow-listed
    extension, every page link starts with the base URL and has neither an
    allow-listed nor an excluded extension; both kinds are in the scope of
    the base URL and were neither visited nor collected before; and no URL
    is both a file link and a page link. *)
Theorem scrape_answers (url base_url : string) (extensions : list string)
    (old_visited_pages old_file_links : gset string) (driver : Driver)
    (history : list string) :
  let answer := scrape_page_for_links_and_files url base_url extensions
                  old_visited_pages old_file_links driver history in
  (forall x, x ∈ fst answer ->
     is_valid_file_extension x extensions = true
     /\ is_same_domain base_url x = Ok true
     /\ (x ∉ old_visited_pages) /\ (x ∉ old_file_links))
  /\ (forall x, x ∈ snd answer ->
        Py.startswith x base_url = true
        /\ is_valid_file_extension x extensions = false
        /\ is_excluded_file x = false
        /\ is_same_domain base_url x = Ok true
        /\ (x ∉ old_visited_pages) /\ (x ∉ old_file_links))
  /\ fst answer ## snd answer.
Proof.
  cbv zeta. split; [|split].
  - intros x Hx. now apply scrape_files_classified, classify_file_inv in Hx.
  - intros x Hx. now apply scrape_pages_classified, classify_page_inv in Hx.
  - apply elem_of_disjoint. intros x Hf Hp.
    apply scrape_files_classified, classify_file_inv in Hf as [Hf _].
    apply scrape_pages_classified, classify_page_inv in Hp as (_ & Hp & _).
    congruence.
Qed.

(** X8: anchors without a usable [href] do not count: a scrape answers the
    same for a page and for the page without the anchors whose [href] is
    missing, is empty, or cannot be read. *)
Theorem scrape_skips_unusable_anchors (url base_url : string)
    (extensions : list string) (old_visited_pages old_file_links : gset string)
    (driver driver' : Driver) (history : list string) (links : list Anchor) :
  driver history url = Ok links ->
  driver' history url = Ok (List.filter usable links) ->
  scrape_page_for_links_and_files url base_url extensions
    old_visited_pages old_file_links driver history
  = scrape_page_for_links_and_files url base_url extensions
      old_visited_pages old_file_links driver' history.
Proof.
  intros Hd Hd'. unfold scrape_page_for_links_and_files. rewrite Hd, Hd'.
  clear Hd Hd'. generalize (∅ : gset string, ∅ : gset string).
  induction links as [|link links IH]; intros acc; [reflexivity|].
  cbn [List.filter fold_left].
  assert (Hskip : usable link = false ->
                  process_link url base_url extensions old_visited_pages
                    old_file_links acc link = acc).
  { unfold process_link, usable. destruct acc as [file_links page_links].
    destruct link as [[href|]|e]; cbn [bind]; try reflexivity.
    intros ->. reflexivity. }
  destruct (usable link) eqn:Hu.
  - cbn [fold_left]. apply IH.
  - rewrite (Hskip eq_refl). apply IH.
Qed.

(** ** A rule for the crawl loop *)

(** [P] holds before every iteration, [Q] when the loop is left: at the
    [break] on the file quota, or when the guard fails. *)
Lemma bfs_loop_rule (P Q : CrawlState -> Prop) (base_url : string)
    (extensions : list string) (max_pages max_files : number) (driver : Driver) :
  (forall st current_url queue',
     P st -> loop_guard max_pages max_files st = true ->
     queue st = current_url :: queue' ->
     is_excluded_file current_url = true ->
     P (mkCrawl queue' (visited_pages st) (file_links st) (pages_scraped st)
          (rendered st))) ->
  (forall st current_url queue' new_file_links new_page_links,
     P st -> loop_guard max_pages max_files st = true ->
     queue st = current_url :: queue' ->
     is_excluded_file current_url = false ->
     scrape_page_for_links_and_files current_url base_url extensions
       (visited_pages st) (file_links st) driver (rendered st)
     = (new_file_links, new_page_links) ->
     lt_number (Z.of_nat (size (file_links st ∪ new_file_links))) max_files = false ->
     Q (mkCrawl queue' (visited_pages st) (file_links st ∪ new_file_links)
          (pages_scraped st) (rendered st ++ [current_url]))) ->
  (forall st current_url queue' new_file_links new_page_links queue'' visited_pages',
     P st -> loop_guard max_pages max_files st = true ->
     queue st = current_url :: queue' ->
     is_excluded_file current_url = false ->
     scrape_page_for_links_and_files current_url base_url extensions
       (visited_pages st) (file_links st) driver (rendered st)
     = (new_file_links, new_page_links) ->
     lt_number (Z.of_nat (size (file_links st ∪ new_file_links))) max_files = true ->
     enqueue_pages (elements new_page_links) queue' (visited_pages st)
     = Ok (queue'', visited_pages') ->
     P (mkCrawl queue'' visited_pages' (file_links st ∪ new_file_links)
          (pages_scraped st + 1) (rendered st ++ [current_url]))) ->
  (forall st, P st -> loop_guard max_pages max_files st = false -> Q st) ->
  forall (fuel : nat) (st st' : CrawlState),
    P st ->
    bfs_loop fuel base_url extensions max_pages max_files driver st = Some (Ok st') ->
    Q st'.
Proof.
  intros Hskip Hbreak Hnext Hexit.
  induction fuel as [|fuel IH]; intros st st' HP; cbn [bfs_loop];
    destruct (loop_guard max_pages max_files st) eqn:Hg; try discriminate;
    try (intros H; injection H as <-; now apply Hexit).
  destruct (queue st) as [|current_url queue'] eqn:Hq.
  { unfold loop_guard in Hg. rewrite Hq in Hg. discriminate. }
  destruct (is_excluded_file current_url) eqn:Hx.
  { apply IH. eapply Hskip; eauto. }
  destruct (scrape_page_for_links_and_files current_url base_url extensions
              (visited_pages st) (file_links st) driver (rendered st))
    as [new_file_links new_page_links] eqn:Hs.
  destruct (lt_number (Z.of_nat (size (file_links st ∪ new_file_links))) max_files)
    eqn:Hlt; cbn [negb].
  - destruct (enqueue_pages (elements new_page_links) queue' (visited_pages st))
      as [[queue'' visited_pages']|] eqn:He; [|discriminate].
    apply IH. eapply Hnext; eauto.
  - intros H. injection H as <-. eapply Hbreak; eauto.
Qed.

(** The seed of a run: no result without one that parses. *)
Lemma bfs_run_seed (fuel : nat) (start_url : string) (extensions : list string)
    (max_pages max_files : number) (driver : Driver) (st : CrawlState) :
  bfs_run fuel start_url extensions max_pages max_files driver = Some (Ok st) ->
  exists p : ParseResult,
    urlparse start_url EmptyString = Ok p
    /\ bfs_loop fuel (scheme p +:+ "://" +:+ netloc p) extensions max_pages
         max_files driver
         (mkCrawl [start_url] {[urlunparse (clean_parts p)]} ∅ 0 [])
       = Some (Ok st).
Proof.
  unfold bfs_run. destruct (urlparse start_url EmptyString) as [p|e] eqn:Hp;
    cbn [bind]; [|discriminate].
  rewrite (clean_url_parsed _ _ Hp). cbn [bind]. intros H. now exists p.
Qed.

(** ** The crawl as a whole *)

(** A run with a page quota of [n], from a start URL that parses, returns
    within [n + 1] iterations, with a count of pages within the quota. *)
Lemma bfs_run_returns (fuel : nat) (start_url : string)
    (extensions : list string) (n : Z) (max_files : number) (driver : Driver)
    (p : ParseResult) :
  (Z.to_nat n + 1 <= fuel)%nat ->
  urlparse start_url EmptyString = Ok p ->
  exists st,
    bfs_run fuel start_url extensions (Int n) max_files driver = Some (Ok st)
    /\ 0 <= pages_scraped st <= Z.max 0 n.
Proof.
  intros Hfuel Hp.
  pose proof (bfs_run_terminates fuel start_url extensions n max_files driver Hfuel)
    as Hret.
  unfold bfs_run in *. rewrite Hp in *. cbn [bind] in *.
  rewrite (clean_url_parsed _ _ Hp) in *. cbn [bind] in *.
  destruct (bfs_loop fuel _ extensions (Int n) max_files driver _)
    as [[st|e]|] eqn:Hloop; [| |congruence].
  - exists st. split; [reflexivity|].
    revert Hloop.
    apply (bfs_loop_rule (fun st => 0 <= pages_scraped st <= Z.max 0 n)
             (fun st => 0 <= pages_scraped st <= Z.max 0 n));
      cbn [pages_scraped]; try (intros; assumption); [|lia].
    intros st0 current_url queue' fs ps queue'' v' H0 Hg _ _ _ _ _.
    apply loop_guard_pages in Hg. cbn [lt_number] in Hg.
    apply Z.ltb_lt in Hg. lia.
  - now apply bfs_loop_never_raises in Hloop.
Qed.

(** X9: a crawl with a page quota of [n] ends within [n + 1] iterations
    of its loop, whatever the site answers.  It raises when, and only when,
    the start URL does not parse; otherwise it returns a set of file links
    and a count of pages between 0 and the quota. *)
Theorem bfs_crawl_returns (fuel : nat) (start_url : string)
    (extensions : list string) (n : Z) (max_files : number) (driver : Driver) :
  (Z.to_nat n + 1 <= fuel)%nat ->
  match urlparse start_url EmptyString with
  | Raise e =>
      bfs_crawl fuel start_url extensions (Int n) max_files driver = Some (Raise e)
  | Ok _ =>
      exists (files : gset string) (pages : Z),
        bfs_crawl fuel start_url extensions (Int n) max_files driver
        = Some (Ok (files, pages))
        /\ 0 <= pages <= Z.max 0 n
  end.
Proof.
  intros Hfuel.
  destruct (urlparse start_url EmptyString) as [p|e] eqn:Hp.
  - destruct (bfs_run_returns fuel start_url extensions n max_files driver p
                Hfuel Hp) as (st & Hrun & Hpages).
    exists (file_links st), (pages_scraped st). unfold bfs_crawl.
    now rewrite Hrun.
  - unfold bfs_crawl, bfs_run. now rewrite Hp.
Qed.

(** X10: why a crawl ends, and what its count of pages counts.  When the
    crawl returns, the queue is empty or one of the two quotas is reached.
    The count of pages is the number of pages asked of the driver, except
    that the page on which the file quota was reached is not counted.  No
    URL with an excluded extension was asked of the driver. *)
Theorem bfs_crawl_ends (fuel : nat) (start_url : string)
    (extensions : list string) (max_pages max_files : number) (driver : Driver)
    (st : CrawlState) :
  bfs_run fuel start_url extensions max_pages max_files driver = Some (Ok st) ->
  (queue st = []
   \/ lt_number (pages_scraped st) max_pages = false
   \/ lt_number (Z.of_nat (size (file_links st))) max_files = false)
  /\ (Z.of_nat (length (rendered st)) = pages_scraped st
      \/ (Z.of_nat (length (rendered st)) = pages_scraped st + 1
          /\ lt_number (Z.of_nat (size (file_links st))) max_files = false))
  /\ Forall (fun u => is_excluded_file u = false) (rendered st).
Proof.
  intros Hrun. apply bfs_run_seed in Hrun as (p & _ & Hloop).
  pattern st.
  eapply (bfs_loop_rule
            (fun st => Z.of_nat (length (rendered st)) = pages_scraped st
                       /\ Forall (fun u => is_excluded_file u = false) (rendered st)));
    [| | | | | exact Hloop]; cbn [queue file_links pages_scraped rendered].
  - intros st0 current_url queue' H _ _ _. exact H.
  - intros st0 current_url queue' fs ps [Hn Hr] _ _ Hx _ Hlt.
    split; [now right; right|]. split.
    + right. split; [|exact Hlt]. rewrite length_app. cbn [length]. lia.
    + apply Forall_app. split; [exact Hr|]. now constructor.
  - intros st0 current_url queue' fs ps queue'' v' [Hn Hr] _ _ Hx _ _ _. split.
    + rewrite length_app. cbn [length]. lia.
    + apply Forall_app. split; [exact Hr|]. now constructor.
  - intros st0 [Hn Hr] Hg. split; [|split; [now left | exact Hr]].
    unfold loop_guard in Hg.
    destruct (queue st0); [now left|]. cbn [length Nat.eqb negb andb] in Hg.
    destruct (lt_number (pages_scraped st0) max_pages); [|now right; left].
    right; right. exact Hg.
  - split; [reflexivity | constructor].
Qed.

(** The file links of a run: allow-listed, in the scope of the base URL,
    and none of them the clean form of the start URL. *)
Lemma bfs_run_collects (fuel : nat) (start_url : string)
    (extensions : list string) (max_pages max_files : number) (driver : Driver)
    (st : CrawlState) :
  bfs_run fuel start_url extensions max_pages max_files driver = Some (Ok st) ->
  exists p : ParseResult,
    urlparse start_url EmptyString = Ok p
    /\ (urlunparse (clean_parts p) ∉ file_links st)
    /\ forall x, x ∈ file_links st ->
         is_valid_file_extension x extensions = true
         /\ is_same_domain (scheme p +:+ "://" +:+ netloc p) x = Ok true.
Proof.
  intros Hrun.
  apply bfs_run_seed in Hrun as (p & Hp & Hloop). exists p. split; [exact Hp|].
  set (base_url := scheme p +:+ "://" +:+ netloc p) in *.
  set (seed := urlunparse (clean_parts p)) in *.
  set (P := fun st : CrawlState =>
              seed ∈ visited_pages st
              /\ (seed ∉ file_links st)
              /\ forall x, x ∈ file_links st ->
                   is_valid_file_extension x extensions = true
                   /\ is_same_domain base_url x = Ok true).
  assert (Hnew : forall st0 current_url fs ps,
            P st0 ->
            scrape_page_for_links_and_files current_url base_url extensions
              (visited_pages st0) (file_links st0) driver (rendered st0)
            = (fs, ps) ->
            (seed ∉ file_links st0 ∪ fs)
            /\ forall x, x ∈ file_links st0 ∪ fs ->
                 is_valid_file_extension x extensions = true
                 /\ is_same_domain base_url x = Ok true).
  { intros st0 current_url fs ps (Hs & Hsf & Hf) Hscrape.
    assert (Hfs : forall x, x ∈ fs ->
              is_valid_file_extension x extensions = true
              /\ is_same_domain base_url x = Ok true
              /\ (x ∉ visited_pages st0)).
    { intros x Hx.
      assert (Hx' : x ∈ fst (scrape_page_for_links_and_files current_url base_url
                               extensions (visited_pages st0) (file_links st0)
                               driver (rendered st0))) by now rewrite Hscrape.
      apply scrape_files_classified, classify_file_inv in Hx'
        as (H1 & H2 & H3 & _). now repeat split. }
    split.
    - intros Hin. apply elem_of_union in Hin as [Hin|Hin]; [now apply Hsf|].
      apply Hfs in Hin as (_ & _ & Hin). now apply Hin.
    - intros x Hx. apply elem_of_union in Hx as [Hx|Hx]; [now apply Hf|].
      apply Hfs in Hx as (H1 & H2 & _). now split. }
  enough (HP : P st) by (destruct HP as (_ & H1 & H2); now split).
  revert Hloop. apply (bfs_loop_rule P P);
    cbn [queue visited_pages file_links pages_scraped rendered].
  - intros st0 current_url queue' H _ _ _. exact H.
  - intros st0 current_url queue' fs ps HP _ _ _ Hscrape _.
    destruct (Hnew _ _ _ _ HP Hscrape) as [H1 H2].
    split; [apply HP | now split].
  - intros st0 current_url queue' fs ps queue'' v' HP _ _ _ Hscrape _ He.
    destruct (Hnew _ _ _ _ HP Hscrape) as [H1 H2].
    apply enqueue_pages_spec in He as (new & _ & _ & _ & Hv').
    split; [apply Hv'; left; apply HP | now split].
  - intros st0 H _. exact H.
  - unfold P. cbn [visited_pages file_links]. split; [|split].
    + now apply elem_of_singleton.
    + apply not_elem_of_empty.
    + intros x Hx. now apply not_elem_of_empty in Hx.
Qed.

(** X11: what a crawl collects.  Every file link a crawl returns has an
    extension of the allow-list and is in the scope of the start URL's
    [scheme://netloc]; the clean form of the start URL itself is never
    among them, whatever its extension. *)
Theorem bfs_crawl_collects (fuel : nat) (start_url : string)
    (extensions : list string) (max_pages max_files : number) (driver : Driver)
    (files : gset string) (pages : Z) :
  bfs_crawl fuel start_url extensions max_pages max_files driver
  = Some (Ok (files, pages)) ->
  exists p : ParseResult,
    urlparse start_url EmptyString = Ok p
    /\ (urlunparse (clean_parts p) ∉ files)
    /\ forall x, x ∈ files ->
         is_valid_file_extension x extensions = true
         /\ is_same_domain (scheme p +:+ "://" +:+ netloc p) x = Ok true.
Proof.
  unfold bfs_crawl.
  destruct (bfs_run fuel start_url extensions max_pages max_files driver)
    as [[st|e]|] eqn:Hrun; try discriminate.
  intros H. injection H as <- <-. now apply bfs_run_collects in Hrun.
Qed.

(** ** File names and save paths *)

(** A base name has no [/]. *)
Lemma basename_no_slash (p : string) : Py.contains "/" (Py.basename p) = false.
Proof.
  unfold Py.basename, Py.rfind.
  destruct (Py.contains "/" p) eqn:Hc.
  - apply contains_split_last in Hc as (a & b & -> & Hb).
    rewrite (rfind_at_app _ _ _ _ Hb). cbn [Nat.add].
    now rewrite from_app_cons.
  - rewrite (rfind_at_none _ _ _ Hc). unfold Py.from. now apply contains_drop.
Qed.

(** The base name of a name without [/] under a directory is the name. *)
Lemma basename_under (dir name : string) :
  Py.contains "/" name = false -> Py.basename (dir +:+ "/" +:+ name) = name.
Proof.
  intros Hn. unfold Py.basename, Py.rfind.
  change (dir +:+ "/" +:+ name) with (dir +:+ String "/" name).
  rewrite (rfind_at_app _ _ _ _ Hn). cbn [Nat.add]. apply from_app_cons.
Qed.

Lemma path_join_documents (name : string) :
  Py.contains "/" name = false ->
  Py.path_join "documents" name = "documents/" +:+ name.
Proof.
  intros Hn. unfold Py.path_join.
  destruct name as [|c name]; [reflexivity|].
  cbn [Py.contains] in Hn. apply orb_false_elim in Hn as [Hc _].
  cbn [Py.startswith]. rewrite Hc. reflexivity.
Qed.

Lemma get_extension_from_url_plain (url : string) :
  Py.contains "/" (get_extension_from_url url) = false.
Proof.
  unfold get_extension_from_url.
  destruct (List.find _ common_extensions) as [ext|] eqn:Hf; [|reflexivity].
  apply find_some in Hf as [Hin _].
  pose proof common_extensions_plain as Hall.
  rewrite List.Forall_forall in Hall. apply Hall. now right.
Qed.

Lemma file_name_no_slash (url : string) (parsed : ParseResult) :
  Py.contains "/" (file_name url parsed 0) = false.
Proof.
  unfold file_name.
  destruct (negb (nonempty (Py.basename (path parsed)))
            || negb (Py.contains "." (Py.basename (path parsed)))).
  - change (pretty (0 + 1)) with "1"%string.
    rewrite !contains_app, get_extension_from_url_plain. reflexivity.
  - apply basename_no_slash.
Qed.

(** What [submit_all] submits: tasks for a prefix of the URLs, within the
    quota, each with the save path of its file name. *)
Lemma submit_all_spec (urls : list string) (max_files : number) (count : Z)
    (network : Network) :
  let tasks := fst (submit_all urls max_files 0 count network) in
  (exists rest, urls = List.map t_url tasks ++ rest)
  /\ match max_files with
     | Int n => Z.of_nat (length tasks) <= Z.max 0 (n - count)
     | Inf => True
     end
  /\ (snd (submit_all urls max_files 0 count network) = Ok tt ->
      match max_files with
      | Int n => Z.of_nat (length tasks)
                 = Z.min (Z.of_nat (length urls)) (Z.max 0 (n - count))
      | Inf => length tasks = length urls
      end)
  /\ Forall (fun t =>
       exists parsed,
         urlparse (t_url t) EmptyString = Ok parsed
         /\ t_save_path t = "documents/" +:+ file_name (t_url t) parsed 0
         /\ (t_response t, t_now t) = network (t_url t)) tasks.
Proof.
  revert count. induction urls as [|url urls IH]; intros count; cbn zeta.
  { cbn [submit_all fst snd List.map length app]. split; [now exists []|].
    split; [destruct max_files; [lia | exact I]|].
    split; [|constructor].
    intros _. destruct max_files; [cbn [length]; lia | reflexivity]. }
  cbn [submit_all].
  destruct (lt_number count max_files) eqn:Hlt; cbn [negb].
  2:{ cbn [fst snd List.map length app]. split; [now exists (url :: urls)|].
      destruct max_files as [n|]; [|discriminate]. cbn [lt_number] in Hlt.
      apply Z.ltb_ge in Hlt.
      split; [lia|]. split; [intros _; cbn [length]; lia | constructor]. }
  destruct (urlparse url EmptyString) as [parsed|e] eqn:Hp.
  2:{ cbn [fst snd List.map length app]. split; [now exists (url :: urls)|].
      split; [destruct max_files; [lia | exact I]|].
      split; [discriminate | constructor]. }
  destruct (network url) as [response now] eqn:Hn.
  specialize (IH (count + 1)). cbn zeta in IH.
  destruct (submit_all urls max_files 0 (count + 1) network) as [tasks r].
  cbn [fst snd] in *. destruct IH as ((rest & Hrest) & Hq & Hn' & Hall).
  cbn [List.map t_url length].
  split; [exists rest; cbn [app]; now rewrite <- Hrest|].
  split; [|split].
  - destruct max_files as [n|]; [|exact I]. cbn [lt_number] in Hlt.
    apply Z.ltb_lt in Hlt. lia.
  - intros Hr. specialize (Hn' Hr). destruct max_files as [n|]; [|now rewrite Hn'].
    cbn [lt_number] in Hlt. apply Z.ltb_lt in Hlt. lia.
  - constructor; [|exact Hall]. exists parsed.
    cbn [t_url t_save_path t_response t_now]. split; [exact Hp|].
    split; [|now rewrite Hn].
    fold (file_name url parsed 0).
    apply path_join_documents, file_name_no_slash.
Qed.

(** X12: what [download_files] submits.  The tasks are for the first links
    of the set, in the order of its iteration and each once; for a quota
    of [n] there are at most [n] of them, and exactly the smaller of [n]
    and the number of links when every submitted link parses.  Each task
    is saved under [documents/<name>] and recorded in the metadata under
    [<name>], the name being the last segment of the path of the URL when
    it has a dot and else [document_1<ext>], whatever the position of the
    link: links without a file name and with the same extension share one
    save path and one record. *)
Theorem download_files_submits (file_links : gset string) (max_files : number)
    (network : Network) (schedule : list nat) (w : World) :
  let d := download_files file_links max_files network schedule w in
  (exists rest, elements file_links = List.map t_url (d_submitted d) ++ rest)
  /\ NoDup (List.map t_url (d_submitted d))
  /\ match max_files with
     | Int n => Z.of_nat (length (d_submitted d)) <= Z.max 0 n
     | Inf => True
     end
  /\ (d_return d = Ok PyNone ->
      match max_files with
      | Int n => Z.of_nat (length (d_submitted d))
                 = Z.min (Z.of_nat (size file_links)) (Z.max 0 n)
      | Inf => length (d_submitted d) = size file_links
      end)
  /\ forall t, In t (d_submitted d) ->
       exists parsed,
         urlparse (t_url t) EmptyString = Ok parsed
         /\ (t_response t, t_now t) = network (t_url t)
         /\ let name := Py.basename (path parsed) in
            let key :=
              if nonempty name && Py.contains "." name then name
              else "document_1" +:+ get_extension_from_url (t_url t) in
            t_save_path t = "documents/" +:+ key
            /\ Py.basename (t_save_path t) = key.
Proof.
  cbv zeta.
  destruct (decide (file_links = ∅)) as [->|Hne].
  { unfold download_files. rewrite bool_decide_eq_true_2 by reflexivity.
    cbn [d_submitted d_return List.map length app]. rewrite elements_empty.
    split; [now exists []|]. split; [constructor|].
    split; [destruct max_files; [lia | exact I]|].
    split; [|intros t []].
    intros _. rewrite size_empty. destruct max_files; [lia | reflexivity]. }
  pose proof (download_files_nonempty file_links max_files network schedule w Hne)
    as Hd. cbv zeta in Hd.
  pose proof (submit_all_spec (elements file_links) max_files 0 network) as Hs.
  cbv zeta in Hs. destruct Hs as ((rest & Hrest) & Hq & Hn & Hall).
  assert (Hsub : d_submitted (download_files file_links max_files network schedule w)
                 = fst (submit_all (elements file_links) max_files 0 0 network)).
  { rewrite Hd. now destruct (snd (submit_all _ _ _ _ _)). }
  assert (Hret : d_return (download_files file_links max_files network schedule w)
                 = Ok PyNone ->
                 snd (submit_all (elements file_links) max_files 0 0 network)
                 = Ok tt).
  { rewrite Hd. destruct (snd (submit_all _ _ _ _ _)) as [[]|e];
      cbn [d_return]; [reflexivity | discriminate]. }
  rewrite Hsub. split; [now exists rest|]. split; [|split; [|split]].
  - pose proof (NoDup_elements file_links) as Hnd. rewrite Hrest in Hnd.
    now apply NoDup_app in Hnd as [Hnd _].
  - destruct max_files as [n|]; [|exact I]. now rewrite Z.sub_0_r in Hq.
  - intros Hr. specialize (Hn (Hret Hr)). unfold size, set_size. cbn [compose].
    destruct max_files as [n|]; [|exact Hn]. now rewrite Z.sub_0_r in Hn.
  - intros t Ht. rewrite List.Forall_forall in Hall.
    destruct (Hall t Ht) as (parsed & Hp & Hpath & Hnet).
    exists parsed. split; [exact Hp|]. split; [exact Hnet|]. cbv zeta.
    assert (Hkey : file_name (t_url t) parsed 0
                   = if nonempty (Py.basename (path parsed))
                        && Py.contains "." (Py.basename (path parsed))
                     then Py.basename (path parsed)
                     else "document_1" +:+ get_extension_from_url (t_url t)).
    { unfold file_name. change (pretty (0 + 1)) with "1"%string.
      destruct (nonempty (Py.basename (path parsed)));
        destruct (Py.contains "." (Py.basename (path parsed))); reflexivity. }
    rewrite <- Hkey. split; [exact Hpath|]. rewrite Hpath.
    change ("documents/" +:+ file_name (t_url t) parsed 0)
      with ("documents" +:+ "/" +:+ file_name (t_url t) parsed 0).
    apply basename_under, file_name_no_slash.
Qed.

(** ** What the races of the pool leave intact *)







Lemma download_files_world (file_links : gset string) (max_files : number)
    (network : Network) (schedule : list nat) (w : World) :
  file_links <> ∅ ->
  let d := download_files file_links max_files network schedule w in
  d_submitted d = fst (submit_all (elements file_links) max_files 0 0 network)
  /\ d_results d = List.map (fun t => Returned (ok_response t)) (d_submitted d)
  /\ d_world d
     = mkWorld true (snd (run_pool (d_submitted d) schedule (metadata_file w))).
Proof.
  intros Hne. cbv zeta.
  rewrite (download_files_nonempty file_links max_files network schedule w Hne).
  cbv zeta.
  assert (Hw : snd (create_documents_dir w) = mkWorld true (metadata_file w)).
  { unfold create_documents_dir. destruct w as [[] file]; reflexivity. }
  rewrite Hw. cbn [documents_dir metadata_file].
  destruct (snd (submit_all _ _ _ _ _));
    cbn [d_submitted d_results d_world]; rewrite run_pool_results; now repeat split.
Qed.

(** A submitted task is for a link of the set, with the answer of the
    network for it. *)
Lemma submitted_links (file_links : gset string) (max_files : number)
    (network : Network) (t : Task) :
  In t (fst (submit_all (elements file_links) max_files 0 0 network)) ->
  t_url t ∈ file_links /\ (t_response t, t_now t) = network (t_url t).
Proof.
  intros Ht.
  pose proof (submit_all_spec (elements file_links) max_files 0 network) as Hs.
  cbv zeta in Hs. destruct Hs as ((rest & Hrest) & _ & _ & Hall).
  rewrite List.Forall_forall in Hall.
  destruct (Hall t Ht) as (parsed & _ & _ & Hnet). split; [|exact Hnet].
  apply elem_of_elements. rewrite Hrest. apply elem_of_app. left.
  apply list_elem_of_In. now apply in_map.
Qed.




(** ** A batch of one link *)

Lemma worker_step_lone (i : nat) (t : Task) (file0 : MetadataFile)
    (pool : list Worker * MetadataFile) :
  lone_task t file0 pool -> lone_task t file0 (worker_step i [t] pool).
Proof.
  destruct pool as [workers file]. unfold lone_task, worker_step. cbn [fst snd].
  destruct workers as [|w [|w' workers]]; try (now intros []);
    [|destruct w; now intros []].
  destruct i as [|i];
    [|change ([t] !! S i) with (@nil Task !! i); rewrite lookup_nil; trivial].
  change ([t] !! 0%nat) with (Some t). change ([w] !! 0%nat) with (Some w).
  unfold save_file_with_metadata, ok_response.
  destruct w as [| | |m|b]; cbn [fst snd]; intros H.
  - destruct (may_start 0 [Queued]); exact H.
  - destruct (t_response t); cbn [fst snd insert list_insert];
      [now split | now rewrite H].
  - cbn [fst snd insert list_insert]. destruct H as [H Hok]. subst file.
    now repeat split.
  - destruct H as (-> & -> & Hok). cbn [fst snd insert list_insert].
    destruct (t_response t); [reflexivity | discriminate].
  - exact H.
Qed.

(** The pool of a single task does what the call of
    [save_file_with_metadata] does, under every schedule. *)
Lemma run_pool_lone (t : Task) (schedule : list nat) (file : MetadataFile) :
  run_pool [t] schedule file
  = (let once := save_file_with_metadata (t_url t) (t_save_path t)
                   (t_response t) (t_now t) file in
     ([Returned (fst once)], snd once)).
Proof.
  cbv zeta.
  assert (H : lone_task t file (run_pool [t] schedule file)).
  { rewrite run_pool_steps. generalize (schedule ++ completion [t]).
    intros steps.
    assert (H0 : lone_task t file (replicate (length [t]) Queued, file))
      by reflexivity.
    revert H0. generalize (replicate (length [t]) Queued, file).
    induction steps as [|i steps IH]; intros pool H0; [exact H0|].
    cbn [fold_left]. apply IH. now apply worker_step_lone. }
  pose proof (run_pool_results [t] schedule file) as Hres.
  destruct (run_pool [t] schedule file) as [workers file'].
  unfold lone_task in H. cbn [fst snd List.map] in *. subst workers.
  now rewrite <- H.
Qed.

(** X16: a batch of one link is the call of [save_file_with_metadata] on
    it.  Whatever the schedule, a single link that parses, under a quota
    that lets it through, is submitted as one task, and the result and the
    metadata file are those of the call on the task's URL and save path. *)
Theorem download_files_single (url : string) (max_files : number)
    (network : Network) (schedule : list nat) (w : World) (parsed : ParseResult) :
  urlparse url EmptyString = Ok parsed ->
  lt_number 0 max_files = true ->
  let d := download_files {[url]} max_files network schedule w in
  exists t,
    d_submitted d = [t]
    /\ t_url t = url
    /\ (t_response t, t_now t) = network url
    /\ let once := save_file_with_metadata url (t_save_path t) (t_response t)
                     (t_now t) (metadata_file w) in
       d_results d = [Returned (fst once)]
       /\ metadata_file (d_world d) = snd once
       /\ d_return d = Ok PyNone.
Proof.
  intros Hp Hq. cbv zeta.
  assert (Hne : ({[url]} : gset string) <> ∅).
  { intros H. apply (not_elem_of_empty (C := gset string) url).
    rewrite <- H. now apply elem_of_singleton. }
  rewrite (download_files_nonempty {[url]} max_files network schedule w Hne).
  cbv zeta. rewrite elements_singleton. cbn [submit_all].
  rewrite Hq, Hp. cbn [negb].
  destruct (network url) as [response now] eqn:Hn.
  assert (Hw : metadata_file (snd (create_documents_dir w)) = metadata_file w).
  { unfold create_documents_dir. now destruct (documents_dir w). }
  cbn [fst snd]. rewrite run_pool_lone. cbv zeta.
  cbn [fst snd t_url t_save_path t_response t_now d_submitted d_results d_world
       d_return metadata_file].
  eexists. split; [reflexivity|].
  cbn [t_url t_save_path t_response t_now]. rewrite Hw. now repeat split.
Qed.

(** ** The manual update *)






(** ** The last writer wins *)


(** ** Crawls that render nothing *)

(** X20: a crawl with no page quota left renders nothing: with a page
    quota of zero or less, and a start URL that parses, the driver is not
    asked for any page and the crawl returns no file link and a count of
    zero, with any amount of fuel. *)
Theorem bfs_crawl_zero_page_quota (fuel : nat) (start_url : string)
    (extensions : list string) (max_pages : Z) (max_files : number)
    (driver : Driver) (p : ParseResult) :
  max_pages <= 0 ->
  urlparse start_url EmptyString = Ok p ->
  (exists st, bfs_run fuel start_url extensions (Int max_pages) max_files driver
              = Some (Ok st) /\ rendered st = [])
  /\ bfs_crawl fuel start_url extensions (Int max_pages) max_files driver
     = Some (Ok (∅, 0)).
Proof.
  intros Hq Hp. unfold bfs_crawl, bfs_run. rewrite Hp. cbn [bind].
  rewrite (clean_url_parsed _ _ Hp). cbn [bind].
  assert (Hg : forall st, pages_scraped st = 0 ->
                 loop_guard (Int max_pages) max_files st = false).
  { intros st Hst. unfold loop_guard. rewrite Hst. cbn [lt_number].
    replace (0 <? max_pages) with false by (symmetry; apply Z.ltb_ge; lia).
    now rewrite andb_false_r. }
  assert (Hloop : forall st, pages_scraped st = 0 ->
            bfs_loop fuel (scheme p +:+ "://" +:+ netloc p) extensions
              (Int max_pages) max_files driver st = Some (Ok st)).
  { intros st Hst. destruct fuel; cbn [bfs_loop]; now rewrite (Hg st Hst). }
  rewrite Hloop by reflexivity. split; [|reflexivity].
  eexists. split; reflexivity.
Qed.

(** X21: a crawl of a site of which no page renders.  When the driver fails
    on every page, a crawl from a start URL that parses and has no excluded
    extension, with quotas that let one page through, asks for the start
    URL alone and returns no file link and a count of one page: the page
    that failed to render is counted as scraped. *)
Theorem bfs_crawl_nothing_renders (fuel : nat) (start_url : string)
    (extensions : list string) (max_pages max_files : number) (driver : Driver)
    (p : ParseResult) :
  (forall history url, exists e, driver history url = Raise e) ->
  urlparse start_url EmptyString = Ok p ->
  is_excluded_file start_url = false ->
  lt_number 0 max_pages = true ->
  lt_number 0 max_files = true ->
  (1 <= fuel)%nat ->
  bfs_run fuel start_url extensions max_pages max_files driver
  = Some (Ok (mkCrawl [] {[urlunparse (clean_parts p)]} ∅ 1 [start_url]))
  /\ bfs_crawl fuel start_url extensions max_pages max_files driver
     = Some (Ok (∅, 1)).
Proof.
  intros Hdead Hp Hx Hpages Hfiles Hfuel.
  assert (Hrun : bfs_run fuel start_url extensions max_pages max_files driver
                 = Some (Ok (mkCrawl [] {[urlunparse (clean_parts p)]} ∅ 1
                               [start_url]))).
  { unfold bfs_run. rewrite Hp. cbn [bind].
    rewrite (clean_url_parsed _ _ Hp). cbn [bind].
    destruct fuel as [|fuel]; [lia|]. cbn [bfs_loop].
    unfold loop_guard at 1.
    cbn [queue pages_scraped file_links length Nat.eqb negb andb].
    rewrite size_empty. change (Z.of_nat 0) with 0. rewrite Hpages, Hfiles.
    cbn [andb queue visited_pages file_links rendered pages_scraped].
    rewrite Hx. unfold scrape_page_for_links_and_files.
    destruct (Hdead [] start_url) as [e ->].
    rewrite (right_id_L ∅ (∪)). rewrite size_empty. change (Z.of_nat 0) with 0.
    rewrite Hfiles. cbn [negb]. rewrite elements_empty. cbn [enqueue_pages app].
    change (0 + 1) with 1.
    destruct fuel; cbn [bfs_loop]; unfold loop_guard;
      cbn [queue length Nat.eqb negb andb]; reflexivity. }
  split; [exact Hrun|]. unfold bfs_crawl. now rewrite Hrun.
Qed.

(** ** The pipeline *)

(** On links that all parse, the download stage does not raise. *)
Lemma download_files_parsed (file_links : gset string) (max_files : number)
    (network : Network) (schedule : list nat) (w : World) :
  (forall url, url ∈ file_links -> parses url) ->
  d_return (download_files file_links max_files network schedule w) = Ok PyNone.
Proof.
  intros Hall.
  destruct (decide (file_links = ∅)) as [->|Hne].
  { unfold download_files. now rewrite bool_decide_eq_true_2 by reflexivity. }
  rewrite (download_files_nonempty file_links max_files network schedule w Hne).
  cbv zeta.
  destruct (snd (submit_all (elements file_links) max_files 0 0 network))
    as [[]|e] eqn:Hs; [reflexivity|].
  apply submit_all_raises in Hs as (url & Hin & Hraise).
  apply list_elem_of_In, elem_of_elements, Hall in Hin as [p Hp]. congruence.
Qed.

(** X22: the pipeline, after the login.  From a start URL that parses and
    under a page quota of [n], the crawl and then the download of what it
    found end without an exception, whatever the site, the network and the
    schedule of the threads: every link the crawl collects parses, so the
    download stage cannot raise on it.  The tasks submitted are within the
    file quota even when the crawl found more links, and each is for a link
    with an allow-listed extension in the scope of the start URL. *)
Theorem scrape_and_download_returns (fuel : nat) (start_url : string) (n : Z)
    (max_files : number) (driver : Driver) (network : Network)
    (schedule : list nat) (w : World) (p : ParseResult) :
  urlparse start_url EmptyString = Ok p ->
  (Z.to_nat n + 1 <= fuel)%nat ->
  exists (pages : Z) (files : nat) (d : Download),
    scrape_and_download fuel start_url (Int n) max_files true driver network
      schedule w = Some (Ok (FinalStats pages files d))
    /\ 0 <= pages <= Z.max 0 n
    /\ d_return d = Ok PyNone
    /\ (length (d_submitted d) <= files)%nat
    /\ match max_files with
       | Int m => Z.of_nat (length (d_submitted d)) <= Z.max 0 m
       | Inf => True
       end
    /\ forall t, In t (d_submitted d) ->
         is_valid_file_extension (t_url t) default_extensions = true
         /\ is_same_domain (scheme p +:+ "://" +:+ netloc p) (t_url t) = Ok true.
Proof.
  intros Hp Hfuel.
  destruct (bfs_run_returns fuel start_url default_extensions n max_files driver
              p Hfuel Hp) as (st & Hrun & Hpages).
  destruct (bfs_run_collects _ _ _ _ _ _ _ Hrun) as (p' & Hp' & _ & Hfiles).
  assert (p' = p) by congruence. subst p'.
  set (d := download_files (file_links st) max_files network schedule w).
  assert (Hret : d_return d = Ok PyNone).
  { apply download_files_parsed. intros url Hurl.
    destruct (Hfiles url Hurl) as [_ Hscope].
    eapply is_same_domain_parses; eauto. }
  exists (pages_scraped st), (size (file_links st)), d.
  split; [|split; [exact Hpages | split; [exact Hret|]]].
  { unfold scrape_and_download, bfs_crawl. cbn [negb]. rewrite Hrun. cbv zeta.
    fold d. now rewrite Hret. }
  destruct (decide (file_links st = ∅)) as [Hempty|Hne].
  { assert (Hsub : d_submitted d = []).
    { unfold d, download_files.
      now rewrite bool_decide_eq_true_2 by exact Hempty. }
    rewrite Hsub. cbn [length]. split; [lia|].
    split; [destruct max_files; [lia | exact I] | intros t []]. }
  pose proof (download_files_world (file_links st) max_files network schedule w
                Hne) as Hd. cbv zeta in Hd. destruct Hd as (Hsub & _ & _).
  fold d in Hsub.
  pose proof (submit_all_spec (elements (file_links st)) max_files 0 network)
    as Hs. cbv zeta in Hs. rewrite <- Hsub in Hs.
  destruct Hs as ((rest & Hrest) & Hq & _ & _).
  split; [|split].
  - unfold size, set_size. cbn [compose]. rewrite Hrest, length_app, length_map.
    lia.
  - destruct max_files as [m|]; [|exact I]. now rewrite Z.sub_0_r in Hq.
  - intros t Ht. apply Hfiles. rewrite Hsub in Ht.
    now apply submitted_links in Ht as [Ht _].
Qed.

End Scraper.

(** * Concrete runs *)





(** C5, counterexample: a [.pdf] on another host is not a File. *)
Lemma classify_pdf_out_of_scope :
  classify accept_host "https://ex.com" default_extensions ∅ ∅
    "https://other.org/doc.pdf" = Ok Ignored.
Proof. vm_compute. reflexivity. Qed.

Lemma classify_precedence_witness :
  classify accept_host "https://ex.com" default_extensions ∅ ∅
    "https://cdn.ex.com/files/doc.pdf" = Ok File
  /\ classify accept_host "https://ex.com" default_extensions ∅ ∅
       "https://ex.com/logo.png" = Ok Ignored.
Proof.
  split.
  - apply (proj1 (classify_precedence accept_host "https://ex.com"
                    default_extensions ∅ ∅ "https://cdn.ex.com/files/doc" ".pdf"));
      [now left | reflexivity | apply not_elem_of_empty | apply not_elem_of_empty
       | vm_compute; reflexivity].
  - apply (proj2 (classify_precedence accept_host "https://ex.com"
                    default_extensions ∅ ∅ "https://ex.com/logo" ".png"));
      [now left | vm_compute; reflexivity].
Defined.

(** C6, counterexample: on a candidate with an unmatched bracket the
    function raises; and a candidate without network location is in the
    scope of a base URL whose host ends in a dot. *)
Lemma is_same_domain_raises :
  is_same_domain accept_host "https://example.com" "http://["
    = Raise (ValueError "Invalid IPv6 URL")
  /\ is_same_domain accept_host "https://example.com./" "nonsense" = Ok true.
Proof. vm_compute. split; reflexivity. Qed.

Lemma is_same_domain_malformed_witness :
  is_same_domain accept_host "https://www.arista.com/en" "javascript:void(0)"
    = Ok false.
Proof.
  exact (is_same_domain_malformed accept_host "https://www.arista.com/en"
           "javascript:void(0)"
           (mkParse "https" "www.arista.com" "/en" "" "" "")
           eq_refl eq_refl eq_refl eq_refl).
Defined.





(** C2, counterexample: the clean form of [http://a.com/x//] is
    [http://a.com/x/], whose clean form is [http://a.com/x]: cleaning is not
    idempotent, and the two URLs, which differ only by a trailing slash,
    have different clean forms. *)
Lemma clean_url_not_idempotent :
  clean_url accept_host "http://a.com/x//" = Ok "http://a.com/x/"%string
  /\ clean_url accept_host "http://a.com/x/" = Ok "http://a.com/x"%string.
Proof. exact (clean_url_two_slashes accept_host). Qed.

Lemma clean_url_idempotent_witness :
  clean_url accept_host "https://www.arista.com/en/#top"
  = Ok "https://www.arista.com/en"%string
  /\ clean_url accept_host "https://www.arista.com/en"
     = Ok "https://www.arista.com/en"%string.
Proof.
  pose proof (clean_url_idempotent accept_host "https://www.arista.com/en/#top"
                (mkParse "https" "www.arista.com" "/en/" "" "" "top")
                eq_refl eq_refl eq_refl eq_refl) as (H1 & H2 & _).
  split; [exact H1 | exact H2].
Defined.

(** The scenario of the specification: two pages scraped, two files found,
    and after the download two records with one timestamp each. *)
Example small_site_crawl :
  bfs_crawl accept_host 5 "https://ex.com" default_extensions (Int 10) (Int 10)
    small_site
  = Some (Ok ({["https://ex.com/doc.pdf"%string; "https://ex.com/doc2.pdf"%string]}, 2)).
Proof. vm_compute. reflexivity. Qed.

Example small_site_download :
  let d := download_files accept_host
             {["https://ex.com/doc.pdf"%string; "https://ex.com/doc2.pdf"%string]}
             (Int 10) stamping_network [] new_world in
  d_return d = Ok PyNone
  /\ count_successes (d_results d) = 2
  /\ load_metadata (metadata_file (d_world d))
     = {[ "doc.pdf"%string := mkDoc "https://ex.com/doc.pdf" ["at:https://ex.com/doc.pdf"%string];
          "doc2.pdf"%string := mkDoc "https://ex.com/doc2.pdf" ["at:https://ex.com/doc2.pdf"%string] ]}.
Proof. vm_compute. repeat split. Qed.

Example small_site_timeout_crawl :
  bfs_crawl accept_host 5 "https://ex.com" default_extensions (Int 10) (Int 10)
    small_site_timeout
  = Some (Ok ({["https://ex.com/doc.pdf"%string]}, 2)).
Proof. vm_compute. reflexivity. Qed.

(** ** Runs of the further properties *)

Lemma is_same_domain_symmetric_witness :
  is_same_domain accept_host "https://ex.com" "https://cdn.ex.com/files/doc.pdf"
  = is_same_domain accept_host "https://cdn.ex.com/files/doc.pdf" "https://ex.com".
Proof.
  exact (is_same_domain_symmetric accept_host "https://ex.com"
           "https://cdn.ex.com/files/doc.pdf"
           (mkParse "https" "ex.com" "" "" "" "")
           (mkParse "https" "cdn.ex.com" "/files/doc.pdf" "" "" "")
           eq_refl eq_refl).
Defined.

Lemma is_same_domain_accepts_witness :
  is_same_domain accept_host "https://ex.com" "https://cdn.ex.com/files/doc.pdf"
  = Ok true.
Proof.
  apply (proj2 (is_same_domain_accepts accept_host "https://ex.com"
                  "https://cdn.ex.com/files/doc.pdf"
                  (mkParse "https" "ex.com" "" "" "" "")
                  (mkParse "https" "cdn.ex.com" "/files/doc.pdf" "" "" "")
                  eq_refl eq_refl)).
  right. left. exists "cdn"%string. reflexivity.
Defined.

Lemma clean_url_no_fragment_witness :
  clean_url accept_host "https://www.arista.com/en/#top"
  = Ok "https://www.arista.com/en"%string
  /\ Py.contains "#" "https://www.arista.com/en" = false.
Proof.
  split; [vm_compute; reflexivity|].
  apply (clean_url_no_fragment accept_host "https://www.arista.com/en/#top"
           "https://www.arista.com/en").
  vm_compute. reflexivity.
Defined.

Lemma clean_url_keeps_scope_witness :
  clean_url accept_host "https://cdn.ex.com/files/#list"
  = Ok "https://cdn.ex.com/files"%string
  /\ is_same_domain accept_host "https://ex.com" "https://cdn.ex.com/files"
     = is_same_domain accept_host "https://ex.com" "https://cdn.ex.com/files/#list"
  /\ is_same_domain accept_host "https://cdn.ex.com/files" "https://ex.com"
     = is_same_domain accept_host "https://cdn.ex.com/files/#list" "https://ex.com".
Proof.
  exact (clean_url_keeps_scope accept_host "https://ex.com"
           "https://cdn.ex.com/files/#list"
           (mkParse "https" "cdn.ex.com" "/files/" "" "" "list")
           eq_refl eq_refl eq_refl).
Defined.

Lemma scrape_skips_unusable_anchors_witness :
  scrape_page_for_links_and_files accept_host "https://ex.com" "https://ex.com"
    default_extensions ∅ ∅ noisy_page []
  = scrape_page_for_links_and_files accept_host "https://ex.com" "https://ex.com"
      default_extensions ∅ ∅ quiet_page [].
Proof.
  apply (scrape_skips_unusable_anchors accept_host "https://ex.com"
           "https://ex.com" default_extensions ∅ ∅ noisy_page quiet_page []
           [Ok None; Ok (Some EmptyString); Raise WebDriverException;
            Ok (Some "https://ex.com/doc.pdf"%string)]);
    reflexivity.
Defined.

Lemma bfs_crawl_returns_witness :
  exists (files : gset string) (pages : Z),
    bfs_crawl accept_host 11 "https://ex.com" default_extensions (Int 10)
      (Int 10) small_site = Some (Ok (files, pages))
    /\ 0 <= pages <= Z.max 0 10.
Proof.
  apply (bfs_crawl_returns accept_host 11 "https://ex.com" default_extensions
           10 (Int 10) small_site).
  vm_compute. lia.
Defined.

Lemma bfs_crawl_ends_witness :
  exists st,
    bfs_run accept_host 5 "https://ex.com" default_extensions (Int 10) (Int 1)
      small_site = Some (Ok st)
    /\ rendered st = ["https://ex.com"%string]
    /\ pages_scraped st = 0
    /\ (queue st = []
        \/ lt_number (pages_scraped st) (Int 10) = false
        \/ lt_number (Z.of_nat (size (file_links st))) (Int 1) = false)
    /\ (Z.of_nat (length (rendered st)) = pages_scraped st
        \/ (Z.of_nat (length (rendered st)) = pages_scraped st + 1
            /\ lt_number (Z.of_nat (size (file_links st))) (Int 1) = false))
    /\ Forall (fun u => is_excluded_file u = false) (rendered st).
Proof.
  eexists. split; [vm_compute; reflexivity|].
  split; [reflexivity|]. split; [reflexivity|].
  apply (bfs_crawl_ends accept_host 5 "https://ex.com" default_extensions
           (Int 10) (Int 1) small_site).
  vm_compute. reflexivity.
Defined.

Lemma bfs_crawl_collects_witness :
  exists p : ParseResult,
    urlparse accept_host "https://ex.com" EmptyString = Ok p
    /\ (urlunparse (clean_parts p)
        ∉ ({["https://ex.com/doc.pdf"%string; "https://ex.com/doc2.pdf"%string]}
           : gset string))
    /\ forall x,
         x ∈ ({["https://ex.com/doc.pdf"%string; "https://ex.com/doc2.pdf"%string]}
              : gset string) ->
         is_valid_file_extension x default_extensions = true
         /\ is_same_domain accept_host (scheme p +:+ "://" +:+ netloc p) x = Ok true.
Proof.
  apply (bfs_crawl_collects accept_host 5 "https://ex.com" default_extensions
           (Int 10) (Int 10) small_site
           {["https://ex.com/doc.pdf"%string; "https://ex.com/doc2.pdf"%string]} 2).
  vm_compute. reflexivity.
Defined.


Lemma download_files_single_witness :
  let d := download_files accept_host {["https://ex.com/doc.pdf"%string]}
             (Int 10) good_network [0; 0]%nat new_world in
  exists t,
    d_submitted d = [t]
    /\ t_url t = "https://ex.com/doc.pdf"%string
    /\ (t_response t, t_now t) = good_network "https://ex.com/doc.pdf"
    /\ let once := save_file_with_metadata "https://ex.com/doc.pdf"
                     (t_save_path t) (t_response t) (t_now t)
                     (metadata_file new_world) in
       d_results d = [Returned (fst once)]
       /\ metadata_file (d_world d) = snd once
       /\ d_return d = Ok PyNone.
Proof.
  exact (download_files_single accept_host "https://ex.com/doc.pdf" (Int 10)
           good_network [0; 0]%nat new_world
           (mkParse "https" "ex.com" "/doc.pdf" "" "" "")
           eq_refl eq_refl).
Defined.



Lemma bfs_crawl_zero_page_quota_witness :
  (exists st, bfs_run accept_host 3 "https://ex.com" default_extensions (Int 0)
                (Int 10) small_site = Some (Ok st) /\ rendered st = [])
  /\ bfs_crawl accept_host 3 "https://ex.com" default_extensions (Int 0)
       (Int 10) small_site = Some (Ok (∅, 0)).
Proof.
  exact (bfs_crawl_zero_page_quota accept_host 3 "https://ex.com"
           default_extensions 0 (Int 10) small_site
           (mkParse "https" "ex.com" "" "" "" "")
           ltac:(lia) eq_refl).
Defined.

Lemma bfs_crawl_nothing_renders_witness :
  bfs_run accept_host 3 "https://ex.com" default_extensions (Int 10) (Int 10)
    dead_driver
  = Some (Ok (mkCrawl [] {["https://ex.com"%string]} ∅ 1 ["https://ex.com"%string]))
  /\ bfs_crawl accept_host 3 "https://ex.com" default_extensions (Int 10)
       (Int 10) dead_driver = Some (Ok (∅, 1)).
Proof.
  exact (bfs_crawl_nothing_renders accept_host 3 "https://ex.com"
           default_extensions (Int 10) (Int 10) dead_driver
           (mkParse "https" "ex.com" "" "" "" "")
           (fun _ _ => ex_intro _ TimeoutException eq_refl)
           eq_refl eq_refl eq_refl eq_refl ltac:(lia)).
Defined.

Lemma scrape_and_download_returns_witness :
  exists (pages : Z) (files : nat) (d : Download),
    scrape_and_download accept_host 11 "https://ex.com" (Int 10) (Int 1) true
      small_site good_network [] new_world = Some (Ok (FinalStats pages files d))
    /\ 0 <= pages <= Z.max 0 10
    /\ d_return d = Ok PyNone
    /\ (length (d_submitted d) <= files)%nat
    /\ Z.of_nat (length (d_submitted d)) <= Z.max 0 1
    /\ forall t, In t (d_submitted d) ->
         is_valid_file_extension (t_url t) default_extensions = true
         /\ is_same_domain accept_host ("https" +:+ "://" +:+ "ex.com") (t_url t)
            = Ok true.
Proof.
  exact (scrape_and_download_returns accept_host 11 "https://ex.com" 10 (Int 1)
           small_site good_network [] new_world
           (mkParse "https" "ex.com" "" "" "" "")
           eq_refl ltac:(vm_compute; lia)).
Defined.

Lemma get_extension_from_url_spec_witness :
  get_extension_from_url "https://ex.com/files/REPORT.PDF" = ".pdf"%string.
Proof.
  apply (proj1 (get_extension_from_url_spec "https://ex.com/files/REPORT.PDF")).
  - now left.
  - vm_compute. reflexivity.
Defined.

Lemma scrape_answers_witness :
  is_valid_file_extension "https://ex.com/doc.pdf" default_extensions = true
  /\ is_same_domain accept_host "https://ex.com" "https://ex.com/doc.pdf" = Ok true
  /\ ("https://ex.com/doc.pdf"%string ∉ (∅ : gset string))
  /\ ("https://ex.com/doc.pdf"%string ∉ (∅ : gset string)).
Proof.
  apply (proj1 (scrape_answers accept_host "https://ex.com" "https://ex.com"
                  default_extensions ∅ ∅ small_site [])).
  vm_compute. reflexivity.
Defined.

Lemma download_files_submits_witness :
  let d := download_files accept_host
             {["https://ex.com/doc.pdf"%string; "https://ex.com/doc2.pdf"%string]}
             (Int 1) good_network [] new_world in
  Z.of_nat (length (d_submitted d)) = 1
  /\ NoDup (List.map t_url (d_submitted d)).
Proof.
  pose proof (download_files_submits accept_host
                {["https://ex.com/doc.pdf"%string; "https://ex.com/doc2.pdf"%string]}
                (Int 1) good_network [] new_world) as (_ & Hnd & _ & Hn & _).
  split; [|exact Hnd]. now apply Hn.
Defined.

